(** * Portfolio optimizer front ends: request building, validation, selection

    A shallow embedding of the browser code that stands between the user and
    the optimization engine:

    - [Pro]        portfolio-pro/frontend/Calculation.js
    - [V2]         portfolio_app_v2/frontend/js/dashboard.js
    - [Api]        portfolio_app_v3/frontend/js/api.js
    - [Dashboard]  the dashboard.js that validates a budget and calls [Api]
                   with (assets, params, level)
    - [V6]         portfolio_app_v6/frontend/js/dashboard.js
    - [Engine]     the parts of the engine that are described by the
                   specification only (the solver side is not JavaScript)

    JavaScript numbers are modelled as exact rationals plus NaN: rounding of
    IEEE doubles and the two infinities are outside the model.  Every
    arithmetic result is stored in lowest terms ([Qred]), so that equal
    numbers are equal terms.  Sums, differences and quotients are exact and
    a decimal text is read as its exact value, where the pages round each to
    the nearest binary64 number; comparisons of stored numbers are the same
    in both.  What [validateForm] lets through when it adds the minimum
    weights or reads the budget is therefore stated for whole numbers, on
    which the sums and the readings of the pages are exact. *)

From Stdlib Require Import QArith Qreduction Qabs Qround Qminmax Ascii String Lqa.
From stdpp Require Import base option list strings gmap sorting.

Open Scope string_scope.

(** ** JavaScript values *)

Module Js.

Inductive num : Type :=
  | Fin (q : Q)
  | NaN.

(** [null] and [undefined] are both [None]: the code only tests such values
    with [!= null], [??] and truthiness, which do not tell them apart. *)
Definition value := option num.

Definition of_Z (z : Z) : num := Fin (inject_Z z).

Definition add (a b : num) : num :=
  match a, b with
  | Fin x, Fin y => Fin (Qred (x + y))
  | _, _ => NaN
  end.

Definition sub (a b : num) : num :=
  match a, b with
  | Fin x, Fin y => Fin (Qred (x - y))
  | _, _ => NaN
  end.

(** [x / 100] *)
Definition div100 (a : num) : num :=
  match a with
  | Fin x => Fin (Qred (x / 100))
  | NaN => NaN
  end.

Definition abs (a : num) : num :=
  match a with
  | Fin x => Fin (Qred (Qabs x))
  | NaN => NaN
  end.

Definition Qltb (x y : Q) : bool := negb (Qle_bool y x).

(** [a < b], [a > b], [a <= b]: false as soon as one side is NaN *)
Definition lt (a b : num) : bool :=
  match a, b with
  | Fin x, Fin y => Qltb x y
  | _, _ => false
  end.

Definition gt (a b : num) : bool := lt b a.

Definition le (a b : num) : bool :=
  match a, b with
  | Fin x, Fin y => Qle_bool x y
  | _, _ => false
  end.

(** truthiness of a number-or-null: null, 0 and NaN are falsy *)
Definition truthy (v : value) : bool :=
  match v with
  | Some (Fin q) => negb (Qeq_bool q 0)
  | _ => false
  end.

(** [v || d] on numbers *)
Definition or_else (v : value) (d : num) : num :=
  if truthy v then default d v else d.

(** [parseFloat] of a value that already is a number: the number is printed
    and read back, which gives the same number. *)
Definition parseFloat_num (n : num) : num := n.

(** *** [parseFloat] and [parseInt] on strings *)

Definition is_ws (c : ascii) : bool :=
  let n := nat_of_ascii c in
  (n =? 32)%nat || ((9 <=? n)%nat && (n <=? 13)%nat).

Fixpoint skip_ws (s : string) : string :=
  match s with
  | String c r => if is_ws c then skip_ws r else s
  | EmptyString => s
  end.

Definition digit_of (c : ascii) : option Z :=
  let n := nat_of_ascii c in
  if (48 <=? n)%nat && (n <=? 57)%nat then Some (Z.of_nat (n - 48)) else None.

(** the longest run of decimal digits at the head of [s], and what follows *)
Fixpoint take_digits (s : string) : list Z * string :=
  match s with
  | String c r =>
      match digit_of c with
      | Some d => let '(ds, rest) := take_digits r in (d :: ds, rest)
      | None => ([], s)
      end
  | EmptyString => ([], s)
  end.

Definition digits_val (ds : list Z) : Z :=
  fold_left (fun acc d => 10 * acc + d)%Z ds 0%Z.

(** an optional sign: [true] for a leading minus *)
Definition take_sign (s : string) : bool * string :=
  match s with
  | String "-" r => (true, r)
  | String "+" r => (false, r)
  | _ => (false, s)
  end.

(** the value of an exponent part [e|E [+|-] digits] at the head of [s],
    0 when there is none *)
Definition exponent (s : string) : Z :=
  match s with
  | String c r =>
      if (Ascii.eqb c "e" || Ascii.eqb c "E")%bool then
        let '(neg, r') := take_sign r in
        match take_digits r' with
        | ([], _) => 0%Z
        | (ds, _) => if neg then (- digits_val ds)%Z else digits_val ds
        end
      else 0%Z
  | EmptyString => 0%Z
  end.

(** [parseFloat(s)]: leading white space is skipped, the longest prefix that
    is a decimal literal is read, NaN when there is none.  The inputs read
    here are number fields, whose value is empty or a decimal literal; the
    literal [Infinity] is outside the model. *)
Definition parseFloat (s : string) : num :=
  let '(neg, s0) := take_sign (skip_ws s) in
  let '(ip, s1) := take_digits s0 in
  let '(fp, s2) :=
    match s1 with
    | String "." r => take_digits r
    | _ => ([], s1)
    end in
  match (ip ++ fp)%list with
  | [] => NaN
  | ds =>
      let m := inject_Z (digits_val ds) in
      let e := (exponent s2 - Z.of_nat (length fp))%Z in
      let q := (m * Qpower 10 e)%Q in
      Fin (Qred (if neg then - q else q))
  end.

Definition hex_digit_of (c : ascii) : option Z :=
  let n := nat_of_ascii c in
  if (48 <=? n)%nat && (n <=? 57)%nat then Some (Z.of_nat (n - 48))
  else if (65 <=? n)%nat && (n <=? 70)%nat then Some (Z.of_nat (n - 55))
  else if (97 <=? n)%nat && (n <=? 102)%nat then Some (Z.of_nat (n - 87))
  else None.

Fixpoint take_hex_digits (s : string) : list Z :=
  match s with
  | String c r =>
      match hex_digit_of c with
      | Some d => d :: take_hex_digits r
      | None => []
      end
  | EmptyString => []
  end.

Definition hex_val (ds : list Z) : Z :=
  fold_left (fun acc d => 16 * acc + d)%Z ds 0%Z.

(** the digits [parseInt] reads after the sign, as their value: in base
    sixteen after a prefix [0x] or [0X], in base ten otherwise; [None] when
    there is no digit *)
Definition int_digits (s : string) : option Z :=
  let decimal :=
    match take_digits s with
    | ([], _) => None
    | (ds, _) => Some (digits_val ds)
    end in
  match s with
  | String "0" (String x r) =>
      if (Ascii.eqb x "x" || Ascii.eqb x "X")%bool then
        match take_hex_digits r with
        | [] => None
        | ds => Some (hex_val ds)
        end
      else decimal
  | _ => decimal
  end.

(** [parseInt(s)], called without a radix *)
Definition parseInt (s : string) : num :=
  let '(neg, s0) := take_sign (skip_ws s) in
  match int_digits s0 with
  | None => NaN
  | Some m => of_Z (if neg then - m else m)
  end.

End Js.

(** ** Assets and what the pages show *)

(** One entry of the selected-asset list.  The two oldest pages push
    [{ticker, name, sector}] only; the fields they leave out read as
    [undefined], which is [None] here. *)
Record Asset : Type := mkAsset {
  ticker : string;
  name : string;
  sector : string;
  quantity : Js.value;
  weight : Js.value;
  minWeight : Js.value;
  maxWeight : Js.value
}.

(** why [validateForm] refuses a form; the text of each message is built
    from these data *)
Inductive ValidationError : Type :=
  | TooFewAssets
  | QuantityMissing (t : string)
  | QuantityAbove100 (t : string)
  | BudgetBelow100
  | MinAboveMax (t : string) (mn mx : Js.value)
  | MinSumAbove100 (total : Js.num).

Inductive Message : Type :=
  | AssetAlreadyAdded
  | AddMinimumTwoAssets
  | Invalid (e : ValidationError)
  | ApiError (msg : string)
  | OptimizationError (msg : string)
  | FrontierComingSoon.

(** What a handler does that can be seen from outside: dialogs, the loader,
    the requests it sends and what it renders.  [Req] is what a request
    carries, [View] what is put on the page. *)
Inductive Event (Req View : Type) : Type :=
  | Alert (m : Message)
  | AssetListRendered
  | LoaderOn
  | LoaderOff
  | ResultsHidden
  | Request (r : Req)
  | ResultsRendered (v : View).

Arguments Alert {Req View} m.
Arguments AssetListRendered {Req View}.
Arguments LoaderOn {Req View}.
Arguments LoaderOff {Req View}.
Arguments ResultsHidden {Req View}.
Arguments Request {Req View} r.
Arguments ResultsRendered {Req View} v.

(** the requests of a trace, in order *)
Definition requests {Req View} (tr : list (Event Req View)) : list Req :=
  omap (fun e => match e with Request r => Some r | _ => None end) tr.

(** the results a trace renders *)
Definition rendered {Req View} (tr : list (Event Req View)) : list View :=
  omap (fun e => match e with ResultsRendered v => Some v | _ => None end) tr.

(** what an awaited call gives: a value, or the message of the error thrown *)
Definition outcome (Res : Type) : Type := Res + string.

(** *** The selected-asset list *)

Module AssetList.

(** [assets.some(a => a.ticker === t)] *)
Definition some_ticker (t : string) (l : list Asset) : bool :=
  existsb (fun a => String.eqb (ticker a) t) l.

(** [assets.filter(a => a.ticker !== t)] *)
Definition filter_out (t : string) (l : list Asset) : list Asset :=
  List.filter (fun a => negb (String.eqb (ticker a) t)) l.

(** [const a = assets.find(a => a.ticker === t); if (a) a = f(a)]: the first
    entry with that ticker is changed in place *)
Fixpoint update_first (t : string) (f : Asset -> Asset) (l : list Asset) : list Asset :=
  match l with
  | [] => []
  | a :: r => if String.eqb (ticker a) t then f a :: r else a :: update_first t f r
  end.

Definition tickers (l : list Asset) : list string := map ticker l.

End AssetList.

(** *** The answer of the first two engines *)

Record Metrics : Type := {
  sortino_ratio : Js.num;
  var_95 : Js.num;
  cvar_95 : Js.num
}.

Record Response : Type := {
  optimized_weights : list (string * Js.num);
  expected_return : Js.num;
  expected_volatility : Js.num;
  sharpe_ratio : Js.num;
  diversification_ratio : Js.num;
  metrics : Metrics
}.

(** ** portfolio-pro/frontend/Calculation.js *)

Module Pro.

Record AppState : Type := {
  assets : list Asset;
  results : option Response
}.

(** the inputs [optimize] reads from the page *)
Record Form : Type := {
  startDate : string;
  endDate : string;
  algorithm : string;
  riskFreeRate : string
}.

Record PayloadAsset : Type := {
  pa_ticker : string;
  allocation : Js.num
}.

Record Payload : Type := {
  p_assets : list PayloadAsset;
  start_date : string;
  end_date : string;
  optimization_goal : string;
  risk_free_rate : Js.num
}.

Definition trace : Type := list (Event Payload Response).

Definition addAsset (st : AppState) (t n s : string) : AppState * trace :=
  if AssetList.some_ticker t (assets st) then (st, [Alert AssetAlreadyAdded])
  else ({| assets := assets st ++ [mkAsset t n s None None None None];
           results := results st |},
        [AssetListRendered]).

Definition removeAsset (st : AppState) (t : string) : AppState * trace :=
  ({| assets := AssetList.filter_out t (assets st); results := results st |},
   [AssetListRendered]).

Definition build_payload (form : Form) (st : AppState) : Payload :=
  {| p_assets := map (fun a => {| pa_ticker := ticker a; allocation := Js.of_Z 0 |}) (assets st);
     start_date := startDate form;
     end_date := endDate form;
     optimization_goal := algorithm form;
     risk_free_rate := Js.div100 (Js.parseFloat (riskFreeRate form)) |}.

(** [apiCall] alerts and rethrows when the request fails; [optimize] has no
    [catch], only the [finally] that stops the loader. *)
Definition optimize (server : Payload -> outcome Response) (form : Form)
    (st : AppState) : AppState * trace :=
  if (length (assets st) <? 2)%nat then (st, [Alert AddMinimumTwoAssets])
  else
    let payload := build_payload form st in
    match server payload with
    | inl data =>
        ({| assets := assets st; results := Some data |},
         [LoaderOn; ResultsHidden; Request payload; ResultsRendered data; LoaderOff])
    | inr msg =>
        (st, [LoaderOn; ResultsHidden; Request payload; Alert (ApiError msg); LoaderOff])
    end.

Definition showFrontier (st : AppState) : AppState * trace :=
  (st, [Alert FrontierComingSoon]).

(** the page starts with an empty list; one step is one handler run *)
Definition init : AppState := {| assets := []; results := None |}.

Inductive step : AppState -> AppState -> Prop :=
  | step_addAsset st t n s : step st (fst (addAsset st t n s))
  | step_removeAsset st t : step st (fst (removeAsset st t))
  | step_optimize server form st : step st (fst (optimize server form st))
  | step_showFrontier st : step st (fst (showFrontier st)).

End Pro.

(** ** portfolio_app_v2/frontend/js/dashboard.js *)

Module V2.

Record DashboardState : Type := {
  assets : list Asset;
  isManualWeights : bool
}.

Record Form : Type := {
  startDate : string;
  endDate : string;
  algorithm : string;
  riskFreeRate : string
}.

Record PayloadAsset : Type := {
  pa_ticker : string;
  pa_weight : Js.value
}.

Record Payload : Type := {
  p_assets : list PayloadAsset;
  start_date : string;
  end_date : string;
  optimization_goal : string;
  risk_free_rate : Js.num;
  manual_weights : bool
}.

Definition trace : Type := list (Event Payload Response).

Definition addAsset (st : DashboardState) (t n s : string) : DashboardState * trace :=
  if AssetList.some_ticker t (assets st) then (st, [Alert AssetAlreadyAdded])
  else ({| assets := assets st ++ [mkAsset t n s None None None None];
           isManualWeights := isManualWeights st |},
        [AssetListRendered]).

Definition removeAsset (st : DashboardState) (t : string) : DashboardState * trace :=
  ({| assets := AssetList.filter_out t (assets st);
      isManualWeights := isManualWeights st |},
   [AssetListRendered]).

(** [asset.weight = parseFloat(value) || null] *)
Definition set_weight (v : string) (a : Asset) : Asset :=
  let n := Js.parseFloat v in
  mkAsset (ticker a) (name a) (sector a) (quantity a)
    (if Js.truthy (Some n) then Some n else None) (minWeight a) (maxWeight a).

Definition updateAssetWeight (st : DashboardState) (t v : string) : DashboardState :=
  {| assets := AssetList.update_first t (set_weight v) (assets st);
     isManualWeights := isManualWeights st |}.

(** [DashboardState.isManualWeights ? (a.weight ? a.weight / 100 : null) : null] *)
Definition payload_weight (manual : bool) (a : Asset) : Js.value :=
  if manual then
    match weight a with
    | Some w => if Js.truthy (Some w) then Some (Js.div100 w) else None
    | None => None
    end
  else None.

Definition build_payload (form : Form) (st : DashboardState) : Payload :=
  {| p_assets :=
       map (fun a => {| pa_ticker := ticker a;
                        pa_weight := payload_weight (isManualWeights st) a |})
           (assets st);
     start_date := startDate form;
     end_date := endDate form;
     optimization_goal := algorithm form;
     risk_free_rate := Js.div100 (Js.parseFloat (riskFreeRate form));
     manual_weights := isManualWeights st |}.

Definition runOptimize (server : Payload -> outcome Response) (form : Form)
    (st : DashboardState) : DashboardState * trace :=
  if (length (assets st) <? 2)%nat then (st, [Alert AddMinimumTwoAssets])
  else
    let payload := build_payload form st in
    match server payload with
    | inl data =>
        (st, [LoaderOn; ResultsHidden; Request payload; ResultsRendered data; LoaderOff])
    | inr msg =>
        (st, [LoaderOn; ResultsHidden; Request payload;
              Alert (OptimizationError msg); LoaderOff])
    end.

Definition showFrontier (st : DashboardState) : DashboardState * trace :=
  (st, [Alert FrontierComingSoon]).

(** the click on the manual-weights switch; [active] tells whether the switch
    carries the class [active] after the click *)
Definition toggleManual (active : bool) (st : DashboardState) : DashboardState :=
  {| assets := assets st; isManualWeights := active |}.

Definition init : DashboardState := {| assets := []; isManualWeights := false |}.

Inductive step : DashboardState -> DashboardState -> Prop :=
  | step_addAsset st t n s : step st (fst (addAsset st t n s))
  | step_removeAsset st t : step st (fst (removeAsset st t))
  | step_updateAssetWeight st t v : step st (updateAssetWeight st t v)
  | step_toggleManual active st : step st (toggleManual active st)
  | step_runOptimize server form st : step st (fst (runOptimize server form st))
  | step_showFrontier st : step st (fst (showFrontier st)).

End V2.

(** ** portfolio_app_v3/frontend/js/api.js *)

Module Api.

(** the [params] object; a field that is [undefined] is [None] and takes the
    default of the destructuring pattern *)
Record Params : Type := {
  budget : Js.value;
  startDate : option string;
  endDate : option string;
  optimizationModel : option string;
  riskFreeRate : Js.value;
  maxAssets : option string;
  isManualWeights : bool
}.

(** the arguments of one [runOptimization(assets, params, knowledgeLevel)] *)
Record Call : Type := {
  call_assets : list Asset;
  call_params : Params;
  call_level : option string
}.

Record Limits : Type := {
  min : Js.num;
  max : Js.num
}.

Record PayloadAsset : Type := {
  pa_ticker : string;
  pa_weight : Js.value
}.

Record Payload : Type := {
  p_assets : list PayloadAsset;
  p_budget : Js.num;
  start_date : option string;
  end_date : option string;
  optimization_model : string;
  risk_free_rate : Js.num;
  max_assets : Js.value;
  allocation_limits : option (gmap string Limits);
  manual_weights : bool;
  knowledge_level : string
}.

(** [x != null ? parseFloat(x) / 100 : null] *)
Definition limit_of (x : Js.value) : Js.value :=
  (fun n => Js.div100 (Js.parseFloat_num n)) <$> x.

(** one turn of the [forEach] that fills [allocationLimits] and
    [hasAnyLimit] *)
Definition add_limit (acc : gmap string Limits * bool) (a : Asset)
    : gmap string Limits * bool :=
  let mn := limit_of (minWeight a) in
  let mx := limit_of (maxWeight a) in
  match mn, mx with
  | None, None => acc
  | _, _ =>
      (<[ticker a := {| min := default (Js.of_Z 0) mn;
                        max := default (Js.of_Z 1) mx |}]> (fst acc), true)
  end.

Definition allocationLimits (l : list Asset) : gmap string Limits * bool :=
  fold_left add_limit l (∅, false).

(** [isManualWeights && a.weight ? parseFloat(a.weight) / 100 : null] *)
Definition payload_weight (manual : bool) (a : Asset) : Js.value :=
  if manual && Js.truthy (weight a)
  then (fun w => Js.div100 (Js.parseFloat_num w)) <$> weight a
  else None.

(** [a || b || 'beginner'] on strings: the empty string is falsy *)
Definition first_level (a b : option string) : string :=
  match a with
  | Some (String c r) => String c r
  | _ => match b with
         | Some (String c r) => String c r
         | _ => "beginner"
         end
  end.

(** [stored] is what [AppState.get('knowledgeLevel')] gives *)
Definition buildOptimizationPayload (stored : option string) (assets : list Asset)
    (params : Params) (knowledgeLevel : option string) : Payload :=
  let limits := allocationLimits assets in
  {| p_assets :=
       map (fun a => {| pa_ticker := ticker a;
                        pa_weight := payload_weight (isManualWeights params) a |})
           assets;
     p_budget := Js.parseFloat_num (default (Js.of_Z 10000) (budget params));
     start_date := startDate params;
     end_date := endDate params;
     optimization_model := default "max_sharpe" (optimizationModel params);
     risk_free_rate := Js.parseFloat_num (default (Js.Fin (1 # 50)) (riskFreeRate params));
     max_assets :=
       match maxAssets params with
       | Some (String c r) => Some (Js.parseInt (String c r))
       | _ => None
       end;
     allocation_limits := if snd limits then Some (fst limits) else None;
     manual_weights := isManualWeights params;
     knowledge_level := first_level knowledgeLevel stored |}.

(** the body that [runOptimization] posts to [/api/optimize] *)
Definition payload_of (stored : option string) (c : Call) : Payload :=
  buildOptimizationPayload stored (call_assets c) (call_params c) (call_level c).

End Api.

(** *** The answer of the later engines *)

Record Portfolio : Type := {
  p_name : string;
  p_tickers : list string;
  p_weights : list Js.num;
  p_sharpe : Js.value
}.

Record Data : Type := {
  input_portfolio : option Portfolio;
  all_portfolios : option (list Portfolio);
  best_portfolio : option string
}.

(** [p.name === data.best_portfolio] *)
Definition is_best (best : option string) (p : Portfolio) : bool :=
  match best with
  | Some b => String.eqb (p_name p) b
  | None => false
  end.

(** [data.all_portfolios || []] *)
Definition result_set (data : Data) : list Portfolio :=
  default [] (all_portfolios data).

(** the same function in both dashboards *)
Definition getBestPortfolio (data : Data) : option Portfolio :=
  let portfolios := result_set data in
  match portfolios with
  | [] => None
  | first :: _ =>
      match List.find (is_best (best_portfolio data)) portfolios with
      | Some p => Some p
      | None => Some first
      end
  end.

(** the portfolios that the professional page labels as best:
    [p.name === data.best_portfolio] in [renderProResults] *)
Definition labelled_best (data : Data) : list Portfolio :=
  List.filter (is_best (best_portfolio data)) (result_set data).

(** ** The two later dashboards

    [Dashboard] is the dashboard.js that validates a budget; [V6] is
    portfolio_app_v6/frontend/js/dashboard.js.  Both keep the same state, and
    [addAsset], [removeAsset] and the write of [updateAssetField] are the same
    text in both.  Updates that only repaint a cell (the budget display, the
    allocation banner) are not part of a trace. *)

Record DashboardState : Type := {
  assets : list Asset;
  isManualWeights : bool;
  lastResult : option Data
}.

(** the inputs the handlers read from the page; [None] when the element is
    not on the page (read through [?.]) *)
Record Form : Type := {
  budget : option string;
  startDate : string;
  endDate : string;
  algorithm : string;
  riskFreeRate : string;
  maxAssets : option string
}.

(** the fields that the inputs of an asset row write *)
Inductive Field : Type := FQuantity | FWeight | FMinWeight | FMaxWeight.

Definition trace : Type := list (Event Api.Call (Data * string)).

Definition set_assets (st : DashboardState) (l : list Asset) : DashboardState :=
  {| assets := l; isManualWeights := isManualWeights st; lastResult := lastResult st |}.

Definition addAsset (st : DashboardState) (t n s : string) : DashboardState * trace :=
  if AssetList.some_ticker t (assets st) then (st, [Alert AssetAlreadyAdded])
  else (set_assets st (assets st ++ [mkAsset t n s None None None None]),
        [AssetListRendered]).

Definition removeAsset (st : DashboardState) (t : string) : DashboardState * trace :=
  (set_assets st (AssetList.filter_out t (assets st)), [AssetListRendered]).

(** [asset[field] = value !== '' ? parseFloat(value) : null] *)
Definition set_field (f : Field) (v : string) (a : Asset) : Asset :=
  let x := match v with
           | EmptyString => None
           | _ => Some (Js.parseFloat v)
           end in
  match f with
  | FQuantity => mkAsset (ticker a) (name a) (sector a) x (weight a) (minWeight a) (maxWeight a)
  | FWeight => mkAsset (ticker a) (name a) (sector a) (quantity a) x (minWeight a) (maxWeight a)
  | FMinWeight => mkAsset (ticker a) (name a) (sector a) (quantity a) (weight a) x (maxWeight a)
  | FMaxWeight => mkAsset (ticker a) (name a) (sector a) (quantity a) (weight a) (minWeight a) x
  end.

Definition updateAssetField (st : DashboardState) (t : string) (f : Field) (v : string)
    : DashboardState :=
  set_assets st (AssetList.update_first t (set_field f v) (assets st)).

(** [AppState.get('knowledgeLevel') === 'professional'] *)
Definition isPro (stored : option string) : bool :=
  match stored with
  | Some l => String.eqb l "professional"
  | None => false
  end.

(** [if (a.minWeight != null) totalMin += parseFloat(a.minWeight)] *)
Definition add_min (acc : Js.num) (a : Asset) : Js.num :=
  match minWeight a with
  | Some mn => Js.add acc (Js.parseFloat_num mn)
  | None => acc
  end.

(** the loop over the assets inside [if (isPro)], the same in both
    dashboards: the running [totalMin], or the first asset whose minimum is
    above its maximum *)
Fixpoint check_limits (l : list Asset) (totalMin : Js.num) : ValidationError + Js.num :=
  match l with
  | [] => inr totalMin
  | a :: r =>
      let totalMin' := add_min totalMin a in
      match minWeight a, maxWeight a with
      | Some mn, Some mx =>
          if Js.gt (Js.parseFloat_num mn) (Js.parseFloat_num mx)
          then inl (MinAboveMax (ticker a) (Some mn) (Some mx))
          else check_limits r totalMin'
      | _, _ => check_limits r totalMin'
      end
  end.

(** the whole [if (isPro) { ... }] block *)
Definition check_pro (stored : option string) (l : list Asset) : option ValidationError :=
  if isPro stored then
    match check_limits l (Js.of_Z 0) with
    | inl e => Some e
    | inr totalMin =>
        if Js.gt totalMin (Js.of_Z 100) then Some (MinSumAbove100 totalMin) else None
    end
  else None.

(** [document.getElementById('maxAssets')?.value || null] *)
Definition maxAssets_param (form : Form) : option string :=
  match maxAssets form with
  | Some (String c r) => Some (String c r)
  | _ => None
  end.

(** the body of the [try] of [runOptimize] once [params] is built, the same
    in both dashboards; [stored] is what [AppState.get('knowledgeLevel')]
    gives and [backend] what the awaited [runOptimization] gives *)
Definition submit (backend : Api.Call -> outcome Data) (stored : option string)
    (params : Api.Params) (st : DashboardState) : DashboardState * trace :=
  let level := Api.first_level stored None in
  let call := {| Api.call_assets := assets st;
                 Api.call_params := params;
                 Api.call_level := Some level |} in
  match backend call with
  | inl data =>
      ({| assets := assets st; isManualWeights := isManualWeights st;
          lastResult := Some data |},
       [LoaderOn; ResultsHidden; Request call; ResultsRendered (data, level); LoaderOff])
  | inr msg =>
      (st, [LoaderOn; ResultsHidden; Request call; Alert (OptimizationError msg); LoaderOff])
  end.

Module Dashboard.

Fixpoint check_quantities (l : list Asset) : option ValidationError :=
  match l with
  | [] => None
  | a :: r =>
      match quantity a with
      | Some q =>
          if negb (Js.truthy (Some q)) || Js.le q (Js.of_Z 0)
          then Some (QuantityMissing (ticker a))
          else check_quantities r
      | None => Some (QuantityMissing (ticker a))
      end
  end.

(** [parseFloat(document.getElementById('budget')?.value)] *)
Definition budget_value (form : Form) : Js.num :=
  match budget form with
  | Some v => Js.parseFloat v
  | None => Js.NaN
  end.

Definition validateForm (stored : option string) (form : Form) (st : DashboardState)
    : option ValidationError :=
  if (length (assets st) <? 2)%nat then Some TooFewAssets
  else
    match check_quantities (assets st) with
    | Some e => Some e
    | None =>
        let b := budget_value form in
        if negb (Js.truthy (Some b)) || Js.lt b (Js.of_Z 100) then Some BudgetBelow100
        else check_pro stored (assets st)
    end.

Definition build_params (form : Form) (st : DashboardState) : Api.Params :=
  {| Api.budget :=
       Some match budget form with
            | Some (String c r) => Js.parseFloat (String c r)
            | _ => Js.parseFloat_num (Js.of_Z 10000)
            end;
     Api.startDate := Some (startDate form);
     Api.endDate := Some (endDate form);
     Api.optimizationModel := Some (algorithm form);
     Api.riskFreeRate := Some (Js.div100 (Js.parseFloat (riskFreeRate form)));
     Api.maxAssets := maxAssets_param form;
     Api.isManualWeights := isManualWeights st |}.

Definition runOptimize (backend : Api.Call -> outcome Data) (stored : option string)
    (form : Form) (st : DashboardState) : DashboardState * trace :=
  match validateForm stored form st with
  | Some err => (st, [Alert (Invalid err)])
  | None => submit backend stored (build_params form st) st
  end.

End Dashboard.

Module V6.

Definition clearAllAssets (confirmed : bool) (st : DashboardState) : DashboardState * trace :=
  match assets st with
  | [] => (st, [])
  | _ => if confirmed then (set_assets st [], [AssetListRendered]) else (st, [])
  end.

Fixpoint check_quantities (l : list Asset) : option ValidationError :=
  match l with
  | [] => None
  | a :: r =>
      match quantity a with
      | Some q =>
          if negb (Js.truthy (Some q)) || Js.le q (Js.of_Z 0)
          then Some (QuantityMissing (ticker a))
          else if Js.gt q (Js.of_Z 100) then Some (QuantityAbove100 (ticker a))
          else check_quantities r
      | None => Some (QuantityMissing (ticker a))
      end
  end.

Definition validateForm (stored : option string) (st : DashboardState)
    : option ValidationError :=
  if (length (assets st) <? 2)%nat then Some TooFewAssets
  else
    match check_quantities (assets st) with
    | Some e => Some e
    | None => check_pro stored (assets st)
    end.

Definition build_params (form : Form) (st : DashboardState) : Api.Params :=
  {| Api.budget := Some (Js.of_Z 999999999);
     Api.startDate := Some (startDate form);
     Api.endDate := Some (endDate form);
     Api.optimizationModel := Some (algorithm form);
     Api.riskFreeRate := Some (Js.div100 (Js.parseFloat (riskFreeRate form)));
     Api.maxAssets := maxAssets_param form;
     Api.isManualWeights := isManualWeights st |}.

Definition runOptimize (backend : Api.Call -> outcome Data) (stored : option string)
    (form : Form) (st : DashboardState) : DashboardState * trace :=
  match validateForm stored st with
  | Some err => (st, [Alert (Invalid err)])
  | None => submit backend stored (build_params form st) st
  end.

(** what the banner under the asset table says *)
Inductive AllocBanner : Type :=
  | NoBanner
  | AllocOk
  | AllocUnder (total : Js.num)
  | AllocOver (total : Js.num).

(** [a.weight || 0] summed over the list *)
Definition total_weight (l : list Asset) : Js.num :=
  fold_left (fun s a => Js.add s (Js.or_else (weight a) (Js.of_Z 0))) l (Js.of_Z 0).

(** the argument [updateAllocWarning] passes on: [null] when no asset has a
    positive weight *)
Definition updateAllocWarning (st : DashboardState) : option Js.num :=
  match List.filter (fun a => match weight a with
                              | Some w => Js.gt w (Js.of_Z 0)
                              | None => false
                              end) (assets st) with
  | [] => None
  | _ => Some (total_weight (assets st))
  end.

Definition renderAllocWarning (total : option Js.num) : AllocBanner :=
  match total with
  | None => NoBanner
  | Some t =>
      if Js.lt (Js.abs (Js.sub t (Js.of_Z 100))) (Js.Fin (1 # 10)) then AllocOk
      else if Js.lt t (Js.of_Z 100) then AllocUnder t
      else AllocOver t
  end.

End V6.

(** the click on the manual-weights switch, the same in both dashboards;
    [active] tells whether the switch carries the class [active] after the
    click *)
Definition toggleManual (active : bool) (st : DashboardState) : DashboardState :=
  {| assets := assets st; isManualWeights := active; lastResult := lastResult st |}.

Definition init : DashboardState :=
  {| assets := []; isManualWeights := false; lastResult := None |}.

(** one handler run of either dashboard *)
Inductive step : DashboardState -> DashboardState -> Prop :=
  | step_addAsset st t n s : step st (fst (addAsset st t n s))
  | step_removeAsset st t : step st (fst (removeAsset st t))
  | step_updateAssetField st t f v : step st (updateAssetField st t f v)
  | step_toggleManual active st : step st (toggleManual active st)
  | step_clearAllAssets confirmed st : step st (fst (V6.clearAllAssets confirmed st))
  | step_runOptimize backend stored form st :
      step st (fst (Dashboard.runOptimize backend stored form st))
  | step_runOptimize6 backend stored form st :
      step st (fst (V6.runOptimize backend stored form st)).

(** the value of [totalMin] when the loop of [validateForm] runs to its end *)
Definition totalMin (l : list Asset) : Js.num :=
  fold_left add_min l (Js.of_Z 0).

(** a handler refused to go on: the state is as before, nothing was sent
    and no result was shown *)
Definition rejected {S Req View : Type} (st : S) (r : S * list (Event Req View)) : Prop :=
  fst r = st /\ requests (snd r) = [] /\ rendered (snd r) = [].

(** no two entries of the list have the same ticker *)
Definition unique (l : list Asset) : Prop := NoDup (AssetList.tickers l).

(** ** The engine, as the specification describes it

    The solvers and the frontier generator run on the server and are not
    JavaScript.  What follows is written from sections 4.3 and 4.5 of the
    specification. *)

Module Engine.

Local Open Scope Q_scope.

(** Modelled from the spec: the four objectives of the optimizer engine,
    which is server code, under the names a request uses for them. *)
Inductive Objective : Type := MaxSharpe | MinVolatility | RiskParity | MinCVaR.

Definition objective_name (o : Objective) : string :=
  match o with
  | MaxSharpe => "max_sharpe"
  | MinVolatility => "min_volatility"
  | RiskParity => "risk_parity"
  | MinCVaR => "min_cvar"
  end.

Definition all_objectives : list Objective :=
  [MaxSharpe; MinVolatility; RiskParity; MinCVaR].

(** Modelled from the spec: the part of an OptimizationResult that the
    selection of the best one looks at, with the weight vector; the results
    are built by server code. *)
Record OptimizationResult : Type := {
  r_weights : list (string * Q);
  r_sharpe : Q
}.

(** Modelled from the spec: the fan-out of an [objective = "all"] request,
    which is server code.  Each objective is solved on its own ([solve o] is
    [None] for a SolverError); the results that were computed are returned in
    the order of the objectives, the failed ones are left out. *)
Definition run_all (solve : Objective -> option OptimizationResult)
    : list (Objective * OptimizationResult) :=
  omap (fun o => (fun r => (o, r)) <$> solve o) all_objectives.

(** Modelled from the spec: the designation of the best result by Sharpe
    ratio, which is server code.  The first result with the largest ratio is
    kept. *)
Fixpoint best_by_sharpe (rs : list (Objective * OptimizationResult))
    : option (Objective * OptimizationResult) :=
  match rs with
  | [] => None
  | x :: rest =>
      match best_by_sharpe rest with
      | Some y => if Qle_bool (r_sharpe (snd y)) (r_sharpe (snd x)) then Some x else Some y
      | None => Some x
      end
  end.

(** Modelled from the spec: a result as an entry of [all_portfolios], under
    the name of its objective; the answer is assembled by server code. *)
Definition to_portfolio (x : Objective * OptimizationResult) : Portfolio :=
  {| p_name := objective_name (fst x);
     p_tickers := map fst (r_weights (snd x));
     p_weights := map (fun tw => Js.Fin (Qred (snd tw))) (r_weights (snd x));
     p_sharpe := Some (Js.Fin (Qred (r_sharpe (snd x)))) |}.

(** Modelled from the spec: the answer to an [objective = "all"] request as
    the dashboards read it, every computed result and the name of the best
    one. *)
Definition respond_all (solve : Objective -> option OptimizationResult) : Data :=
  let rs := run_all solve in
  {| input_portfolio := None;
     all_portfolios := Some (map to_portfolio rs);
     best_portfolio := (fun x => objective_name (fst x)) <$> best_by_sharpe rs |}.

(** *** Efficient frontier *)

Definition dot (u v : list Q) : Q :=
  fold_right Qplus 0 (zip_with Qmult u v).

Definition total (w : list Q) : Q := fold_right Qplus 0 w.

Section Frontier.

(** mean returns, covariance matrix (rows) and the bounds
    [(min_weight, max_weight)] of each asset *)
Variable mu : list Q.
Variable sigma : list (list Q).
Variable bounds : list (Q * Q).

(** Modelled from the spec: the objective of the minimum-volatility
    problem, [wᵗΣw], computed by server code.  It is the square of the
    volatility of [w]: two portfolios compare by volatility as they compare
    by variance. *)
Definition variance (w : list Q) : Q :=
  dot w (map (fun row => dot row w) sigma).

Definition within (x : Q) (b : Q * Q) : Prop := fst b <= x /\ x <= snd b.

(** Modelled from the spec: the weight vectors that the minimum-volatility
    problem with [w·μ ≥ target] ranges over, weights that sum to one and lie
    within the bounds of their assets; the problem is set up by server
    code. *)
Definition feasible (target : Q) (w : list Q) : Prop :=
  total w == 1 /\ Forall2 within w bounds /\ target <= dot w mu.

(** Modelled from the spec: the minimum-volatility solver is server code;
    the specification gives what it computes, not how.  [solver target] is
    [None] when the problem is infeasible. *)
Variable solver : Q -> option (list Q).

(** Modelled from the spec: what the minimum-volatility solver computes, a
    feasible weight vector of least variance; the solver is server code. *)
Definition solves : Prop :=
  forall target w, solver target = Some w ->
    feasible target w /\
    forall w', feasible target w' -> variance w <= variance w'.

(** Modelled from the spec: the [n] target returns of the sweep, evenly
    spaced from [lo] to [hi]; the sweep is server code. *)
Definition targets (lo hi : Q) (n : nat) : list Q :=
  map (fun i : nat => lo + inject_Z (Z.of_nat i) * ((hi - lo) / inject_Z (Z.of_nat (n - 1)%nat)))
      (seq 0%nat n).

(** Modelled from the spec: the sweep of the frontier generator, which is
    server code.  [lo] and [hi] are the least and the largest achievable
    expected return, which the generator computes before the sweep.  Each
    target is solved; a target whose problem is infeasible gives no
    point. *)
Definition efficient_frontier (lo hi : Q) (n : nat) : list (Q * Q) :=
  omap (fun t => (fun w => (t, variance w)) <$> solver t) (targets lo hi n).

End Frontier.

(** a frontier point is not above a later one, in return and in variance *)
Definition frontier_le (p q : Q * Q) : Prop := fst p <= fst q /\ snd p <= snd q.

End Engine.

(** ** Predicates on the weights of a request body *)

(** the weight entered for the asset is a number other than 0 *)
Definition entered_nonzero (a : Asset) : Prop :=
  exists q, weight a = Some (Js.Fin q) /\ ~ (q == 0)%Q.

(** the weight entered for the asset is 0, or none was entered *)
Definition entered_zero_or_unset (a : Asset) : Prop :=
  weight a = None \/ exists q, weight a = Some (Js.Fin q) /\ (q == 0)%Q.

(** what the body of a request may carry as the weight of asset [a] when
    the manual-weights flag of the body is [manual]: nothing unless the flag
    is set, and then only the entered weight divided by 100 *)
Definition fixed_only_if_manual (manual : bool) (a : Asset) (w : Js.value) : Prop :=
  (manual = false -> w = None) /\
  (forall x, w = Some x -> manual = true /\ exists e, weight a = Some e /\ x = Js.div100 e).

(** a weight is carried exactly when the flag is set and the entered weight
    is a number other than 0 *)
Definition zero_is_not_fixed (manual : bool) (a : Asset) (w : Js.value) : Prop :=
  (w <> None <-> manual = true /\ entered_nonzero a) /\
  (entered_zero_or_unset a -> w = None).

(** the assets of a body built by [Api] stand for the assets of the list,
    one for one, and their weights satisfy [P] *)
Definition Api_weights (P : bool -> Asset -> Js.value -> Prop) (l : list Asset)
    (p : Api.Payload) : Prop :=
  Forall2 (fun a pa => Api.pa_ticker pa = ticker a /\
                       P (Api.manual_weights p) a (Api.pa_weight pa))
          l (Api.p_assets p).

Definition V2_weights (P : bool -> Asset -> Js.value -> Prop) (l : list Asset)
    (p : V2.Payload) : Prop :=
  Forall2 (fun a pa => V2.pa_ticker pa = ticker a /\
                       P (V2.manual_weights p) a (V2.pa_weight pa))
          l (V2.p_assets p).

(** ** Sample inputs *)

Module Sample.

Definition asset (t : string) (q w mn mx : Js.value) : Asset :=
  mkAsset t t "" q w mn mx.

Definition pct (z : Z) : Js.value := Some (Js.of_Z z).

(** two assets, one share each, nothing else entered *)
Definition plain : list Asset :=
  [asset "AAPL" (pct 1) None None None; asset "MSFT" (pct 1) None None None].

(** two assets whose minimum weights are 60% each *)
Definition min_120 : list Asset :=
  [asset "AAPL" (pct 1) None (pct 60) None; asset "MSFT" (pct 1) None (pct 60) None].

(** the first asset has minimum 60% and maximum 40% *)
Definition min_above_max : list Asset :=
  [asset "AAPL" (pct 1) None (pct 60) (pct 40); asset "MSFT" (pct 1) None None None].

(** only a maximum is entered for the first asset, and it is negative *)
Definition lone_maximum : list Asset :=
  [asset "AAPL" (pct 1) None None (pct (-5)); asset "MSFT" (pct 1) None None None].

(** manual weights 70%, 0% and none *)
Definition weighted : list Asset :=
  [asset "AAPL" (pct 1) (pct 70) None None; asset "MSFT" (pct 1) (pct 0) None None;
   asset "NVDA" (pct 1) None None None].

Definition state (l : list Asset) (manual : bool) : DashboardState :=
  {| assets := l; isManualWeights := manual; lastResult := None |}.

Definition form : Form :=
  {| budget := Some "10000"; startDate := "2021-01-01"; endDate := "2024-01-01";
     algorithm := "max_sharpe"; riskFreeRate := "2"; maxAssets := Some "" |}.

Definition form_pro : Pro.Form :=
  {| Pro.startDate := "2021-01-01"; Pro.endDate := "2024-01-01";
     Pro.algorithm := "max_sharpe"; Pro.riskFreeRate := "2" |}.

Definition form_v2 : V2.Form :=
  {| V2.startDate := "2021-01-01"; V2.endDate := "2024-01-01";
     V2.algorithm := "max_sharpe"; V2.riskFreeRate := "2" |}.

(** two uncorrelated assets of variance 1 with mean returns 0 and 1 *)
Definition mu : list Q := [0; 1]%Q.
Definition sigma : list (list Q) := [[1; 0]; [0; 1]]%Q.
Definition bounds : list (Q * Q) := [(0, 1); (0, 1)]%Q.

(** a minimum-volatility solver in closed form for these two assets, both
    weights free in [0, 1] *)
Definition two_asset_solver (target : Q) : option (list Q) :=
  if Qle_bool target (1 # 2) then Some [1 # 2; 1 # 2]%Q
  else if Qle_bool target 1 then Some [1 - target; target]%Q
  else None.

(** three objectives solved, risk parity failed *)
Definition solve (o : Engine.Objective) : option Engine.OptimizationResult :=
  match o with
  | Engine.MaxSharpe =>
      Some {| Engine.r_weights := [("AAPL", 0.7); ("MSFT", 0.3)]%Q; Engine.r_sharpe := 0.8 |}
  | Engine.MinVolatility =>
      Some {| Engine.r_weights := [("AAPL", 0.4); ("MSFT", 0.6)]%Q; Engine.r_sharpe := 0.5 |}
  | Engine.RiskParity => None
  | Engine.MinCVaR =>
      Some {| Engine.r_weights := [("AAPL", 0.5); ("MSFT", 0.5)]%Q; Engine.r_sharpe := 0.9 |}
  end.

(** a server that is down *)
Definition down {Req Res : Type} (_ : Req) : outcome Res := inr "HTTP 503".

End Sample.

(** ** appState.js: the settings kept in localStorage *)

Module AppState.

(** what [get] can give: [true], [false] or a string *)
Inductive setting : Type :=
  | SBool (b : bool)
  | SStr (s : string).

(** [defaults], in the order of its keys *)
Definition default_list : list (string * setting) :=
  [ ("knowledgeLevel", SStr "beginner");
    ("currency", SStr "usd");
    ("language", SStr "ru");
    ("timezone", SStr "utc");
    ("dateFormat", SStr "ymd");
    ("compactMode", SBool false);
    ("theme", SStr "dark") ].

Definition defaults : gmap string setting := list_to_map default_list.

(** [get(key)]; [None] is [undefined], for a key that is neither stored nor
    among the defaults *)
Definition get (ls : gmap string string) (key : string) : option setting :=
  match ls !! key with
  | None => defaults !! key
  | Some val =>
      if String.eqb val "true" then Some (SBool true)
      else if String.eqb val "false" then Some (SBool false)
      else Some (SStr val)
  end.

(** [String(value)] *)
Definition to_string (v : setting) : string :=
  match v with
  | SBool true => "true"
  | SBool false => "false"
  | SStr s => s
  end.

Definition set (ls : gmap string string) (key : string) (value : setting)
    : gmap string string :=
  <[key := to_string value]> ls.

(** [Object.keys(this.defaults).forEach(key => localStorage.removeItem(key))] *)
Definition reset (ls : gmap string string) : gmap string string :=
  fold_left (fun acc key => delete key acc) (map fst default_list) ls.

Definition setKnowledgeLevel (ls : gmap string string) (level : string)
    : gmap string string :=
  set ls "knowledgeLevel" (SStr level).

Definition getSettingsHeaders (ls : gmap string string) : list (string * option setting) :=
  [ ("X-Settings-Currency", get ls "currency");
    ("X-Settings-Language", get ls "language");
    ("X-Settings-Timezone", get ls "timezone");
    ("X-Settings-DateFormat", get ls "dateFormat");
    ("X-Knowledge-Level", get ls "knowledgeLevel") ].

(** what a value reads back as once it went through the store: the strings
    [true] and [false] come back as booleans *)
Definition read_back (v : setting) : setting :=
  match v with
  | SBool b => SBool b
  | SStr s =>
      if String.eqb s "true" then SBool true
      else if String.eqb s "false" then SBool false
      else SStr s
  end.

End AppState.

(** ** settings.js: the settings page *)

Module Settings.

(** what the controls of the page hold: four selects and the switch of the
    compact mode *)
Record Controls : Type := {
  currency : string;
  language : string;
  timezone : string;
  dateFormat : string;
  compactToggle : bool
}.

(** the text assigned to the [value] of a control; [get] gives a value for
    every key of the page, [undefined] would be assigned as that word *)
Definition shown (v : option AppState.setting) : string :=
  match v with
  | Some x => AppState.to_string x
  | None => "undefined"
  end.

(** [AppState.get('compactMode') === true] *)
Definition compact (ls : gmap string string) : bool :=
  match AppState.get ls "compactMode" with
  | Some (AppState.SBool true) => true
  | _ => false
  end.

Definition loadSettings (ls : gmap string string) : Controls :=
  {| currency := shown (AppState.get ls "currency");
     language := shown (AppState.get ls "language");
     timezone := shown (AppState.get ls "timezone");
     dateFormat := shown (AppState.get ls "dateFormat");
     compactToggle := compact ls |}.

(** the click on the save button *)
Definition save (c : Controls) (ls : gmap string string) : gmap string string :=
  let ls := AppState.set ls "currency" (AppState.SStr (currency c)) in
  let ls := AppState.set ls "language" (AppState.SStr (language c)) in
  let ls := AppState.set ls "timezone" (AppState.SStr (timezone c)) in
  let ls := AppState.set ls "dateFormat" (AppState.SStr (dateFormat c)) in
  AppState.set ls "compactMode" (AppState.SBool (compactToggle c)).

(** the click on the reset button; [confirmed] is the answer to [confirm] *)
Definition reset (confirmed : bool) (c : Controls) (ls : gmap string string)
    : Controls * gmap string string :=
  if confirmed then (loadSettings (AppState.reset ls), AppState.reset ls) else (c, ls).

(** [applyCompactMode]: whether [body] carries the class [compact] afterwards *)
Definition applyCompactMode (ls : gmap string string) : bool := compact ls.

Definition saved_keys : list string :=
  ["currency"; "language"; "timezone"; "dateFormat"; "compactMode"].

End Settings.

(** ** market.js: favourites, filters and the list for analysis

    The pages keep arrays of symbols in localStorage as JSON text.
    [JSON.stringify] and [JSON.parse] are taken as given, on arrays of
    strings: [parse] is [None] when [JSON.parse] throws. *)

Record Json : Type := {
  stringify : list string -> string;
  parse : string -> option (list string)
}.

(** what is used of a JSON codec: a printed array parses back to itself,
    the print of an array is not the empty text, and the text [[]] is the
    empty array *)
Definition json_laws (J : Json) : Prop :=
  (forall l, parse J (stringify J l) = Some l) /\
  (forall l, stringify J l <> "") /\
  parse J "[]" = Some [].

(** [localStorage.getItem(key) || '[]'] *)
Definition item_or_empty_array (ls : gmap string string) (key : string) : string :=
  match ls !! key with
  | Some (String c r) => String c r
  | _ => "[]"
  end.

(** [l.includes(x)] and [l.indexOf(x) !== -1] on an array of strings *)
Definition includes_symbol (l : list string) (x : string) : bool :=
  existsb (String.eqb x) l.

(** [l.splice(l.indexOf(x), 1)] for an [x] that occurs in [l]: the first
    occurrence is taken out *)
Fixpoint remove_first (x : string) (l : list string) : list string :=
  match l with
  | [] => []
  | y :: r => if String.eqb y x then r else y :: remove_first x r
  end.

(** [s.includes(q)] on strings: [q] occurs in [s] *)
Fixpoint starts_with (q s : string) : bool :=
  match q, s with
  | EmptyString, _ => true
  | String a q', String b s' => Ascii.eqb a b && starts_with q' s'
  | String _ _, EmptyString => false
  end.

Fixpoint str_includes (s q : string) : bool :=
  starts_with q s ||
  match s with
  | EmptyString => false
  | String _ s' => str_includes s' q
  end.

(** a row of the market table *)
Record MarketItem : Type := {
  symbol : string;
  item_name : string;
  price : string;
  change : Js.num;
  marketCap : string
}.

(** what [renderTable] puts in the table body *)
Inductive TableBody : Type :=
  | NothingFound
  | Rows (l : list MarketItem).

Definition renderTable (data : list MarketItem) : TableBody :=
  match data with
  | [] => NothingFound
  | _ => Rows data
  end.

Module Market.

Section WithJson.

Variable J : Json.

(** [toLowerCase], taken as given *)
Variable lower : string -> string.

(** [getFavorites()]: the stored array, the empty one when nothing is stored
    or when the text does not parse *)
Definition getFavorites (ls : gmap string string) : list string :=
  match parse J (item_or_empty_array ls "favorites") with
  | Some favs => favs
  | None => []
  end.

(** the array [toggleFavorite] writes back *)
Definition toggled (favs : list string) (sym : string) : list string :=
  if includes_symbol favs sym then remove_first sym favs else favs ++ [sym].

Definition toggleFavorite (ls : gmap string string) (sym : string) : gmap string string :=
  <["favorites" := stringify J (toggled (getFavorites ls) sym)]> ls.

(** the test of the first [filter] of [applyFilters] *)
Definition matches (query : string) (item : MarketItem) : bool :=
  str_includes (lower (symbol item)) query || str_includes (lower (item_name item)) query.

(** [applyFilters(query, filter)], as the table body it renders *)
Definition applyFilters (ls : gmap string string) (fullMarketData : list MarketItem)
    (query filter : string) : TableBody :=
  let filtered :=
    match query with
    | EmptyString => fullMarketData
    | _ => List.filter (matches query) fullMarketData
    end in
  let filtered :=
    if String.eqb filter "favorites"
    then List.filter (fun item => includes_symbol (getFavorites ls) (symbol item)) filtered
    else filtered in
  renderTable filtered.

(** the rows of a table body *)
Definition rows_of (b : TableBody) : list MarketItem :=
  match b with
  | NothingFound => []
  | Rows l => l
  end.

(** whether the star of a row is drawn filled when the table is rendered *)
Definition star_filled (ls : gmap string string) (item : MarketItem) : bool :=
  includes_symbol (getFavorites ls) (symbol item).

End WithJson.

End Market.

(** *** portfolio_app_v2/frontend/js/market.js *)

Module MarketV2.

Section WithJson.

Variable J : Json.
Variable lower : string -> string.

(** the [input] listener of the search box, on the query already lowered
    and trimmed *)
Definition search (fullMarketData : list MarketItem) (q : string) : TableBody :=
  renderTable
    match q with
    | EmptyString => fullMarketData
    | _ => List.filter (Market.matches lower q) fullMarketData
    end.

(** [addAssetToAnalysis(symbol)]: the store afterwards and whether the alert
    was shown; [None] when [JSON.parse] throws *)
Definition addAssetToAnalysis (ls : gmap string string) (sym : string)
    : option (gmap string string * bool) :=
  match parse J (item_or_empty_array ls "selectedAssets") with
  | None => None
  | Some selected =>
      if includes_symbol selected sym then Some (ls, false)
      else Some (<["selectedAssets" := stringify J (selected ++ [sym])]> ls, true)
  end.

(** the list for analysis, as the page reads it *)
Definition selectedAssets (ls : gmap string string) : option (list string) :=
  parse J (item_or_empty_array ls "selectedAssets").

End WithJson.

End MarketV2.

(** *** A JSON codec for arrays of strings

    Enough of JSON to run the pages: an array is printed as
    ["a","b"], with a backslash before each quote and backslash inside a
    string. *)

Module SampleJson.

Definition quote : ascii := Ascii.ascii_of_nat 34.
Definition backslash : ascii := Ascii.ascii_of_nat 92.

Definition special (c : ascii) : bool := Ascii.eqb c quote || Ascii.eqb c backslash.

Fixpoint escape (s : string) : string :=
  match s with
  | EmptyString => EmptyString
  | String c r =>
      if special c then String backslash (String c (escape r)) else String c (escape r)
  end.

Definition quoted (s : string) : string :=
  String quote (escape s ++ String quote EmptyString).

Fixpoint items (l : list string) : string :=
  match l with
  | [] => EmptyString
  | [x] => quoted x
  | x :: r => quoted x ++ String "," (items r)
  end.

Definition print (l : list string) : string := String "[" (items l ++ "]").

(** reads a string up to its closing quote: the string and what follows *)
Fixpoint unquote (s : string) : option (string * string) :=
  match s with
  | EmptyString => None
  | String c r =>
      if Ascii.eqb c quote then Some (EmptyString, r)
      else if Ascii.eqb c backslash then
        match r with
        | String d r' => (fun xr => (String d (fst xr), snd xr)) <$> unquote r'
        | EmptyString => None
        end
      else (fun xr => (String c (fst xr), snd xr)) <$> unquote r
  end.

(** reads the elements after the opening bracket; [fuel] bounds their
    number *)
Fixpoint read_items (fuel : nat) (s : string) : option (list string) :=
  match fuel with
  | O => None
  | S fuel' =>
      match s with
      | String c r =>
          if Ascii.eqb c quote then
            match unquote r with
            | Some (x, String "," r') => (fun l => x :: l) <$> read_items fuel' r'
            | Some (x, String "]" EmptyString) => Some [x]
            | _ => None
            end
          else None
      | EmptyString => None
      end
  end.

Definition read (s : string) : option (list string) :=
  match s with
  | String "[" (String "]" EmptyString) => Some []
  | String "[" r => read_items (String.length r) r
  | _ => None
  end.

Definition json : Json := {| stringify := print; parse := read |}.

(** lower case for the letters A to Z *)
Definition lower_ascii (c : ascii) : ascii :=
  let n := Ascii.nat_of_ascii c in
  if (65 <=? n)%nat && (n <=? 90)%nat then Ascii.ascii_of_nat (n + 32) else c.

Fixpoint lower (s : string) : string :=
  match s with
  | EmptyString => EmptyString
  | String c r => String (lower_ascii c) (lower r)
  end.

Definition item (sym nm : string) : MarketItem :=
  {| symbol := sym; item_name := nm; price := "$100"; change := Js.of_Z 1;
     marketCap := "1T" |}.

Definition market : list MarketItem :=
  [item "AAPL" "Apple Inc."; item "MSFT" "Microsoft"; item "AMZN" "Amazon";
   item "NVDA" "NVIDIA"].

(** a store whose favourites are AAPL and NVDA *)
Definition store : gmap string string :=
  <["favorites" := print ["AAPL"; "NVDA"]]> ∅.

End SampleJson.

(** ** What a form must hold to pass *)


(** when both bounds of the asset are entered, the comparison
    [min > max] is false *)
Definition bounds_ordered (a : Asset) : Prop :=
  forall mn mx, minWeight a = Some mn -> maxWeight a = Some mx -> Js.gt mn mx = false.

(** what the block of the professional level asks for *)
Definition pro_ok (l : list Asset) : Prop :=
  Forall bounds_ordered l /\ Js.gt (totalMin l) (Js.of_Z 100) = false.


(** The sums and the readings of the model are exact, those of the page are
    rounded to binary64.  The two agree on whole numbers: a decimal text
    whose value is a whole number of magnitude at most 2^53 is read as that
    number, and a running sum of such numbers that are not negative is above
    100 in binary64 exactly when the exact sum is. *)

(** the minimum entered for the asset, if there is one, is NaN or a whole
    number from 0 to 2^53 *)
Definition whole_minimum (a : Asset) : Prop :=
  forall mn, minWeight a = Some mn ->
    mn = Js.NaN \/ exists z : Z, (0 <= z <= 2 ^ 53)%Z /\ mn = Js.of_Z z.


(** [value !== '' ? parseFloat(value) : null], what an input of an asset row
    stores *)
Definition entered (v : string) : Js.value :=
  match v with
  | EmptyString => None
  | _ => Some (Js.parseFloat v)
  end.

#[global] Instance Field_eq_dec : EqDecision Field.
Proof. solve_decision. Defined.

Definition get_field (f : Field) (a : Asset) : Js.value :=
  match f with
  | FQuantity => quantity a
  | FWeight => weight a
  | FMinWeight => minWeight a
  | FMaxWeight => maxWeight a
  end.

(** [assets.find(a => a.ticker === t)] *)
Definition find_asset (t : string) (l : list Asset) : option Asset :=
  List.find (fun a => String.eqb (ticker a) t) l.

(** the entry of [allocation_limits] that an asset asks for, if any: the
    bounds it has, over 100, with 0 and 1 for a bound it has not *)
Definition limits_entry (a : Asset) : option Api.Limits :=
  match Api.limit_of (minWeight a), Api.limit_of (maxWeight a) with
  | None, None => None
  | mn, mx => Some {| Api.min := default (Js.of_Z 0) mn; Api.max := default (Js.of_Z 1) mx |}
  end.

(** ** What a run of an optimize handler leaves behind *)

(** the loader is not left on: a trace that switches it on ends by
    switching it off *)
Definition loader_released {Req View : Type} (tr : list (Event Req View)) : Prop :=
  In LoaderOn tr -> last tr = Some LoaderOff.

(** every weight of the list is null or a number other than 0 *)
Definition weights_clean (l : list Asset) : Prop :=
  Forall (fun a => weight a = None \/ entered_nonzero a) l.

(** what every run of an optimize handler keeps to: the asset list is not
    touched, the loader is released, at most one request is sent, and what is
    rendered is what the server answered to that request *)
Definition disciplined {S Req View Res : Type} (list_of : S -> list Asset)
    (answer : Req -> outcome Res) (view_of : Res -> View)
    (st : S) (r : S * list (Event Req View)) : Prop :=
  list_of (fst r) = list_of st /\
  loader_released (snd r) /\
  (length (requests (snd r)) <= 1)%nat /\
  (forall v, In v (rendered (snd r)) ->
     exists c d, requests (snd r) = [c] /\ answer c = inl d /\ v = view_of d).

(** ** The asset table of the v6 dashboard

    [renderAssetList] draws at most [TABLE_ROWS] rows until the link on the
    last of them is clicked, and under them the total of the allocations in
    a colour. *)

Module AssetTable.

Definition TABLE_ROWS : nat := 10.

Record Row : Type := {
  rowNum : nat;
  more_link : bool;
  row_asset : Asset
}.

(** [(_showAllRows || n <= TABLE_ROWS) ? assets : assets.slice(0, TABLE_ROWS)] *)
Definition displayed (showAllRows : bool) (l : list Asset) : list Asset :=
  if showAllRows || (length l <=? TABLE_ROWS)%nat then l else take TABLE_ROWS l.

(** [n > TABLE_ROWS && !_showAllRows] *)
Definition hasMore (showAllRows : bool) (l : list Asset) : bool :=
  (TABLE_ROWS <? length l)%nat && negb showAllRows.

(** one row per displayed asset; [i === lastIdx] is written [i + 1 = length],
    which is the same for the indices of a list *)
Definition rows (showAllRows : bool) (l : list Asset) : list Row :=
  let d := displayed showAllRows l in
  imap (fun i a => {| rowNum := i + 1;
                      more_link := (i + 1 =? length d)%nat && hasMore showAllRows l;
                      row_asset := a |}) d.






End AssetTable.

Module SampleTable.


(** the first asset is to take between 20 and 40 percent *)
Definition bounded : list Asset :=
  [Sample.asset "AAPL" (Sample.pct 1) None (Sample.pct 20) (Sample.pct 40);
   Sample.asset "MSFT" (Sample.pct 1) None None None].

(** twelve assets *)
Definition twelve : list Asset :=
  map (fun t => Sample.asset t (Sample.pct 1) None None None)
      ["A"; "B"; "C"; "D"; "E"; "F"; "G"; "H"; "I"; "J"; "K"; "L"].

End SampleTable.

(** ** The heat map of the matrix tables

    [matrixTable] of the v6 dashboard tints every cell off the diagonal by
    where its value lies between the least and the greatest of them.  The
    values come out of JSON, so they are finite. *)

Module Heat.

Record MatrixData : Type := {
  tickers : option (list string);
  matrix : list (list Q)
}.

(** the [style] of a cell: none, a background of three channels, or the
    text that the arithmetic leaves when there is nothing to compare with *)
Inductive Style : Type :=
  | NoStyle
  | Background (r g b : Z)
  | BackgroundNaN.

Inductive Table : Type :=
  | NoData
  | Cells (rows : list (list Style)).

(** [Math.round]: the nearest integer, a half going up *)
Definition round (x : Q) : Z := Qfloor (x + (1 # 2))%Q.

(** the values pushed to [allVals]: those with [i !== j] *)
Definition allVals (m : list (list Q)) : list Q :=
  concat (imap (fun i row =>
                  concat (imap (fun j v => if (i =? j)%nat then [] else [v]) row)) m).

(** [Math.min(...l)] and [Math.max(...l)]; [None] is the infinity that an
    empty list gives *)
Definition Math_min (l : list Q) : option Q :=
  match l with
  | [] => None
  | x :: r => Some (fold_left Qmin r x)
  end.

Definition Math_max (l : list Q) : option Q :=
  match l with
  | [] => None
  | x :: r => Some (fold_left Qmax r x)
  end.

Definition heatColor (minV maxV : option Q) (v : Q) (isDiag : bool) : Style :=
  if isDiag then NoStyle
  else
    match minV, maxV with
    | Some mn, Some mx =>
        let t := (if Qeq_bool mx mn then 1 # 2 else (v - mn) / (mx - mn))%Q in
        Background (round (161 * t)) (round (100 + 58 * t)) (round (100 * (1 - t)))
    | _, _ => BackgroundNaN
    end.

(** the styles of the cells, row by row; [None] when [matrix[i]] is missing
    for a ticker and the function throws *)
Definition matrixTable (data : option MatrixData) : option Table :=
  match data with
  | None => Some NoData
  | Some d =>
      match tickers d with
      | None => Some NoData
      | Some ts =>
          let minV := Math_min (allVals (matrix d)) in
          let maxV := Math_max (allVals (matrix d)) in
          Cells <$>
            mapM (fun i =>
                    imap (fun j v => heatColor minV maxV v (i =? j)%nat)
                      <$> matrix d !! i)
                 (seq 0 (length ts))
      end
  end.

End Heat.

Module SampleHeat.

(** a correlation matrix of three assets *)
Definition correlation : Heat.MatrixData :=
  {| Heat.tickers := Some ["AAPL"; "MSFT"; "NVDA"];
     Heat.matrix := [[1; 1 # 2; 1 # 5]; [1 # 2; 1; 4 # 5]; [1 # 5; 4 # 5; 1]]%Q |}.

End SampleHeat.

(** * Properties *)

(** ** Numbers *)

Example parseFloat_2 : Js.parseFloat "2" = Js.Fin 2.
Proof. reflexivity. Qed.

Example parseFloat_signed_exponent : Js.parseFloat " -2.50e1x" = Js.Fin (-25).
Proof. reflexivity. Qed.

Example parseFloat_leading_dot : Js.parseFloat ".5" = Js.Fin (1 # 2).
Proof. reflexivity. Qed.

Example parseFloat_empty : Js.parseFloat "" = Js.NaN.
Proof. reflexivity. Qed.

Example parseInt_12_7 : Js.parseInt "12.7" = Js.Fin 12.
Proof. reflexivity. Qed.

Example parseInt_hex : Js.parseInt " -0x1Fg" = Js.Fin (-31).
Proof. reflexivity. Qed.

Example parseInt_hex_prefix_alone : Js.parseInt "0x" = Js.NaN.
Proof. reflexivity. Qed.

Example parseInt_leading_zero : Js.parseInt "012" = Js.Fin 12.
Proof. reflexivity. Qed.



(** ** The selected-asset list *)

Section AssetListFacts.

Import AssetList.

Lemma some_ticker_In (t : string) (l : list Asset) :
  some_ticker t l = true <-> In t (tickers l).
Proof.
  unfold some_ticker, tickers. rewrite existsb_exists, in_map_iff. split.
  - intros (a & Ha & E). apply String.eqb_eq in E. eauto.
  - intros (a & E & Ha). exists a. split; [done|]. by apply String.eqb_eq.
Qed.

Lemma some_ticker_not_In (t : string) (l : list Asset) :
  some_ticker t l = false <-> ~ In t (tickers l).
Proof.
  rewrite <- some_ticker_In. destruct (some_ticker t l); split; congruence.
Qed.

Lemma tickers_filter_out (t : string) (l : list Asset) :
  tickers (filter_out t l) = List.filter (fun x => negb (String.eqb x t)) (tickers l).
Proof.
  unfold tickers, filter_out. induction l as [|a l IH]; [done|]. cbn.
  destruct (String.eqb (ticker a) t); cbn; by rewrite IH.
Qed.

Lemma filter_out_gone (t : string) (l : list Asset) :
  ~ In t (tickers (filter_out t l)).
Proof.
  rewrite tickers_filter_out, filter_In. intros [_ H].
  by rewrite String.eqb_refl in H.
Qed.

Lemma unique_filter_out (t : string) (l : list Asset) :
  unique l -> unique (filter_out t l).
Proof.
  unfold unique. rewrite tickers_filter_out.
  induction (tickers l) as [|x xs IH]; [done|].
  rewrite NoDup_cons. intros [Hx Hxs]. cbn.
  destruct (negb (String.eqb x t)); [|by apply IH].
  apply NoDup_cons. split; [|by apply IH].
  rewrite list_elem_of_In, filter_In, <- list_elem_of_In. tauto.
Qed.

Lemma unique_push (l : list Asset) (a : Asset) :
  unique l -> some_ticker (ticker a) l = false -> unique (l ++ [a]).
Proof.
  unfold unique, tickers. intros Hl Hfresh. rewrite map_app. cbn.
  apply some_ticker_not_In in Hfresh.
  apply NoDup_app. split; [done|]. split.
  - intros x Hx Hin. apply list_elem_of_In in Hx.
    apply list_elem_of_singleton in Hin. by subst.
  - apply NoDup_singleton.
Qed.

Lemma tickers_update_first (t : string) (f : Asset -> Asset) (l : list Asset) :
  (forall a, ticker (f a) = ticker a) ->
  tickers (update_first t f l) = tickers l.
Proof.
  intros Hf. unfold tickers. induction l as [|a l IH]; [done|]. cbn.
  destruct (String.eqb (ticker a) t); cbn; by rewrite ?Hf, ?IH.
Qed.

End AssetListFacts.


Lemma Pro_step_unique (st st' : Pro.AppState) :
  Pro.step st st' -> unique (Pro.assets st) -> unique (Pro.assets st').
Proof.
  intros Hstep Hu. destruct Hstep as [st t n s|st t|server form st|st]; cbn; try done.
  - unfold Pro.addAsset. destruct (AssetList.some_ticker t _) eqn:E; [done|].
    cbn. by apply unique_push.
  - by apply unique_filter_out.
  - unfold Pro.optimize. destruct (_ <? _)%nat; [done|]. by destruct (server _).
Qed.

Lemma V2_step_unique (st st' : V2.DashboardState) :
  V2.step st st' -> unique (V2.assets st) -> unique (V2.assets st').
Proof.
  intros Hstep Hu.
  destruct Hstep as [st t n s|st t|st t v|active st|server form st|st]; cbn; try done.
  - unfold V2.addAsset. destruct (AssetList.some_ticker t _) eqn:E; [done|].
    cbn. by apply unique_push.
  - by apply unique_filter_out.
  - unfold unique. by rewrite tickers_update_first.
  - unfold V2.runOptimize. destruct (_ <? _)%nat; [done|]. by destruct (server _).
Qed.

Lemma submit_assets backend stored params (st : DashboardState) :
  assets (fst (submit backend stored params st)) = assets st.
Proof. unfold submit. by destruct (backend _). Qed.

Lemma step_unique (st st' : DashboardState) :
  step st st' -> unique (assets st) -> unique (assets st').
Proof.
  intros Hstep Hu.
  destruct Hstep as [st t n s|st t|st t f v|active st|confirmed st
                    |backend stored form st|backend stored form st]; cbn; try done.
  - unfold addAsset. destruct (AssetList.some_ticker t _) eqn:E; [done|].
    cbn. by apply unique_push.
  - by apply unique_filter_out.
  - unfold unique. rewrite tickers_update_first; [done|]. by intros a; destruct f.
  - unfold V6.clearAllAssets. destruct (assets st) eqn:E; rewrite <- E in Hu; [done|].
    destruct confirmed; cbn; [apply NoDup_nil_2|done].
  - unfold Dashboard.runOptimize. destruct (Dashboard.validateForm _ _ _); [done|].
    by rewrite submit_assets.
  - unfold V6.runOptimize. destruct (V6.validateForm _ _); [done|].
    by rewrite submit_assets.
Qed.

(** C10. The selected-asset list never holds two entries with the same
    ticker.  On each of the pages, [addAsset] with a ticker that is already in
    the list only shows the alert and leaves the state as it was, [addAsset]
    and [removeAsset] keep the tickers of a list pairwise distinct, and so
    every state that the handlers of a page can reach from the empty list has
    pairwise distinct tickers. *)
Theorem selected_assets_stay_unique (t n s : string) :
  (forall st, In t (AssetList.tickers (Pro.assets st)) ->
     Pro.addAsset st t n s = (st, [Alert AssetAlreadyAdded])) /\
  (forall st, In t (AssetList.tickers (V2.assets st)) ->
     V2.addAsset st t n s = (st, [Alert AssetAlreadyAdded])) /\
  (forall st, In t (AssetList.tickers (assets st)) ->
     addAsset st t n s = (st, [Alert AssetAlreadyAdded])) /\
  (forall st, unique (Pro.assets st) ->
     unique (Pro.assets (fst (Pro.addAsset st t n s))) /\
     unique (Pro.assets (fst (Pro.removeAsset st t)))) /\
  (forall st, unique (V2.assets st) ->
     unique (V2.assets (fst (V2.addAsset st t n s))) /\
     unique (V2.assets (fst (V2.removeAsset st t)))) /\
  (forall st, unique (assets st) ->
     unique (assets (fst (addAsset st t n s))) /\
     unique (assets (fst (removeAsset st t)))) /\
  (forall st, rtc Pro.step Pro.init st -> unique (Pro.assets st)) /\
  (forall st, rtc V2.step V2.init st -> unique (V2.assets st)) /\
  (forall st, rtc step init st -> unique (assets st)).
Proof.
  repeat split.
  - intros st Hin. apply some_ticker_In in Hin. unfold Pro.addAsset. by rewrite Hin.
  - intros st Hin. apply some_ticker_In in Hin. unfold V2.addAsset. by rewrite Hin.
  - intros st Hin. apply some_ticker_In in Hin. unfold addAsset. by rewrite Hin.
  - eapply Pro_step_unique; [constructor|done].
  - eapply Pro_step_unique; [constructor|done].
  - eapply V2_step_unique; [constructor|done].
  - eapply V2_step_unique; [constructor|done].
  - eapply step_unique; [constructor|done].
  - eapply step_unique; [constructor|done].
  - intros st Hr. pattern st. revert st Hr.
    apply rtc_ind_r; [apply NoDup_nil_2|].
    intros y z _ Hstep IH. by eapply Pro_step_unique.
  - intros st Hr. pattern st. revert st Hr.
    apply rtc_ind_r; [apply NoDup_nil_2|].
    intros y z _ Hstep IH. by eapply V2_step_unique.
  - intros st Hr. pattern st. revert st Hr.
    apply rtc_ind_r; [apply NoDup_nil_2|].
    intros y z _ Hstep IH. by eapply step_unique.
Qed.

Lemma selected_assets_stay_unique_witness :
  addAsset (Sample.state Sample.plain false) "MSFT" "Microsoft" "Technology"
    = (Sample.state Sample.plain false, [Alert AssetAlreadyAdded]) /\
  unique (assets (fst (removeAsset (Sample.state Sample.plain false) "MSFT"))).
Proof.
  destruct (selected_assets_stay_unique "MSFT" "Microsoft" "Technology")
    as (_ & _ & Hadd & _ & _ & Hkeep & _).
  split.
  - apply Hadd. cbn. tauto.
  - apply Hkeep. unfold unique. cbn.
    repeat (apply NoDup_cons_2 || apply NoDup_nil_2);
      rewrite ?list_elem_of_In; cbn; intuition discriminate.
Defined.

(** ** Validation *)

Lemma alert_rejected {S Req View : Type} (st : S) (m : Message) :
  rejected (Req := Req) (View := View) st (st, [Alert m]).
Proof. by repeat split. Qed.

Lemma submit_requests backend stored params (st : DashboardState) :
  requests (snd (submit backend stored params st))
  = [{| Api.call_assets := assets st; Api.call_params := params;
        Api.call_level := Some (Api.first_level stored None) |}].
Proof. unfold submit. by destruct (backend _). Qed.

(** C3. A request with fewer than two assets is refused before anything is
    computed.  On each page the optimize handler, run on a list of fewer
    than two assets, only shows the alert: the state is unchanged, no request
    is sent and no result is rendered.  In the two later dashboards it is
    [validateForm] that refuses, before any other check. *)
Theorem fewer_than_two_assets_rejected :
  (forall server form st, (length (Pro.assets st) < 2)%nat ->
     Pro.optimize server form st = (st, [Alert AddMinimumTwoAssets]) /\
     rejected st (Pro.optimize server form st)) /\
  (forall server form st, (length (V2.assets st) < 2)%nat ->
     V2.runOptimize server form st = (st, [Alert AddMinimumTwoAssets]) /\
     rejected st (V2.runOptimize server form st)) /\
  (forall backend stored form st, (length (assets st) < 2)%nat ->
     Dashboard.validateForm stored form st = Some TooFewAssets /\
     rejected st (Dashboard.runOptimize backend stored form st)) /\
  (forall backend stored form st, (length (assets st) < 2)%nat ->
     V6.validateForm stored st = Some TooFewAssets /\
     rejected st (V6.runOptimize backend stored form st)).
Proof.
  split; [|split; [|split]].
  - intros server form st Hlen. apply Nat.ltb_lt in Hlen.
    unfold Pro.optimize. rewrite Hlen. split; [done|apply alert_rejected].
  - intros server form st Hlen. apply Nat.ltb_lt in Hlen.
    unfold V2.runOptimize. rewrite Hlen. split; [done|apply alert_rejected].
  - intros backend stored form st Hlen. apply Nat.ltb_lt in Hlen.
    assert (Hv : Dashboard.validateForm stored form st = Some TooFewAssets)
      by (unfold Dashboard.validateForm; by rewrite Hlen).
    split; [done|]. unfold Dashboard.runOptimize. rewrite Hv. apply alert_rejected.
  - intros backend stored form st Hlen. apply Nat.ltb_lt in Hlen.
    assert (Hv : V6.validateForm stored st = Some TooFewAssets)
      by (unfold V6.validateForm; by rewrite Hlen).
    split; [done|]. unfold V6.runOptimize. rewrite Hv. apply alert_rejected.
Qed.

Lemma fewer_than_two_assets_rejected_witness :
  rejected (Sample.state [Sample.asset "AAPL" (Sample.pct 1) None None None] false)
    (V6.runOptimize Sample.down (Some "professional") Sample.form
       (Sample.state [Sample.asset "AAPL" (Sample.pct 1) None None None] false)).
Proof.
  destruct fewer_than_two_assets_rejected as (_ & _ & _ & H6).
  apply (H6 Sample.down (Some "professional") Sample.form
           (Sample.state [Sample.asset "AAPL" (Sample.pct 1) None None None] false)).
  cbn. lia.
Defined.


Lemma V6_runOptimize_sends backend stored form st :
  V6.validateForm stored st = None ->
  requests (snd (V6.runOptimize backend stored form st))
  = [{| Api.call_assets := assets st;
        Api.call_params := V6.build_params form st;
        Api.call_level := Some (Api.first_level stored None) |}].
Proof. intros Hv. unfold V6.runOptimize. rewrite Hv. apply submit_requests. Qed.

Lemma Dashboard_runOptimize_refuses backend stored form st e :
  Dashboard.validateForm stored form st = Some e ->
  Dashboard.runOptimize backend stored form st = (st, [Alert (Invalid e)]).
Proof. intros Hv. unfold Dashboard.runOptimize. by rewrite Hv. Qed.

Lemma V6_runOptimize_refuses backend stored form st e :
  V6.validateForm stored st = Some e ->
  V6.runOptimize backend stored form st = (st, [Alert (Invalid e)]).
Proof. intros Hv. unfold V6.runOptimize. by rewrite Hv. Qed.

(** *** The checks of the professional level *)

Lemma check_limits_total (l : list Asset) (acc total : Js.num) :
  check_limits l acc = inr total -> total = fold_left add_min l acc.
Proof.
  revert acc. induction l as [|a l IH]; intros acc; cbn.
  - congruence.
  - fold (add_min acc a).
    destruct (minWeight a) as [mn|], (maxWeight a) as [mx|]; try apply IH.
    destruct (Js.gt _ _); [discriminate|apply IH].
Qed.

Lemma check_limits_min_above_max (l : list Asset) (acc : Js.num) a mn mx :
  In a l -> minWeight a = Some mn -> maxWeight a = Some mx -> Js.gt mn mx = true ->
  exists e, check_limits l acc = inl e.
Proof.
  intros Hin Hmn Hmx Hgt. revert acc.
  induction l as [|b l IH]; intros acc; [destruct Hin|].
  cbn. destruct Hin as [->|Hin].
  - rewrite Hmn, Hmx. unfold Js.parseFloat_num. rewrite Hgt. eauto.
  - destruct (minWeight b) as [bn|], (maxWeight b) as [bx|]; try by apply IH.
    destruct (Js.gt (Js.parseFloat_num bn) _); [eauto|by apply IH].
Qed.


Lemma check_pro_min_above_max (stored : option string) (l : list Asset) a mn mx :
  isPro stored = true ->
  In a l -> minWeight a = Some mn -> maxWeight a = Some mx -> Js.gt mn mx = true ->
  exists e, check_pro stored l = Some e.
Proof.
  intros Hpro Hin Hmn Hmx Hgt. unfold check_pro. rewrite Hpro.
  destruct (check_limits_min_above_max l (Js.of_Z 0) a mn mx Hin Hmn Hmx Hgt) as [e ->].
  eauto.
Qed.

(** below the professional level the block is skipped *)
Lemma check_pro_skipped (stored : option string) (l : list Asset) :
  isPro stored = false -> check_pro stored l = None.
Proof. intros H. unfold check_pro. by rewrite H. Qed.

(** whatever the earlier checks say, a form that the professional block
    refuses is refused *)
Lemma Dashboard_validateForm_pro stored form st e :
  check_pro stored (assets st) = Some e ->
  exists e', Dashboard.validateForm stored form st = Some e'.
Proof.
  intros Hpro. unfold Dashboard.validateForm.
  destruct (_ <? _)%nat; [eauto|].
  destruct (Dashboard.check_quantities _); [eauto|].
  destruct (_ || _); eauto.
Qed.

Lemma V6_validateForm_pro stored st e :
  check_pro stored (assets st) = Some e ->
  exists e', V6.validateForm stored st = Some e'.
Proof.
  intros Hpro. unfold V6.validateForm.
  destruct (_ <? _)%nat; [eauto|].
  destruct (V6.check_quantities _); eauto.
Qed.

Lemma refused_by_pro_block backend stored form st e :
  check_pro stored (assets st) = Some e ->
  (exists e', Dashboard.validateForm stored form st = Some e') /\
  rejected st (Dashboard.runOptimize backend stored form st) /\
  (exists e', V6.validateForm stored st = Some e') /\
  rejected st (V6.runOptimize backend stored form st).
Proof.
  intros Hpro.
  destruct (Dashboard_validateForm_pro stored form st e Hpro) as [e1 H1].
  destruct (V6_validateForm_pro stored st e Hpro) as [e2 H2].
  rewrite (Dashboard_runOptimize_refuses _ _ _ _ _ H1).
  rewrite (V6_runOptimize_refuses _ _ _ _ _ H2).
  repeat split; eauto.
Qed.

(** the running total of whole minimums is itself a whole number, or NaN:
    nothing is lost when the page adds them *)
Lemma Qred_inject_Z (z : Z) : Qred (inject_Z z) = inject_Z z.
Proof.
  unfold Qred, inject_Z.
  pose proof (Z.ggcd_gcd z 1) as Hg. pose proof (Z.ggcd_correct_divisors z 1) as Hd.
  destruct (Z.ggcd z 1) as [g [aa bb]]. cbn [fst snd] in *.
  rewrite Z.gcd_1_r in Hg. subst g. destruct Hd as [Ha Hb].
  rewrite Z.mul_1_l in Ha, Hb. by subst aa bb.
Qed.

Lemma add_whole (x y : Z) :
  Js.add (Js.of_Z x) (Js.of_Z y) = Js.of_Z (x + y).
Proof.
  unfold Js.of_Z. cbn [Js.add]. f_equal.
  rewrite <- (Qred_inject_Z (x + y)).
  apply Qred_complete. by rewrite inject_Z_plus.
Qed.

Lemma totalMin_whole (l : list Asset) :
  Forall whole_minimum l ->
  totalMin l = Js.NaN \/ exists z : Z, (0 <= z)%Z /\ totalMin l = Js.of_Z z.
Proof.
  unfold totalMin. intros Hl.
  assert (H : forall acc,
            acc = Js.NaN \/ (exists z : Z, (0 <= z)%Z /\ acc = Js.of_Z z) ->
            fold_left add_min l acc = Js.NaN \/
            exists z : Z, (0 <= z)%Z /\ fold_left add_min l acc = Js.of_Z z).
  { induction Hl as [|a l Ha _ IH]; intros acc Hacc; [done|].
    cbn [fold_left]. apply IH. unfold add_min, Js.parseFloat_num.
    destruct (minWeight a) as [mn|] eqn:E; [|done].
    destruct (Ha mn E) as [->|(y & Hy & ->)]; [left; by destruct acc|].
    destruct Hacc as [->|(x & Hx & ->)]; [by left|].
    right. exists (x + y)%Z. split; [lia|apply add_whole]. }
  apply H. right. exists 0%Z. by split.
Qed.




(** the sample lists with bounds are states of the page: the handlers build
    them from the empty list, whatever the stored level *)
Lemma min_120_reachable : rtc step init (Sample.state Sample.min_120 false).
Proof.
  eapply rtc_l; [apply (step_addAsset _ "AAPL" "AAPL" "")|].
  eapply rtc_l; [apply (step_addAsset _ "MSFT" "MSFT" "")|].
  eapply rtc_l; [apply (step_updateAssetField _ "AAPL" FQuantity "1")|].
  eapply rtc_l; [apply (step_updateAssetField _ "MSFT" FQuantity "1")|].
  eapply rtc_l; [apply (step_updateAssetField _ "AAPL" FMinWeight "60")|].
  eapply rtc_l; [apply (step_updateAssetField _ "MSFT" FMinWeight "60")|].
  apply rtc_refl.
Qed.

Lemma min_above_max_reachable :
  rtc step init (Sample.state Sample.min_above_max false).
Proof.
  eapply rtc_l; [apply (step_addAsset _ "AAPL" "AAPL" "")|].
  eapply rtc_l; [apply (step_addAsset _ "MSFT" "MSFT" "")|].
  eapply rtc_l; [apply (step_updateAssetField _ "AAPL" FQuantity "1")|].
  eapply rtc_l; [apply (step_updateAssetField _ "MSFT" FQuantity "1")|].
  eapply rtc_l; [apply (step_updateAssetField _ "AAPL" FMinWeight "60")|].
  eapply rtc_l; [apply (step_updateAssetField _ "AAPL" FMaxWeight "40")|].
  apply rtc_refl.
Qed.

(** C8, as the code has it.  At the professional level a form in which some
    asset has both a minimum and a maximum weight entered, the minimum above
    the maximum, is refused by [validateForm] in both dashboards, and
    [runOptimize] then only shows the alert: no request is sent and no result
    is rendered. *)
Theorem min_above_max_rejected_at_professional_level backend stored form st a mn mx :
  isPro stored = true ->
  In a (assets st) ->
  minWeight a = Some mn ->
  maxWeight a = Some mx ->
  Js.gt mn mx = true ->
  (exists e, Dashboard.validateForm stored form st = Some e) /\
  rejected st (Dashboard.runOptimize backend stored form st) /\
  (exists e, V6.validateForm stored st = Some e) /\
  rejected st (V6.runOptimize backend stored form st).
Proof.
  intros Hpro Hin Hmn Hmx Hgt.
  destruct (check_pro_min_above_max stored (assets st) a mn mx Hpro Hin Hmn Hmx Hgt)
    as [e He].
  by eapply refused_by_pro_block.
Qed.

Lemma min_above_max_rejected_at_professional_level_witness :
  rejected (Sample.state Sample.min_above_max false)
    (Dashboard.runOptimize Sample.down (Some "professional") Sample.form
       (Sample.state Sample.min_above_max false)) /\
  rejected (Sample.state Sample.min_above_max false)
    (V6.runOptimize Sample.down (Some "professional") Sample.form
       (Sample.state Sample.min_above_max false)).
Proof.
  destruct (min_above_max_rejected_at_professional_level
              Sample.down (Some "professional") Sample.form
              (Sample.state Sample.min_above_max false)
              (Sample.asset "AAPL" (Sample.pct 1) None (Sample.pct 60) (Sample.pct 40))
              (Js.of_Z 60) (Js.of_Z 40)) as (_ & H & _ & H6).
  - reflexivity.
  - cbn. tauto.
  - reflexivity.
  - reflexivity.
  - vm_compute. reflexivity.
  - split; assumption.
Defined.

(** the error names the asset and the two bounds *)
Example min_above_max_error :
  V6.validateForm (Some "professional") (Sample.state Sample.min_above_max false)
  = Some (MinAboveMax "AAPL" (Sample.pct 60) (Sample.pct 40)).
Proof. reflexivity. Qed.

(** C8, as stated, fails below the professional level: with a minimum of 60
    percent and a maximum of 40 percent on one asset and the stored level
    [beginner], both dashboards send the request, and the body built by
    [buildOptimizationPayload] carries the limits 0.6 and 0.4 for it. *)
Lemma min_above_max_sent_at_beginner_level :
  Dashboard.validateForm (Some "beginner") Sample.form
    (Sample.state Sample.min_above_max false) = None /\
  V6.validateForm (Some "beginner") (Sample.state Sample.min_above_max false) = None /\
  ~ rejected (Sample.state Sample.min_above_max false)
      (Dashboard.runOptimize Sample.down (Some "beginner") Sample.form
         (Sample.state Sample.min_above_max false)) /\
  ~ rejected (Sample.state Sample.min_above_max false)
      (V6.runOptimize Sample.down (Some "beginner") Sample.form
         (Sample.state Sample.min_above_max false)) /\
  Forall (fun c =>
            Api.allocation_limits (Api.payload_of (Some "beginner") c)
            = Some (<["AAPL" := {| Api.min := Js.Fin (3 # 5); Api.max := Js.Fin (2 # 5) |}]> ∅))
    (requests (snd (V6.runOptimize Sample.down (Some "beginner") Sample.form
                      (Sample.state Sample.min_above_max false)))).
Proof.
  split; [by vm_compute|]. split; [by vm_compute|]. split; [|split].
  - intros (_ & H & _). vm_compute in H. discriminate.
  - intros (_ & H & _). vm_compute in H. discriminate.
  - rewrite V6_runOptimize_sends by (by vm_compute).
    constructor; [|constructor]. by vm_compute.
Qed.

(** a bound that is entered alone is not compared with the default of the
    other one: the form passes at the professional level as well *)
Example lone_maximum_passes :
  V6.validateForm (Some "professional") (Sample.state Sample.lone_maximum false) = None /\
  Api.allocation_limits
    (Api.buildOptimizationPayload (Some "professional") Sample.lone_maximum
       (V6.build_params Sample.form (Sample.state Sample.lone_maximum false))
       (Some "professional"))
  = Some (<["AAPL" := {| Api.min := Js.Fin 0; Api.max := Js.Fin (-1 # 20) |}]> ∅).
Proof. split; by vm_compute. Qed.

(** *** The allocation banner of the v6 dashboard

    The banner compares what the user typed with 100 percent, within 0.1;
    it informs and does not stop a request. *)


Example alloc_banner_weighted :
  V6.renderAllocWarning (V6.updateAllocWarning (Sample.state Sample.weighted true))
  = V6.AllocUnder (Js.Fin 70).
Proof. reflexivity. Qed.

Example alloc_banner_plain :
  V6.renderAllocWarning (V6.updateAllocWarning (Sample.state Sample.plain true))
  = V6.NoBanner.
Proof. reflexivity. Qed.

(** ** The body of a request *)

Lemma truthy_Fin (q : Q) : Js.truthy (Some (Js.Fin q)) = true <-> ~ (q == 0)%Q.
Proof.
  cbn. rewrite negb_true_iff. split.
  - intros H E. apply Qeq_bool_iff in E. congruence.
  - intros H. destruct (Qeq_bool q 0) eqn:E; [|done].
    apply Qeq_bool_iff in E. contradiction.
Qed.

Lemma truthy_nonzero (a : Asset) : Js.truthy (weight a) = true <-> entered_nonzero a.
Proof.
  unfold entered_nonzero. destruct (weight a) as [[q|]|].
  - rewrite truthy_Fin. split; [eauto|]. by intros (q' & [= <-] & H).
  - cbn. split; [done|]. by intros (q' & [=] & _).
  - cbn. split; [done|]. by intros (q' & [=] & _).
Qed.

Lemma not_nonzero (a : Asset) : entered_zero_or_unset a -> ~ entered_nonzero a.
Proof.
  intros [E|(q & E & Hq)] (q' & E' & Hq'); rewrite E in E'; [done|].
  injection E' as <-. contradiction.
Qed.

Lemma Api_payload_weight_Some (manual : bool) (a : Asset) (x : Js.num) :
  Api.payload_weight manual a = Some x <->
  manual = true /\ Js.truthy (weight a) = true /\
  exists e, weight a = Some e /\ x = Js.div100 e.
Proof.
  unfold Api.payload_weight, Js.parseFloat_num.
  destruct manual, (Js.truthy (weight a)) eqn:T; cbn;
    try (split; [done|intros (? & ? & ?); congruence]).
  destruct (weight a) as [e|]; cbn.
  - split; [intros [= <-]; eauto|]. by intros (_ & _ & e' & [= <-] & ->).
  - split; [done|]. by intros (_ & _ & e' & [=] & _).
Qed.

Lemma V2_payload_weight_Some (manual : bool) (a : Asset) (x : Js.num) :
  V2.payload_weight manual a = Some x <->
  manual = true /\ Js.truthy (weight a) = true /\
  exists e, weight a = Some e /\ x = Js.div100 e.
Proof.
  unfold V2.payload_weight.
  destruct manual; [|split; [done|intros (? & _); congruence]].
  destruct (weight a) as [e|]; [|split; [done|intros (_ & ? & _); done]].
  destruct (Js.truthy (Some e)) eqn:T.
  - split; [intros [= <-]; eauto|]. by intros (_ & _ & e' & [= <-] & ->).
  - split; [done|]. intros (_ & ? & _); congruence.
Qed.

(** both builders agree on the weight of an asset *)
Lemma payload_weight_same (manual : bool) (a : Asset) :
  V2.payload_weight manual a = Api.payload_weight manual a.
Proof.
  destruct (Api.payload_weight manual a) as [x|] eqn:E.
  - apply V2_payload_weight_Some. by apply Api_payload_weight_Some.
  - destruct (V2.payload_weight manual a) as [y|] eqn:E2; [|done].
    apply V2_payload_weight_Some, Api_payload_weight_Some in E2. congruence.
Qed.

Lemma payload_weight_fixed (manual : bool) (a : Asset) :
  fixed_only_if_manual manual a (Api.payload_weight manual a).
Proof.
  split.
  - intros ->. done.
  - intros x Hx. apply Api_payload_weight_Some in Hx as (? & _ & ?). done.
Qed.

Lemma payload_weight_zero (manual : bool) (a : Asset) :
  zero_is_not_fixed manual a (Api.payload_weight manual a).
Proof.
  assert (Hiff : Api.payload_weight manual a <> None <-> manual = true /\ entered_nonzero a).
  { rewrite <- truthy_nonzero. split.
    - destruct (Api.payload_weight manual a) as [x|] eqn:E; [|done].
      intros _. apply Api_payload_weight_Some in E as (? & ? & _). done.
    - intros [-> T]. unfold Api.payload_weight. rewrite T. cbn.
      destruct (weight a); [done|discriminate]. }
  split; [done|].
  intros Hz. apply not_nonzero in Hz.
  destruct (Api.payload_weight manual a) eqn:E; [|done].
  exfalso. apply Hz, Hiff. done.
Qed.

Lemma Pro_requests server form st p :
  In p (requests (snd (Pro.optimize server form st))) -> p = Pro.build_payload form st.
Proof.
  unfold Pro.optimize. destruct (_ <? _)%nat; [intros []|].
  destruct (server _); cbn; intuition.
Qed.

Lemma V2_requests server form st p :
  In p (requests (snd (V2.runOptimize server form st))) -> p = V2.build_payload form st.
Proof.
  unfold V2.runOptimize. destruct (_ <? _)%nat; [intros []|].
  destruct (server _); cbn; intuition.
Qed.

Lemma Dashboard_requests backend stored form st c :
  In c (requests (snd (Dashboard.runOptimize backend stored form st))) ->
  c = {| Api.call_assets := assets st;
         Api.call_params := Dashboard.build_params form st;
         Api.call_level := Some (Api.first_level stored None) |}.
Proof.
  unfold Dashboard.runOptimize. destruct (Dashboard.validateForm _ _ _); [intros []|].
  rewrite submit_requests. cbn. intuition.
Qed.

Lemma V6_requests backend stored form st c :
  In c (requests (snd (V6.runOptimize backend stored form st))) ->
  c = {| Api.call_assets := assets st;
         Api.call_params := V6.build_params form st;
         Api.call_level := Some (Api.first_level stored None) |}.
Proof.
  unfold V6.runOptimize. destruct (V6.validateForm _ _); [intros []|].
  rewrite submit_requests. cbn. intuition.
Qed.

Lemma Api_weights_build (P : bool -> Asset -> Js.value -> Prop) stored l params level :
  (forall manual a, P manual a (Api.payload_weight manual a)) ->
  Api_weights P l (Api.buildOptimizationPayload stored l params level).
Proof.
  intros HP. unfold Api_weights. cbn.
  apply Forall2_fmap_r, Forall_Forall2_diag, Forall_forall. intros a _. cbn. auto.
Qed.

Lemma V2_weights_build (P : bool -> Asset -> Js.value -> Prop) form st :
  (forall manual a, P manual a (Api.payload_weight manual a)) ->
  V2_weights P (V2.assets st) (V2.build_payload form st).
Proof.
  intros HP. unfold V2_weights. cbn.
  apply Forall2_fmap_r, Forall_Forall2_diag, Forall_forall. intros a _. cbn.
  rewrite payload_weight_same. auto.
Qed.

(** C5. The body of a request carries a fixed weight for an asset only when
    its [manual_weights] flag is true, and the weight is then the entered one
    divided by 100; when the flag is false every weight of the body is null.
    This holds for the body that [runOptimize] of the v2 dashboard sends, for
    every body [buildOptimizationPayload] builds, and so for the requests of
    the two later dashboards. *)
Theorem fixed_weight_only_in_manual_mode :
  (forall server form st p,
     In p (requests (snd (V2.runOptimize server form st))) ->
     V2.manual_weights p = V2.isManualWeights st /\
     V2_weights fixed_only_if_manual (V2.assets st) p) /\
  (forall stored l params level,
     Api.manual_weights (Api.buildOptimizationPayload stored l params level)
       = Api.isManualWeights params /\
     Api_weights fixed_only_if_manual l
       (Api.buildOptimizationPayload stored l params level)) /\
  (forall backend stored form st c stored',
     In c (requests (snd (Dashboard.runOptimize backend stored form st))) ->
     Api.manual_weights (Api.payload_of stored' c) = isManualWeights st /\
     Api_weights fixed_only_if_manual (assets st) (Api.payload_of stored' c)) /\
  (forall backend stored form st c stored',
     In c (requests (snd (V6.runOptimize backend stored form st))) ->
     Api.manual_weights (Api.payload_of stored' c) = isManualWeights st /\
     Api_weights fixed_only_if_manual (assets st) (Api.payload_of stored' c)).
Proof.
  split; [|split; [|split]].
  - intros server form st p ->%V2_requests. split; [done|].
    apply V2_weights_build, payload_weight_fixed.
  - intros stored l params level. split; [done|].
    apply Api_weights_build, payload_weight_fixed.
  - intros backend stored form st c stored' ->%Dashboard_requests. split; [done|].
    apply Api_weights_build, payload_weight_fixed.
  - intros backend stored form st c stored' ->%V6_requests. split; [done|].
    apply Api_weights_build, payload_weight_fixed.
Qed.

Lemma fixed_weight_only_in_manual_mode_witness :
  Api_weights fixed_only_if_manual Sample.weighted
    (Api.payload_of (Some "professional")
       {| Api.call_assets := Sample.weighted;
          Api.call_params := V6.build_params Sample.form (Sample.state Sample.weighted true);
          Api.call_level := Some "professional" |}).
Proof.
  destruct fixed_weight_only_in_manual_mode as (_ & _ & _ & H6).
  apply (H6 Sample.down (Some "professional") Sample.form
            (Sample.state Sample.weighted true)).
  vm_compute. tauto.
Defined.

Example weighted_payload_manual :
  Api.p_assets (Api.buildOptimizationPayload None Sample.weighted
                  (V6.build_params Sample.form (Sample.state Sample.weighted true)) None)
  = [ {| Api.pa_ticker := "AAPL"; Api.pa_weight := Some (Js.Fin (7 # 10)) |};
      {| Api.pa_ticker := "MSFT"; Api.pa_weight := None |};
      {| Api.pa_ticker := "NVDA"; Api.pa_weight := None |} ].
Proof. reflexivity. Qed.

Example weighted_payload_solved :
  Api.p_assets (Api.buildOptimizationPayload None Sample.weighted
                  (V6.build_params Sample.form (Sample.state Sample.weighted false)) None)
  = [ {| Api.pa_ticker := "AAPL"; Api.pa_weight := None |};
      {| Api.pa_ticker := "MSFT"; Api.pa_weight := None |};
      {| Api.pa_ticker := "NVDA"; Api.pa_weight := None |} ].
Proof. reflexivity. Qed.

(** C9. In manual-weights mode an asset whose entered weight is 0, or that
    has none, is sent with weight null: the body of a request carries a
    weight for an asset exactly when its [manual_weights] flag is true and
    the entered weight is a number other than 0.  This holds for the body
    that [runOptimize] of the v2 dashboard sends, for every body
    [buildOptimizationPayload] builds, and so for the requests of the two
    later dashboards. *)
Theorem zero_fixed_weight_is_not_fixed :
  (forall server form st p,
     In p (requests (snd (V2.runOptimize server form st))) ->
     V2_weights zero_is_not_fixed (V2.assets st) p) /\
  (forall stored l params level,
     Api_weights zero_is_not_fixed l
       (Api.buildOptimizationPayload stored l params level)) /\
  (forall backend stored form st c stored',
     In c (requests (snd (Dashboard.runOptimize backend stored form st))) ->
     Api_weights zero_is_not_fixed (assets st) (Api.payload_of stored' c)) /\
  (forall backend stored form st c stored',
     In c (requests (snd (V6.runOptimize backend stored form st))) ->
     Api_weights zero_is_not_fixed (assets st) (Api.payload_of stored' c)).
Proof.
  split; [|split; [|split]].
  - intros server form st p ->%V2_requests.
    apply V2_weights_build, payload_weight_zero.
  - intros stored l params level.
    apply Api_weights_build, payload_weight_zero.
  - intros backend stored form st c stored' ->%Dashboard_requests.
    apply Api_weights_build, payload_weight_zero.
  - intros backend stored form st c stored' ->%V6_requests.
    apply Api_weights_build, payload_weight_zero.
Qed.

Lemma zero_fixed_weight_is_not_fixed_witness :
  Api_weights zero_is_not_fixed Sample.weighted
    (Api.payload_of (Some "professional")
       {| Api.call_assets := Sample.weighted;
          Api.call_params :=
            Dashboard.build_params Sample.form (Sample.state Sample.weighted true);
          Api.call_level := Some "professional" |}).
Proof.
  destruct zero_fixed_weight_is_not_fixed as (_ & _ & HD & _).
  apply (HD Sample.down (Some "professional") Sample.form
            (Sample.state Sample.weighted true)).
  vm_compute. tauto.
Defined.

(** *** The risk-free rate *)

Lemma div100_Fin (n : Js.num) (q : Q) :
  n = Js.Fin q -> exists r, Js.div100 n = Js.Fin r /\ (r == q / 100)%Q.
Proof. intros ->. exists (Qred (q / 100)). split; [done|apply Qred_correct]. Qed.

(** C4. The risk-free rate reaches the engine as a fraction per year: at
    each of the four places that send an optimization request, the
    [risk_free_rate] of the body is the number read from the input divided by
    100, once.  For the two later dashboards the division is made when
    [params] is built, and [buildOptimizationPayload] passes the value on
    unchanged.  An input of 2 gives 0.02. *)
Theorem risk_free_rate_is_input_over_100 (s : string) :
  (forall server form st p,
     Pro.riskFreeRate form = s ->
     In p (requests (snd (Pro.optimize server form st))) ->
     Pro.risk_free_rate p = Js.div100 (Js.parseFloat s)) /\
  (forall server form st p,
     V2.riskFreeRate form = s ->
     In p (requests (snd (V2.runOptimize server form st))) ->
     V2.risk_free_rate p = Js.div100 (Js.parseFloat s)) /\
  (forall backend stored form st c stored',
     riskFreeRate form = s ->
     In c (requests (snd (Dashboard.runOptimize backend stored form st))) ->
     Api.risk_free_rate (Api.payload_of stored' c) = Js.div100 (Js.parseFloat s)) /\
  (forall backend stored form st c stored',
     riskFreeRate form = s ->
     In c (requests (snd (V6.runOptimize backend stored form st))) ->
     Api.risk_free_rate (Api.payload_of stored' c) = Js.div100 (Js.parseFloat s)) /\
  (forall q, Js.parseFloat s = Js.Fin q ->
     exists r, Js.div100 (Js.parseFloat s) = Js.Fin r /\ (r == q / 100)%Q) /\
  (s = "2" -> exists r, Js.div100 (Js.parseFloat s) = Js.Fin r /\ (r == 0.02)%Q).
Proof.
  split; [|split; [|split; [|split; [|split]]]].
  - intros server form st p <- ->%Pro_requests. done.
  - intros server form st p <- ->%V2_requests. done.
  - intros backend stored form st c stored' <- ->%Dashboard_requests. done.
  - intros backend stored form st c stored' <- ->%V6_requests. done.
  - intros q. apply div100_Fin.
  - intros ->. exists (1 # 50)%Q. split; reflexivity.
Qed.

Lemma risk_free_rate_is_input_over_100_witness :
  Forall (fun c => Api.risk_free_rate (Api.payload_of (Some "beginner") c) = Js.Fin (1 # 50))
    (requests (snd (Dashboard.runOptimize Sample.down (Some "beginner") Sample.form
                      (Sample.state Sample.plain false)))) /\
  requests (snd (Dashboard.runOptimize Sample.down (Some "beginner") Sample.form
                   (Sample.state Sample.plain false))) <> [].
Proof.
  destruct (risk_free_rate_is_input_over_100 "2") as (_ & _ & HD & _).
  split.
  - apply Forall_forall. intros c Hc.
    apply (HD Sample.down (Some "beginner") Sample.form (Sample.state Sample.plain false)).
    + reflexivity.
    + apply list_elem_of_In. exact Hc.
  - vm_compute. discriminate.
Defined.

(** the default of [buildOptimizationPayload], for a caller that passes no
    rate, is a fraction as well *)
Example risk_free_rate_default stored l level :
  Api.risk_free_rate
    (Api.buildOptimizationPayload stored l
       {| Api.budget := None; Api.startDate := None; Api.endDate := None;
          Api.optimizationModel := None; Api.riskFreeRate := None;
          Api.maxAssets := None; Api.isManualWeights := false |} level)
  = Js.Fin (1 # 50).
Proof. reflexivity. Qed.

(** an empty input is not a number, and neither is what is sent *)
Example risk_free_rate_empty :
  Api.risk_free_rate
    (Api.buildOptimizationPayload None Sample.plain
       (V6.build_params
          {| budget := None; startDate := ""; endDate := ""; algorithm := "max_sharpe";
             riskFreeRate := ""; maxAssets := None |}
          (Sample.state Sample.plain false)) None)
  = Js.NaN.
Proof. reflexivity. Qed.

(** ** The best portfolio *)

Lemma find_the_one {A : Type} (f : A -> bool) (l : list A) (x : A) :
  In x l -> f x = true -> (forall y, In y l -> f y = true -> y = x) ->
  List.find f l = Some x.
Proof.
  induction l as [|a l IH]; intros Hin Hx Huniq; [destruct Hin|].
  cbn. destruct (f a) eqn:E.
  - f_equal. apply Huniq; [by left|done].
  - destruct Hin as [->|Hin]; [congruence|].
    apply IH; [done..|]. intros y Hy. apply Huniq. by right.
Qed.

Lemma filter_none {A : Type} (f : A -> bool) (l : list A) :
  (forall y, In y l -> f y = false) -> List.filter f l = [].
Proof.
  induction l as [|a l IH]; intros H; [done|]. cbn.
  rewrite (H a) by (by left). apply IH. intros y Hy. apply H. by right.
Qed.

Lemma filter_the_one {A : Type} (f : A -> bool) (l : list A) (x : A) :
  NoDup l -> In x l -> f x = true -> (forall y, In y l -> f y = true -> y = x) ->
  List.filter f l = [x].
Proof.
  induction l as [|a l IH]; intros Hnd Hin Hx Huniq; [destruct Hin|].
  apply NoDup_cons in Hnd as [Ha Hnd]. cbn. destruct (f a) eqn:E.
  - assert (a = x) as -> by (apply Huniq; [by left|done]).
    f_equal. apply filter_none.
    intros y Hy. destruct (f y) eqn:Ey; [|done].
    assert (y = x) as -> by (apply Huniq; [by right|done]).
    by apply list_elem_of_In in Hy.
  - destruct Hin as [->|Hin]; [congruence|].
    apply IH; [done..|]. intros y Hy. apply Huniq. by right.
Qed.

(** what [getBestPortfolio] gives on any answer: the first portfolio whose
    name is the designated one, else the first portfolio, else nothing *)
Lemma getBestPortfolio_cases (data : Data) :
  match getBestPortfolio data with
  | None => result_set data = []
  | Some p =>
      (In p (result_set data) /\ is_best (best_portfolio data) p = true) \/
      (head (result_set data) = Some p /\
       forall p', In p' (result_set data) -> is_best (best_portfolio data) p' = false)
  end.
Proof.
  unfold getBestPortfolio. fold (result_set data).
  destruct (result_set data) as [|first rest] eqn:E; [done|].
  destruct (List.find _ _) as [p|] eqn:F.
  - left. by apply List.find_some in F.
  - right. split; [done|]. intros p' Hp'. by eapply List.find_none in F.
Qed.

(** a designation that names no portfolio of the answer falls back on the
    first portfolio *)
Example getBestPortfolio_fallback :
  getBestPortfolio
    {| input_portfolio := None;
       all_portfolios := Some [ {| p_name := "min_volatility"; p_tickers := [];
                                   p_weights := []; p_sharpe := None |} ];
       best_portfolio := Some "max_sharpe" |}
  = Some {| p_name := "min_volatility"; p_tickers := []; p_weights := [];
            p_sharpe := None |}.
Proof. reflexivity. Qed.

Section AllObjectives.

Import Engine.

Variable solve : Objective -> option OptimizationResult.

Lemma objective_name_inj (o o' : Objective) :
  objective_name o = objective_name o' -> o = o'.
Proof. by destruct o, o'. Qed.

Lemma run_all_In (o : Objective) (r : OptimizationResult) :
  In (o, r) (run_all solve) <-> solve o = Some r.
Proof.
  unfold run_all. rewrite <- list_elem_of_In, list_elem_of_omap. split.
  - intros (o' & _ & H). destruct (solve o') eqn:E; [|done].
    cbn in H. by injection H as -> ->.
  - intros H. exists o. rewrite H. split; [|done].
    unfold all_objectives. destruct o; set_solver.
Qed.

Lemma run_all_NoDup : NoDup (run_all solve).
Proof.
  unfold run_all, all_objectives. cbn.
  destruct (solve MaxSharpe), (solve MinVolatility), (solve RiskParity),
    (solve MinCVaR); cbn;
    repeat (apply NoDup_cons_2 || apply NoDup_nil_2);
    rewrite ?elem_of_cons, ?elem_of_nil; intuition discriminate.
Qed.

Lemma best_by_sharpe_None (rs : list (Objective * OptimizationResult)) :
  best_by_sharpe rs = None <-> rs = [].
Proof.
  destruct rs as [|a rs]; [done|]. cbn. split; [|done].
  destruct (best_by_sharpe rs); [destruct (Qle_bool _ _)|]; discriminate.
Qed.

Lemma best_by_sharpe_max (rs : list (Objective * OptimizationResult)) x :
  best_by_sharpe rs = Some x ->
  In x rs /\ forall y, In y rs -> (r_sharpe (snd y) <= r_sharpe (snd x))%Q.
Proof.
  revert x. induction rs as [|a rs IH]; intros x; [done|]. cbn.
  destruct (best_by_sharpe rs) as [b|] eqn:E.
  - destruct (IH b eq_refl) as [Hb Hmax].
    destruct (Qle_bool _ _) eqn:C; intros [= <-].
    + apply Qle_bool_iff in C. split; [by left|].
      intros y [<-|Hy]; [apply Qle_refl|].
      eapply Qle_trans; [by apply Hmax|done].
    + split; [by right|]. intros y [<-|Hy]; [|by apply Hmax].
      destruct (Qlt_le_dec (r_sharpe (snd b)) (r_sharpe (snd a))) as [Hlt|Hle].
      * apply Qlt_le_weak in Hlt. apply Qle_bool_iff in Hlt. congruence.
      * done.
  - intros [= <-]. apply best_by_sharpe_None in E as ->.
    split; [by left|]. intros y [<-|[]]. apply Qle_refl.
Qed.

Lemma best_portfolio_respond_all :
  best_portfolio (respond_all solve)
  = (fun x => objective_name (fst x)) <$> best_by_sharpe (run_all solve).
Proof. reflexivity. Qed.

Lemma result_set_In (p : Portfolio) :
  In p (result_set (respond_all solve)) <->
  exists o r, solve o = Some r /\ p = to_portfolio (o, r).
Proof.
  unfold result_set, respond_all. cbn. rewrite in_map_iff. split.
  - intros ([o r] & <- & Hin). apply run_all_In in Hin. eauto.
  - intros (o & r & Hs & ->). exists (o, r). split; [done|]. by apply run_all_In.
Qed.

Lemma result_set_names_NoDup : NoDup (map p_name (result_set (respond_all solve))).
Proof.
  unfold result_set, respond_all, run_all, all_objectives. cbn.
  destruct (solve MaxSharpe), (solve MinVolatility), (solve RiskParity),
    (solve MinCVaR); cbn;
    repeat (apply NoDup_cons_2 || apply NoDup_nil_2);
    rewrite ?elem_of_cons, ?elem_of_nil; intuition discriminate.
Qed.

Lemma result_set_by_name (o : Objective) (r : OptimizationResult) (p : Portfolio) :
  solve o = Some r -> In p (result_set (respond_all solve)) ->
  p_name p = objective_name o -> p = to_portfolio (o, r).
Proof.
  intros Hs (o' & r' & Hs' & ->)%result_set_In Hname. cbn in Hname.
  apply objective_name_inj in Hname as ->. congruence.
Qed.

End AllObjectives.

(** C6. The answer to a request for all objectives holds a portfolio for
    every objective that was solved and none for an objective that failed;
    it names none as best only when every objective failed, and otherwise
    names the objective of a result with the largest Sharpe ratio.  On such
    an answer [getBestPortfolio] gives the one portfolio of the result set
    that carries the designated name, and the professional page labels that
    portfolio and no other.  On any answer at all, [getBestPortfolio] gives
    a portfolio of the designated name as soon as the result set holds
    one. *)
Theorem best_of_all_is_the_designated_one
    (solve : Engine.Objective -> option Engine.OptimizationResult) :
  (forall o r, solve o = Some r ->
     In (Engine.to_portfolio (o, r)) (result_set (Engine.respond_all solve))) /\
  (forall p, In p (result_set (Engine.respond_all solve)) ->
     exists o r, solve o = Some r /\ p = Engine.to_portfolio (o, r)) /\
  (forall o, solve o = None ->
     ~ In (Engine.objective_name o) (map p_name (result_set (Engine.respond_all solve)))) /\
  (best_portfolio (Engine.respond_all solve) = None ->
     (forall o, solve o = None) /\ getBestPortfolio (Engine.respond_all solve) = None) /\
  (forall b, best_portfolio (Engine.respond_all solve) = Some b ->
     exists o r,
       solve o = Some r /\ b = Engine.objective_name o /\
       (forall o' r', solve o' = Some r' -> (Engine.r_sharpe r' <= Engine.r_sharpe r)%Q) /\
       getBestPortfolio (Engine.respond_all solve) = Some (Engine.to_portfolio (o, r)) /\
       (forall p, In p (result_set (Engine.respond_all solve)) ->
          p_name p = b -> p = Engine.to_portfolio (o, r)) /\
       labelled_best (Engine.respond_all solve) = [Engine.to_portfolio (o, r)]) /\
  (forall data p b,
     best_portfolio data = Some b -> In p (result_set data) -> p_name p = b ->
     exists p', getBestPortfolio data = Some p' /\ In p' (result_set data) /\
                p_name p' = b).
Proof.
  split; [|split; [|split; [|split; [|split]]]]; cycle 5.
  { intros data p b Hb Hp Hname.
    pose proof (getBestPortfolio_cases data) as Hcases.
    destruct (getBestPortfolio data) as [p'|].
    - destruct Hcases as [[Hin Hbest]|[_ Hnone]].
      + exists p'. rewrite Hb in Hbest. by apply String.eqb_eq in Hbest.
      + specialize (Hnone p Hp). rewrite Hb in Hnone. cbn in Hnone.
        apply String.eqb_neq in Hnone. contradiction.
    - rewrite Hcases in Hp. destruct Hp. }
  - intros o r Hs. apply result_set_In. eauto.
  - intros p Hp. by apply result_set_In.
  - intros o Hs (p & Hname & (o' & r' & Hs' & ->)%result_set_In)%in_map_iff.
    cbn in Hname. apply objective_name_inj in Hname as ->. congruence.
  - intros Hnone. rewrite best_portfolio_respond_all in Hnone.
    destruct (Engine.best_by_sharpe (Engine.run_all solve)) eqn:E; [done|].
    apply best_by_sharpe_None in E. split.
    + intros o. destruct (solve o) as [r|] eqn:Hs; [|done].
      apply run_all_In in Hs. rewrite E in Hs. destruct Hs.
    + unfold getBestPortfolio, Engine.respond_all. cbn [all_portfolios]. by rewrite E.
  - intros b Hb. pose proof (best_portfolio_respond_all solve) as Hdes.
    rewrite Hb in Hdes.
    destruct (Engine.best_by_sharpe (Engine.run_all solve)) as [[o r]|] eqn:E; [|done].
    injection Hdes as ->. cbn [fst] in Hb |- *.
    apply best_by_sharpe_max in E as [Hin Hmax]. apply run_all_In in Hin as Hs.
    assert (Hp : In (Engine.to_portfolio (o, r)) (result_set (Engine.respond_all solve)))
      by (apply result_set_In; eauto).
    assert (Hbest : is_best (Some (Engine.objective_name o)) (Engine.to_portfolio (o, r)) = true)
      by apply String.eqb_refl.
    assert (Huniq : forall p, In p (result_set (Engine.respond_all solve)) ->
              is_best (Some (Engine.objective_name o)) p = true ->
              p = Engine.to_portfolio (o, r)).
    { intros p Hin' Hname. apply String.eqb_eq in Hname.
      by eapply result_set_by_name. }
    exists o, r. split; [done|]. split; [done|]. split; [|split; [|split]].
    + intros o' r' Hs'. apply run_all_In in Hs'. by apply (Hmax (o', r')).
    + unfold getBestPortfolio. fold (result_set (Engine.respond_all solve)).
      destruct (result_set (Engine.respond_all solve)) as [|first rest] eqn:Ers;
        [destruct Hp|].
      rewrite Hb. by rewrite (find_the_one _ _ _ Hp Hbest Huniq).
    + intros p Hin' Hname. by eapply result_set_by_name.
    + unfold labelled_best. fold (result_set (Engine.respond_all solve)).
      rewrite Hb. apply filter_the_one; [|done..].
      eapply NoDup_fmap_1, result_set_names_NoDup.
Qed.

Lemma best_of_all_is_the_designated_one_witness :
  exists o r,
    Sample.solve o = Some r /\ "min_cvar" = Engine.objective_name o /\
    (forall o' r', Sample.solve o' = Some r' -> (Engine.r_sharpe r' <= Engine.r_sharpe r)%Q) /\
    getBestPortfolio (Engine.respond_all Sample.solve) = Some (Engine.to_portfolio (o, r)) /\
    (forall p, In p (result_set (Engine.respond_all Sample.solve)) ->
       p_name p = "min_cvar" -> p = Engine.to_portfolio (o, r)) /\
    labelled_best (Engine.respond_all Sample.solve) = [Engine.to_portfolio (o, r)].
Proof.
  destruct (best_of_all_is_the_designated_one Sample.solve) as (_ & _ & _ & _ & H & _).
  apply H. reflexivity.
Defined.

Example respond_all_names :
  map p_name (result_set (Engine.respond_all Sample.solve))
  = ["max_sharpe"; "min_volatility"; "min_cvar"].
Proof. reflexivity. Qed.

(** ** The efficient frontier *)

Section FrontierFacts.

Import Engine.
Local Open Scope Q_scope.

Variable mu : list Q.
Variable sigma : list (list Q).
Variable bounds : list (Q * Q).
Variable solver : Q -> option (list Q).
Hypothesis Hsolves : solves mu sigma bounds solver.

(** a higher target leaves fewer weight vectors to choose from *)
Lemma feasible_antitone (t1 t2 : Q) (w : list Q) :
  t1 <= t2 -> feasible mu bounds t2 w -> feasible mu bounds t1 w.
Proof.
  intros Hle (Hsum & Hb & Ht). repeat split; [done..|]. by eapply Qle_trans.
Qed.

Lemma solver_monotone (t1 t2 : Q) (w1 w2 : list Q) :
  t1 <= t2 -> solver t1 = Some w1 -> solver t2 = Some w2 ->
  variance sigma w1 <= variance sigma w2.
Proof.
  intros Hle H1 H2.
  destruct (Hsolves t1 w1 H1) as [_ Hmin].
  destruct (Hsolves t2 w2 H2) as [Hfeas _].
  apply Hmin. by eapply feasible_antitone.
Qed.

Lemma frontier_In (lo hi : Q) (n : nat) (p : Q * Q) :
  In p (efficient_frontier sigma solver lo hi n) <->
  exists w, In (fst p) (targets lo hi n) /\ solver (fst p) = Some w /\
            snd p = variance sigma w.
Proof.
  unfold efficient_frontier. rewrite <- list_elem_of_In, list_elem_of_omap.
  setoid_rewrite list_elem_of_In. split.
  - intros (t & Ht & H). destruct (solver t) as [w|] eqn:E; [|done].
    injection H as <-. cbn. eauto.
  - intros (w & Ht & Hs & Hv). exists (fst p). split; [done|].
    rewrite Hs. cbn. destruct p. cbn in *. by subst.
Qed.

End FrontierFacts.

Lemma StronglySorted_omap {A B : Type} (R : relation A) (R' : relation B)
    (f : A -> option B) (l : list A) :
  (forall x y x' y', R x y -> f x = Some x' -> f y = Some y' -> R' x' y') ->
  StronglySorted R l -> StronglySorted R' (omap f l).
Proof.
  intros Hf. induction l as [|a l IH]; intros Hs; [constructor|].
  apply StronglySorted_cons in Hs as [Ha Hl]. cbn.
  destruct (f a) as [a'|] eqn:E; [|by apply IH].
  apply StronglySorted_cons. split; [|by apply IH].
  apply Forall_forall. intros y' (y & Hy & Hfy)%list_elem_of_omap.
  rewrite Forall_forall in Ha. eauto.
Qed.

Lemma StronglySorted_map_seq (g : nat -> Q) (start len : nat) :
  (forall i j, (i <= j)%nat -> (g i <= g j)%Q) ->
  StronglySorted Qle (map g (seq start len)).
Proof.
  intros Hg. revert start. induction len as [|len IH]; intros start; [constructor|].
  cbn. apply StronglySorted_cons. split; [|apply IH].
  apply Forall_forall. intros y (i & <- & Hi)%list_elem_of_In%in_map_iff.
  apply in_seq in Hi. apply Hg. lia.
Qed.

Lemma targets_sorted (lo hi : Q) (n : nat) :
  (lo <= hi)%Q -> StronglySorted Qle (Engine.targets lo hi n).
Proof.
  intros Hle. unfold Engine.targets. apply StronglySorted_map_seq.
  intros i j Hij. apply Qplus_le_r, Qmult_le_compat_r.
  - rewrite <- Zle_Qle. lia.
  - apply Qmult_le_0_compat; [lra|].
    apply Qinv_le_0_compat. change 0%Q with (inject_Z 0). rewrite <- Zle_Qle. lia.
Qed.

(** C7. The frontier generator gives the points in the order of the swept
    targets, one for each target that the minimum-volatility solver can
    meet and none for a target it cannot; between any two of its points the
    variance, and so the volatility, of the one with the higher target
    return is not below that of the other.  When the range swept is not
    empty the targets increase along the sequence, and the volatility with
    them.  The solver is taken to return a feasible vector of least variance
    whenever it returns one. *)
Theorem efficient_frontier_monotone (mu : list Q) (sigma : list (list Q))
    (bounds : list (Q * Q)) (solver : Q -> option (list Q)) (lo hi : Q) (n : nat) :
  Engine.solves mu sigma bounds solver ->
  (forall p q,
     In p (Engine.efficient_frontier sigma solver lo hi n) ->
     In q (Engine.efficient_frontier sigma solver lo hi n) ->
     (fst p <= fst q)%Q -> (snd p <= snd q)%Q) /\
  ((lo <= hi)%Q ->
     StronglySorted Engine.frontier_le (Engine.efficient_frontier sigma solver lo hi n)) /\
  (forall p, In p (Engine.efficient_frontier sigma solver lo hi n) <->
     exists w, In (fst p) (Engine.targets lo hi n) /\ solver (fst p) = Some w /\
               snd p = Engine.variance sigma w) /\
  map fst (Engine.efficient_frontier sigma solver lo hi n)
    = List.filter (fun t => bool_decide (is_Some (solver t))) (Engine.targets lo hi n).
Proof.
  intros Hsolves. split; [|split; [|split]].
  - intros p q (w1 & _ & H1 & ->)%frontier_In (w2 & _ & H2 & ->)%frontier_In Hle.
    by eapply solver_monotone.
  - intros Hle. eapply StronglySorted_omap; [|by apply targets_sorted].
    intros t1 t2 p q Ht Hp Hq.
    destruct (solver t1) as [w1|] eqn:E1; [|done].
    destruct (solver t2) as [w2|] eqn:E2; [|done].
    injection Hp as <-. injection Hq as <-. split; [done|]. cbn.
    by eapply solver_monotone.
  - intros p. apply frontier_In.
  - unfold Engine.efficient_frontier.
    induction (Engine.targets lo hi n) as [|t ts IH]; [done|]. cbn.
    destruct (solver t) as [w|]; cbn; [by rewrite IH|done].
Qed.

Lemma Qsquare_nonneg (x : Q) : (0 <= x * x)%Q.
Proof.
  destruct (Qlt_le_dec x 0) as [Hneg|Hpos].
  - assert (E : (x * x == (- x) * (- x))%Q) by ring.
    rewrite E. apply Qmult_le_0_compat; lra.
  - by apply Qmult_le_0_compat.
Qed.

(** the closed-form solver of the sample meets the contract of the solver *)
Lemma two_asset_solver_solves :
  Engine.solves Sample.mu Sample.sigma Sample.bounds Sample.two_asset_solver.
Proof.
  intros target w Hw. unfold Sample.two_asset_solver in Hw.
  assert (Hshape : forall w', Engine.feasible Sample.mu Sample.bounds target w' ->
            exists a b, w' = [a; b] /\ (a + b == 1)%Q /\ (0 <= a)%Q /\ (0 <= b)%Q /\
                        (target <= b)%Q).
  { intros w' (Hsum & Hb & Ht). unfold Sample.bounds in Hb.
    apply Forall2_cons_inv_r in Hb as (a & w1 & [Ha0 Ha1] & Hb & ->).
    apply Forall2_cons_inv_r in Hb as (b & w2 & [Hb0 Hb1] & Hb & ->).
    apply Forall2_nil_inv_r in Hb as ->.
    exists a, b. cbn in *. unfold Engine.dot, Engine.total in *. cbn in *.
    repeat split; [lra..]. }
  destruct (Qle_bool target (1 # 2)) eqn:C1.
  - injection Hw as <-. apply Qle_bool_iff in C1. split.
    + split; [|split].
      * unfold Engine.total. cbn. lra.
      * unfold Sample.bounds.
        repeat (constructor; [split; cbn; lra|]). constructor.
      * unfold Engine.dot. cbn. lra.
    + intros w' (a & b & -> & Hsum & Ha & Hb & Ht)%Hshape.
      unfold Engine.variance, Engine.dot, Sample.sigma. cbn.
      assert (Hsq : ((a + b) * (a + b) == 1)%Q) by (rewrite Hsum; reflexivity).
      pose proof (Qsquare_nonneg (a - b)) as Hdiff.
      lra.
  - destruct (Qle_bool target 1) eqn:C2; [|done].
    injection Hw as <-. apply Qle_bool_iff in C2.
    assert (C1' : (1 # 2 < target)%Q).
    { apply Qnot_le_lt. intros H. apply Qle_bool_iff in H. congruence. }
    split.
    + split; [|split].
      * unfold Engine.total. cbn. lra.
      * unfold Sample.bounds.
        repeat (constructor; [split; cbn; lra|]). constructor.
      * unfold Engine.dot. cbn. lra.
    + intros w' (a & b & -> & Hsum & Ha & Hb & Ht)%Hshape.
      unfold Engine.variance, Engine.dot, Sample.sigma. cbn.
      assert (Hsq : ((a + b) * (a + b) == 1)%Q) by (rewrite Hsum; reflexivity).
      assert (Hab : ((a + b) * b == b)%Q) by (rewrite Hsum; ring).
      assert (Hprod : (0 <= (b - target) * (b + target - 1))%Q)
        by (apply Qmult_le_0_compat; lra).
      lra.
Qed.

Lemma efficient_frontier_monotone_witness :
  StronglySorted Engine.frontier_le
    (Engine.efficient_frontier Sample.sigma Sample.two_asset_solver 0 (5 # 4) 6) /\
  map fst (Engine.efficient_frontier Sample.sigma Sample.two_asset_solver 0 (5 # 4) 6)
    = List.filter (fun t => bool_decide (is_Some (Sample.two_asset_solver t)))
        (Engine.targets 0 (5 # 4) 6).
Proof.
  destruct (efficient_frontier_monotone Sample.mu Sample.sigma Sample.bounds
              Sample.two_asset_solver 0 (5 # 4) 6 two_asset_solver_solves)
    as (_ & Hsorted & _ & Hkept).
  split; [|exact Hkept]. apply Hsorted. vm_compute. discriminate.
Defined.

(** six targets from 0 to 5/4: the last one cannot be met and gives no point *)
Example sample_frontier :
  map (fun p => (Qred (fst p), Qred (snd p)))
    (Engine.efficient_frontier Sample.sigma Sample.two_asset_solver 0 (5 # 4) 6)
  = [(0, 1 # 2); (1 # 4, 1 # 2); (1 # 2, 1 # 2); (3 # 4, 5 # 8); (1, 1)]%Q.
Proof. reflexivity. Qed.

(** ** Settings and favourites *)

Lemma string_app_cons (c : ascii) (s t : string) :
  (String c s ++ t)%string = String c (s ++ t).
Proof. reflexivity. Qed.

Lemma string_app_assoc (a b c : string) : ((a ++ b) ++ c)%string = (a ++ (b ++ c))%string.
Proof.
  induction a as [|x a IH]; [reflexivity|].
  rewrite !string_app_cons. by rewrite IH.
Qed.

Lemma string_app_length (a b : string) :
  String.length (a ++ b) = (String.length a + String.length b)%nat.
Proof.
  induction a as [|x a IH]; [reflexivity|].
  rewrite string_app_cons. cbn. by rewrite IH.
Qed.

Section SampleJsonFacts.

Import SampleJson.

Lemma unquote_escape (s rest : string) :
  unquote (escape s ++ String quote rest) = Some (s, rest).
Proof.
  induction s as [|c s IH].
  - reflexivity.
  - cbn [escape]. destruct (special c) eqn:Hc.
    + rewrite !string_app_cons. cbn [unquote].
      change (Ascii.eqb backslash quote) with false.
      change (Ascii.eqb backslash backslash) with true. cbn iota.
      by rewrite IH.
    + rewrite string_app_cons. cbn [unquote].
      unfold special in Hc. apply orb_false_iff in Hc as [-> ->]. by rewrite IH.
Qed.

Lemma read_items_items (x : string) (l : list string) (fuel : nat) :
  (length l < fuel)%nat -> read_items fuel (items (x :: l) ++ "]") = Some (x :: l).
Proof.
  revert x fuel. induction l as [|y l IH]; intros x fuel Hfuel.
  - destruct fuel as [|fuel]; [lia|].
    cbn [items]. unfold quoted. rewrite string_app_cons. cbn [read_items].
    change (Ascii.eqb quote quote) with true. cbn iota.
    rewrite string_app_assoc, string_app_cons. by rewrite unquote_escape.
  - destruct fuel as [|fuel]; [cbn in Hfuel; lia|].
    change (items (x :: y :: l))
      with (quoted x ++ String "," (items (y :: l)))%string.
    unfold quoted at 1. rewrite string_app_assoc, string_app_cons. cbn [read_items].
    change (Ascii.eqb quote quote) with true. cbn iota.
    rewrite string_app_assoc, string_app_cons, unquote_escape.
    rewrite string_app_cons.
    specialize (IH y fuel ltac:(cbn in Hfuel; lia)).
    set (t := (items (y :: l) ++ "]")%string) in *. clearbody t.
    change (String.append "" (String "," t)) with (String "," t).
    cbn iota. by rewrite IH.
Qed.

Lemma items_length (x : string) (l : list string) :
  (length l < String.length (items (x :: l)))%nat.
Proof.
  revert x. induction l as [|y l IH]; intros x.
  - cbn. lia.
  - change (items (x :: y :: l))
      with (quoted x ++ String "," (items (y :: l)))%string.
    rewrite string_app_length. cbn [String.length length]. specialize (IH y). lia.
Qed.

(** the sample codec reads back what it prints *)
Lemma sample_json_laws : json_laws json.
Proof.
  split; [|split; [intros l; discriminate|reflexivity]].
  intros [|x l]; [reflexivity|].
  cbn [parse stringify json]. unfold print, read.
  destruct (items (x :: l) ++ "]")%string as [|c r] eqn:E.
  { destruct (items (x :: l)); discriminate. }
  assert (Hc : forall t, String c r <> String "]" t).
  { intros t Ht. rewrite <- E in Ht.
    cbn [items] in Ht. destruct l; unfold quoted in Ht; discriminate. }
  assert (Hr : read_items (String.length (String c r)) (String c r) = Some (x :: l)).
  { rewrite <- E. apply read_items_items. rewrite string_app_length.
    pose proof (items_length x l). lia. }
  destruct (string_dec (String c r) "]") as [Heq|Hne]; [by apply Hc in Heq|].
  destruct c as [[] [] [] [] [] [] [] []]; try exact Hr.
  destruct r; [contradiction|exact Hr].
Qed.

End SampleJsonFacts.

Example sample_json_reads :
  SampleJson.read (SampleJson.print ["AAPL"; "BRK.B"]) = Some ["AAPL"; "BRK.B"].
Proof. reflexivity. Qed.

(** the value of a setting survives the store, up to the reading of the
    texts [true] and [false] as booleans; other keys are not touched *)
Theorem appstate_get_after_set (ls : gmap string string) (k k' : string)
    (v : AppState.setting) :
  AppState.get (AppState.set ls k v) k'
  = if decide (k' = k) then Some (AppState.read_back v) else AppState.get ls k'.
Proof.
  unfold AppState.get, AppState.set. destruct (decide (k' = k)) as [->|Hne].
  - rewrite lookup_insert_eq. destruct v as [[]|s]; [reflexivity..|].
    cbn. by destruct (String.eqb s "true"), (String.eqb s "false").
  - by rewrite lookup_insert_ne.
Qed.

Lemma reset_lookup (ls : gmap string string) (k : string) :
  AppState.reset ls !! k
  = if bool_decide (k ∈ map fst AppState.default_list) then None else ls !! k.
Proof.
  unfold AppState.reset. cbn [AppState.default_list map fst fold_left].
  rewrite !lookup_delete.
  repeat (case_decide;
          [subst; by rewrite bool_decide_eq_true_2 by (apply list_elem_of_In; cbn; tauto)|]).
  rewrite bool_decide_eq_false_2; [done|].
  rewrite list_elem_of_In. cbn. intuition congruence.
Qed.

(** [reset] brings every setting back to its default and leaves the other
    keys of the store, such as the favourites, as they are *)
Theorem appstate_reset (ls : gmap string string) (k : string) :
  (In k (map fst AppState.default_list) ->
     AppState.get (AppState.reset ls) k = AppState.defaults !! k /\
     is_Some (AppState.defaults !! k)) /\
  (~ In k (map fst AppState.default_list) ->
     AppState.reset ls !! k = ls !! k /\
     AppState.get (AppState.reset ls) k = AppState.get ls k).
Proof.
  split.
  - intros Hin. unfold AppState.get. rewrite reset_lookup.
    rewrite bool_decide_eq_true_2 by (by apply list_elem_of_In).
    split; [done|]. cbn in Hin.
    repeat (destruct Hin as [<-|Hin]; [by eexists|]). destruct Hin.
  - intros Hout. unfold AppState.get. rewrite reset_lookup.
    rewrite bool_decide_eq_false_2 by (by rewrite list_elem_of_In). done.
Qed.

Lemma appstate_reset_witness :
  AppState.get
    (AppState.reset (AppState.set (AppState.setKnowledgeLevel SampleJson.store "professional")
                       "compactMode" (AppState.SBool true)))
    "knowledgeLevel"
  = Some (AppState.SStr "beginner") /\
  AppState.reset SampleJson.store !! "favorites" = SampleJson.store !! "favorites".
Proof.
  split.
  - apply (appstate_reset _ "knowledgeLevel"). cbn. tauto.
  - apply (appstate_reset SampleJson.store "favorites"). cbn. intuition discriminate.
Defined.

(** every header that [getSettingsHeaders] builds has a value, whatever
    the store holds, and the level it sends is [beginner] until one is set *)
Theorem settings_headers_defined (ls : gmap string string) :
  Forall (fun h => is_Some (snd h)) (AppState.getSettingsHeaders ls) /\
  (ls !! "knowledgeLevel" = None ->
     In ("X-Knowledge-Level", Some (AppState.SStr "beginner"))
        (AppState.getSettingsHeaders ls)).
Proof.
  assert (Hget : forall k, In k (map fst AppState.default_list) ->
            is_Some (AppState.get ls k)).
  { intros k Hin. unfold AppState.get. destruct (ls !! k) as [val|].
    - destruct (String.eqb val "true"); [by eexists|].
      destruct (String.eqb val "false"); by eexists.
    - cbn in Hin. repeat (destruct Hin as [<-|Hin]; [by eexists|]). destruct Hin. }
  split.
  - unfold AppState.getSettingsHeaders.
    repeat (apply Forall_cons; split; [apply Hget; cbn; tauto|]). apply Forall_nil_2.
  - intros Hnone. unfold AppState.getSettingsHeaders, AppState.get. rewrite Hnone.
    cbn. tauto.
Qed.

Lemma settings_headers_defined_witness :
  In ("X-Knowledge-Level", Some (AppState.SStr "beginner"))
     (AppState.getSettingsHeaders SampleJson.store).
Proof. apply settings_headers_defined. reflexivity. Defined.

(** *** Favourites *)

Lemma includes_symbol_In (l : list string) (x : string) :
  includes_symbol l x = true <-> In x l.
Proof.
  unfold includes_symbol. rewrite existsb_exists. split.
  - intros (y & Hy & E). apply String.eqb_eq in E. by subst.
  - intros Hx. exists x. split; [done|apply String.eqb_refl].
Qed.

Lemma includes_symbol_not_In (l : list string) (x : string) :
  includes_symbol l x = false <-> ~ In x l.
Proof.
  rewrite <- includes_symbol_In. destruct (includes_symbol l x); split; congruence.
Qed.

Lemma remove_first_In (x y : string) (l : list string) :
  In y (remove_first x l) -> In y l.
Proof.
  induction l as [|z l IH]; [done|]. cbn.
  destruct (String.eqb z x); [by right|]. intros [->|H]; [by left|right; auto].
Qed.

Lemma remove_first_other (x y : string) (l : list string) :
  y <> x -> In y l -> In y (remove_first x l).
Proof.
  intros Hne. induction l as [|z l IH]; [done|]. cbn.
  destruct (String.eqb z x) eqn:E.
  - apply String.eqb_eq in E as ->. intros [->|H]; [done|done].
  - intros [->|H]; [by left|right; auto].
Qed.

Lemma remove_first_NoDup (x : string) (l : list string) :
  NoDup l -> NoDup (remove_first x l) /\ ~ In x (remove_first x l).
Proof.
  induction l as [|z l IH]; [intros _; split; [apply NoDup_nil_2|intros []]|].
  rewrite NoDup_cons, list_elem_of_In. intros [Hz Hl]. cbn.
  destruct (String.eqb z x) eqn:E.
  - apply String.eqb_eq in E as ->. done.
  - apply String.eqb_neq in E. destruct (IH Hl) as [Hnd Hx]. split.
    + apply NoDup_cons. split; [|done]. rewrite list_elem_of_In.
      intros H. by apply remove_first_In in H.
    + intros [->|H]; [done|contradiction].
Qed.

Lemma remove_first_pushed (x : string) (l : list string) :
  ~ In x l -> remove_first x (l ++ [x]) = l.
Proof.
  induction l as [|z l IH]; intros Hx; cbn.
  - by rewrite String.eqb_refl.
  - destruct (String.eqb z x) eqn:E.
    + apply String.eqb_eq in E as ->. exfalso. apply Hx. by left.
    + f_equal. apply IH. intros H. apply Hx. by right.
Qed.

Lemma remove_first_Permutation (x : string) (l : list string) :
  In x l -> l ≡ₚ remove_first x l ++ [x].
Proof.
  induction l as [|z l IH]; [done|]. cbn. destruct (String.eqb z x) eqn:E.
  - apply String.eqb_eq in E as ->. intros _.
    by rewrite <- Permutation_cons_append.
  - apply String.eqb_neq in E. intros [->|H]; [done|]. cbn. by rewrite <- IH.
Qed.

Section FavouriteFacts.

Variable J : Json.
Hypothesis HJ : json_laws J.

Lemma item_stored (ls : gmap string string) (key : string) (l : list string) :
  parse J (item_or_empty_array (<[key := stringify J l]> ls) key) = Some l.
Proof.
  destruct HJ as (Hrt & Hne & _).
  unfold item_or_empty_array. rewrite lookup_insert_eq.
  destruct (stringify J l) as [|c r] eqn:E; [by apply Hne in E|].
  rewrite <- E. apply Hrt.
Qed.

Lemma getFavorites_toggleFavorite (ls : gmap string string) (sym : string) :
  Market.getFavorites J (Market.toggleFavorite J ls sym)
  = Market.toggled (Market.getFavorites J ls) sym.
Proof. unfold Market.getFavorites at 1, Market.toggleFavorite. by rewrite item_stored. Qed.

Lemma toggled_NoDup (favs : list string) (sym : string) :
  NoDup favs -> NoDup (Market.toggled favs sym).
Proof.
  intros Hnd. unfold Market.toggled. destruct (includes_symbol favs sym) eqn:E.
  - by apply remove_first_NoDup.
  - apply includes_symbol_not_In in E. apply NoDup_app. split; [done|]. split.
    + intros x Hx ->%list_elem_of_singleton. by apply list_elem_of_In in Hx.
    + apply NoDup_singleton.
Qed.

Lemma toggled_flips (favs : list string) (sym : string) :
  NoDup favs ->
  includes_symbol (Market.toggled favs sym) sym = negb (includes_symbol favs sym).
Proof.
  intros Hnd. unfold Market.toggled. destruct (includes_symbol favs sym) eqn:E; cbn.
  - apply includes_symbol_not_In. by apply remove_first_NoDup.
  - apply includes_symbol_In, in_or_app. right. by left.
Qed.

Lemma toggled_other (favs : list string) (sym other : string) :
  other <> sym ->
  includes_symbol (Market.toggled favs sym) other = includes_symbol favs other.
Proof.
  intros Hne. apply eq_true_iff_eq. rewrite !includes_symbol_In.
  unfold Market.toggled. destruct (includes_symbol favs sym).
  - split; [apply remove_first_In|by apply remove_first_other].
  - rewrite in_app_iff. cbn. intuition congruence.
Qed.

End FavouriteFacts.

(** One click on a star.  When the stored favourites hold no symbol twice,
    [toggleFavorite] turns the membership of the clicked symbol around, so
    the star drawn after the click agrees with the store; it leaves every
    other symbol and every other key of the store as they were, and again
    no symbol is stored twice. *)
Theorem toggleFavorite_flips (J : Json) (ls : gmap string string) (sym : string) :
  json_laws J ->
  NoDup (Market.getFavorites J ls) ->
  (forall item,
     Market.star_filled J (Market.toggleFavorite J ls sym) item
     = if String.eqb (symbol item) sym
       then negb (Market.star_filled J ls item)
       else Market.star_filled J ls item) /\
  NoDup (Market.getFavorites J (Market.toggleFavorite J ls sym)) /\
  (forall k, k <> "favorites" -> Market.toggleFavorite J ls sym !! k = ls !! k).
Proof.
  intros HJ Hnd. split; [|split].
  - intros item. unfold Market.star_filled.
    rewrite getFavorites_toggleFavorite by done.
    destruct (String.eqb (symbol item) sym) eqn:E.
    + apply String.eqb_eq in E as ->. by apply toggled_flips.
    + apply String.eqb_neq in E. by apply toggled_other.
  - rewrite getFavorites_toggleFavorite by done. by apply toggled_NoDup.
  - intros k Hk. unfold Market.toggleFavorite. by rewrite lookup_insert_ne.
Qed.

Lemma toggleFavorite_flips_witness :
  NoDup (Market.getFavorites SampleJson.json
           (Market.toggleFavorite SampleJson.json SampleJson.store "MSFT")) /\
  Market.star_filled SampleJson.json
    (Market.toggleFavorite SampleJson.json SampleJson.store "MSFT")
    (SampleJson.item "MSFT" "Microsoft") = true.
Proof.
  destruct (toggleFavorite_flips SampleJson.json SampleJson.store "MSFT")
    as (Hstar & Hnd & _).
  - exact sample_json_laws.
  - vm_compute. repeat (apply NoDup_cons_2 || apply NoDup_nil_2);
      rewrite ?elem_of_cons, ?elem_of_nil; intuition discriminate.
  - split; [exact Hnd|]. rewrite Hstar. reflexivity.
Defined.

(** Starring a symbol and unstarring it again, or the other way round,
    gives back the same favourites: the very same array when the symbol was
    not a favourite, the same symbols in another order when it was. *)
Theorem toggleFavorite_twice (J : Json) (ls : gmap string string) (sym : string) :
  json_laws J ->
  NoDup (Market.getFavorites J ls) ->
  Market.getFavorites J (Market.toggleFavorite J (Market.toggleFavorite J ls sym) sym)
    ≡ₚ Market.getFavorites J ls /\
  (~ In sym (Market.getFavorites J ls) ->
   Market.getFavorites J (Market.toggleFavorite J (Market.toggleFavorite J ls sym) sym)
   = Market.getFavorites J ls).
Proof.
  intros HJ Hnd. rewrite !getFavorites_toggleFavorite by done.
  generalize dependent (Market.getFavorites J ls). intros favs Hnd.
  unfold Market.toggled. destruct (includes_symbol favs sym) eqn:E.
  - assert (E' : includes_symbol (remove_first sym favs) sym = false)
      by (apply includes_symbol_not_In; by apply remove_first_NoDup).
    rewrite E'. apply includes_symbol_In in E. split.
    + symmetry. by apply remove_first_Permutation.
    + intros Hout. contradiction.
  - assert (E' : includes_symbol (favs ++ [sym]) sym = true)
      by (apply includes_symbol_In, in_or_app; right; by left).
    rewrite E'. apply includes_symbol_not_In in E.
    rewrite remove_first_pushed by done. split; [reflexivity|done].
Qed.

Lemma toggleFavorite_twice_witness :
  Market.getFavorites SampleJson.json
    (Market.toggleFavorite SampleJson.json
       (Market.toggleFavorite SampleJson.json SampleJson.store "MSFT") "MSFT")
  = Market.getFavorites SampleJson.json SampleJson.store.
Proof.
  apply (toggleFavorite_twice SampleJson.json SampleJson.store "MSFT").
  - exact sample_json_laws.
  - vm_compute. repeat (apply NoDup_cons_2 || apply NoDup_nil_2);
      rewrite ?elem_of_cons, ?elem_of_nil; intuition discriminate.
  - vm_compute. intuition discriminate.
Defined.

(** When no favourites are stored, or the stored text does not parse, the
    page shows no favourite, the favourites tab is empty, and the first click
    on a star stores that one symbol in place of what was there. *)
Theorem favourites_start_empty (J : Json) (lower : string -> string)
    (ls : gmap string string) (sym : string) :
  json_laws J ->
  ls !! "favorites" = None \/ parse J (item_or_empty_array ls "favorites") = None ->
  Market.getFavorites J ls = [] /\
  (forall data q, Market.applyFilters J lower ls data q "favorites" = NothingFound) /\
  Market.getFavorites J (Market.toggleFavorite J ls sym) = [sym].
Proof.
  intros HJ Hls.
  assert (Hempty : Market.getFavorites J ls = []).
  { unfold Market.getFavorites. destruct Hls as [Hnone|Hbad].
    - unfold item_or_empty_array. rewrite Hnone. by destruct HJ as (_ & _ & ->).
    - by rewrite Hbad. }
  split; [done|]. split.
  - intros data q. unfold Market.applyFilters. rewrite Hempty. cbn.
    assert (Hnil : forall l : list MarketItem, List.filter (fun _ => false) l = []).
    { intros l. by induction l. }
    by rewrite Hnil.
  - rewrite getFavorites_toggleFavorite by done. by rewrite Hempty.
Qed.

Lemma favourites_start_empty_witness :
  Market.getFavorites SampleJson.json
    (Market.toggleFavorite SampleJson.json (<["favorites" := "not json"]> ∅) "AAPL")
  = ["AAPL"].
Proof.
  apply (favourites_start_empty SampleJson.json SampleJson.lower).
  - exact sample_json_laws.
  - right. reflexivity.
Defined.

(** *** The filters of the market table *)

Lemma starts_with_app (q s : string) :
  starts_with q s = true <-> exists t, s = (q ++ t)%string.
Proof.
  revert s. induction q as [|a q IH]; intros s; cbn.
  - split; [eauto|done].
  - destruct s as [|b s]; [split; [done|intros (t & [=])]|].
    rewrite andb_true_iff, IH. split.
    + intros [->%Ascii.eqb_eq (t & ->)]. by exists t.
    + intros (t & [= -> ->]). split; [apply Ascii.eqb_refl|eauto].
Qed.

Lemma str_includes_app (s q : string) :
  str_includes s q = true <-> exists a b, s = (a ++ (q ++ b))%string.
Proof.
  induction s as [|c s IH].
  - cbn. rewrite orb_false_r, starts_with_app. split.
    + intros (t & H). by exists EmptyString, t.
    + intros ([|x a] & b & H); [by exists b|discriminate].
  - cbn [str_includes]. rewrite orb_true_iff, starts_with_app, IH. split.
    + intros [(t & H)|(a & b & ->)]; [by exists EmptyString, t|by exists (String c a), b].
    + intros ([|x a] & b & H); [left; by exists b|].
      right. injection H as -> ->. by exists a, b.
Qed.

Lemma str_includes_trans (s q' q : string) :
  str_includes s q' = true -> str_includes q' q = true -> str_includes s q = true.
Proof.
  rewrite !str_includes_app. intros (a & b & ->) (a' & b' & ->).
  exists (a ++ a')%string, (b' ++ b)%string. by rewrite !string_app_assoc.
Qed.

Lemma filter_sublist {A : Type} (f : A -> bool) (l : list A) :
  sublist (List.filter f l) l.
Proof.
  induction l as [|x l IH]; [constructor|]. cbn.
  destruct (f x); by constructor.
Qed.

Lemma filter_sublist_mono {A : Type} (f g : A -> bool) (l : list A) :
  (forall x, f x = true -> g x = true) ->
  sublist (List.filter f l) (List.filter g l).
Proof.
  intros Hfg. induction l as [|x l IH]; [constructor|]. cbn.
  destruct (f x) eqn:Ef.
  - rewrite (Hfg x Ef). by constructor.
  - destruct (g x); [by constructor|done].
Qed.

Lemma filter_sublist_proper {A : Type} (f : A -> bool) (l k : list A) :
  sublist l k -> sublist (List.filter f l) (List.filter f k).
Proof.
  induction 1 as [|x l k _ IH|x l k _ IH]; cbn.
  - constructor.
  - destruct (f x); [by constructor|done].
  - destruct (f x); [by constructor|done].
Qed.

Lemma rows_of_renderTable (data : list MarketItem) :
  Market.rows_of (renderTable data) = data.
Proof. by destruct data. Qed.

Lemma matches_narrow (lower : string -> string) (q q' : string) (item : MarketItem) :
  str_includes q' q = true ->
  Market.matches lower q' item = true -> Market.matches lower q item = true.
Proof.
  intros Hq. unfold Market.matches. rewrite !orb_true_iff.
  intros [H|H]; [left|right]; by eapply str_includes_trans.
Qed.

Lemma searched_narrow (lower : string -> string) (data : list MarketItem) (q q' : string) :
  str_includes q' q = true ->
  sublist
    match q' with
    | EmptyString => data
    | _ => List.filter (Market.matches lower q') data
    end
    match q with
    | EmptyString => data
    | _ => List.filter (Market.matches lower q) data
    end.
Proof.
  intros Hq. destruct q' as [|c' r'].
  - destruct q; [done|discriminate].
  - destruct q as [|c r]; [apply filter_sublist|].
    apply filter_sublist_mono. intros item. by apply matches_narrow.
Qed.

(** Typing more never brings rows back.  If the query [q] occurs in the
    query [q'], the rows shown for [q'] are among the rows shown for [q], in
    the same order, under either tab of the v3 page and in the search of the
    v2 page; the favourites tab shows rows of the other tab only, and every
    row shown is a row of the loaded data, in its order. *)
Theorem market_filters_narrow (J : Json) (lower : string -> string)
    (ls : gmap string string) (data : list MarketItem) (q q' filter : string) :
  str_includes q' q = true ->
  sublist (Market.rows_of (Market.applyFilters J lower ls data q' filter))
          (Market.rows_of (Market.applyFilters J lower ls data q filter)) /\
  sublist (Market.rows_of (Market.applyFilters J lower ls data q "favorites"))
          (Market.rows_of (Market.applyFilters J lower ls data q filter)) /\
  sublist (Market.rows_of (Market.applyFilters J lower ls data q filter)) data /\
  sublist (Market.rows_of (MarketV2.search lower data q'))
          (Market.rows_of (MarketV2.search lower data q)) /\
  sublist (Market.rows_of (MarketV2.search lower data q)) data.
Proof.
  intros Hq. pose proof (searched_narrow lower data q q' Hq) as Hnarrow.
  unfold Market.applyFilters, MarketV2.search. rewrite !rows_of_renderTable.
  assert (Hdata : sublist match q with
                          | EmptyString => data
                          | _ => List.filter (Market.matches lower q) data
                          end data).
  { destruct q; [done|apply filter_sublist]. }
  split; [|split; [|split; [|split]]]; try done.
  - destruct (String.eqb filter "favorites"); [by apply filter_sublist_proper|done].
  - cbn. destruct (String.eqb filter "favorites"); [done|apply filter_sublist].
  - destruct (String.eqb filter "favorites"); [|done].
    etrans; [apply filter_sublist|done].
Qed.

Lemma market_filters_narrow_witness :
  sublist
    (Market.rows_of (Market.applyFilters SampleJson.json SampleJson.lower SampleJson.store
                       SampleJson.market "am" "all"))
    (Market.rows_of (Market.applyFilters SampleJson.json SampleJson.lower SampleJson.store
                       SampleJson.market "a" "all")).
Proof.
  apply (market_filters_narrow SampleJson.json SampleJson.lower SampleJson.store
           SampleJson.market "a" "am" "all").
  reflexivity.
Defined.

Example market_filter_rows :
  map symbol (Market.rows_of (Market.applyFilters SampleJson.json SampleJson.lower
                                SampleJson.store SampleJson.market "a" "all"))
  = ["AAPL"; "AMZN"; "NVDA"] /\
  map symbol (Market.rows_of (Market.applyFilters SampleJson.json SampleJson.lower
                                SampleJson.store SampleJson.market "a" "favorites"))
  = ["AAPL"; "NVDA"] /\
  Market.applyFilters SampleJson.json SampleJson.lower SampleJson.store
    SampleJson.market "zz" "all" = NothingFound.
Proof. by vm_compute. Qed.

(** *** The list for analysis *)

(** [addAssetToAnalysis] adds a symbol once.  When it goes through, the
    list afterwards is the list before with the symbol at its end if it was
    missing, and the list before otherwise; the alert is shown exactly when
    the symbol was missing; a list without repetition stays so; and a second
    call changes nothing and shows no alert.  On a store without the list
    the call goes through and the list is the one symbol. *)
Theorem addAssetToAnalysis_once (J : Json) (ls : gmap string string) (sym : string) :
  json_laws J ->
  (forall ls' alerted,
     MarketV2.addAssetToAnalysis J ls sym = Some (ls', alerted) ->
     exists old,
       MarketV2.selectedAssets J ls = Some old /\
       alerted = negb (includes_symbol old sym) /\
       MarketV2.selectedAssets J ls' = Some (if alerted then (old ++ [sym])%list else old) /\
       (NoDup old -> NoDup (if alerted then (old ++ [sym])%list else old)) /\
       MarketV2.addAssetToAnalysis J ls' sym = Some (ls', false)) /\
  (ls !! "selectedAssets" = None ->
     exists ls', MarketV2.addAssetToAnalysis J ls sym = Some (ls', true) /\
                 MarketV2.selectedAssets J ls' = Some [sym]) /\
  (MarketV2.selectedAssets J ls = None -> MarketV2.addAssetToAnalysis J ls sym = None).
Proof.
  intros HJ. split; [|split].
  - intros ls' alerted. unfold MarketV2.addAssetToAnalysis, MarketV2.selectedAssets.
    destruct (parse J (item_or_empty_array ls "selectedAssets")) as [old|] eqn:E;
      [|discriminate].
    destruct (includes_symbol old sym) eqn:Hin; intros [= <- <-]; exists old.
    + rewrite E, Hin. done.
    + rewrite item_stored by done.
      assert (Hnow : includes_symbol (old ++ [sym])%list sym = true)
        by (apply includes_symbol_In, in_or_app; right; by left).
      rewrite Hnow. repeat split; try done; [by rewrite Hin|].
      intros Hnd. apply includes_symbol_not_In in Hin.
      apply NoDup_app. split; [done|]. split; [|apply NoDup_singleton].
      intros x Hx ->%list_elem_of_singleton. by apply list_elem_of_In in Hx.
  - intros Hnone. unfold MarketV2.addAssetToAnalysis, MarketV2.selectedAssets.
    unfold item_or_empty_array at 1. rewrite Hnone.
    destruct HJ as (Hrt & Hne & Hempty). rewrite Hempty. cbn.
    eexists. split; [done|]. by rewrite item_stored.
  - unfold MarketV2.addAssetToAnalysis, MarketV2.selectedAssets. by intros ->.
Qed.

Lemma addAssetToAnalysis_once_witness :
  exists ls',
    MarketV2.addAssetToAnalysis SampleJson.json ∅ "AAPL" = Some (ls', true) /\
    MarketV2.selectedAssets SampleJson.json ls' = Some ["AAPL"].
Proof.
  apply (addAssetToAnalysis_once SampleJson.json ∅ "AAPL").
  - exact sample_json_laws.
  - reflexivity.
Defined.

(** ** What passes validation *)


Lemma gt_Fin_false (q c : Q) : Js.gt (Js.Fin q) (Js.Fin c) = false <-> (q <= c)%Q.
Proof.
  unfold Js.gt, Js.lt, Js.Qltb. rewrite negb_false_iff. apply Qle_bool_iff.
Qed.





Lemma check_limits_inr (l : list Asset) (acc : Js.num) :
  (exists total, check_limits l acc = inr total) <-> Forall bounds_ordered l.
Proof.
  revert acc. induction l as [|a l IH]; intros acc.
  - split; [constructor|by eexists].
  - rewrite Forall_cons, <- (IH (add_min acc a)). cbn. unfold bounds_ordered.
    destruct (minWeight a) as [mn|], (maxWeight a) as [mx|]; try (split; [by split|tauto]).
    unfold Js.parseFloat_num. destruct (Js.gt mn mx) eqn:G.
    + split; [by intros [t [=]]|]. intros [H _]. specialize (H mn mx eq_refl eq_refl).
      congruence.
    + split; [|tauto]. intros H. split; [|done]. by intros ? ? [= <-] [= <-].
Qed.

Lemma check_pro_None (stored : option string) (l : list Asset) :
  check_pro stored l = None <-> (isPro stored = true -> pro_ok l).
Proof.
  unfold check_pro, pro_ok. destruct (isPro stored); [|split; [done|done]].
  destruct (check_limits l (Js.of_Z 0)) as [e|total] eqn:E.
  - split; [done|]. intros [Hb _]; [done|].
    apply (check_limits_inr l (Js.of_Z 0)) in Hb as [t Ht]. congruence.
  - pose proof (check_limits_total _ _ _ E) as ->. fold (totalMin l).
    assert (Hb : Forall bounds_ordered l) by (apply (check_limits_inr l (Js.of_Z 0)); eauto).
    destruct (Js.gt (totalMin l) (Js.of_Z 100)); [|by split].
    split; [done|]. intros [_ H]; [done|]. discriminate.
Qed.




(** ** The limits of a request body *)

Lemma add_limit_entry (acc : gmap string Api.Limits * bool) (a : Asset) :
  Api.add_limit acc a
  = match limits_entry a with
    | Some e => (<[ticker a := e]> (fst acc), true)
    | None => acc
    end.
Proof.
  unfold Api.add_limit, limits_entry.
  by destruct (Api.limit_of (minWeight a)), (Api.limit_of (maxWeight a)).
Qed.

Lemma limits_fold_other (l : list Asset) (acc : gmap string Api.Limits * bool) (t : string) :
  ~ In t (AssetList.tickers l) ->
  fst (fold_left Api.add_limit l acc) !! t = fst acc !! t.
Proof.
  revert acc. induction l as [|a l IH]; intros acc Hout; [done|].
  cbn [fold_left]. rewrite IH by (intros H; apply Hout; by right).
  rewrite add_limit_entry. destruct (limits_entry a); [|done].
  cbn. rewrite lookup_insert_ne; [done|]. intros E. apply Hout. by left.
Qed.

Lemma limits_fold_own (l : list Asset) (acc : gmap string Api.Limits * bool) (a : Asset) :
  unique l -> In a l ->
  fst (fold_left Api.add_limit l acc) !! ticker a
  = match limits_entry a with
    | Some e => Some e
    | None => fst acc !! ticker a
    end.
Proof.
  revert acc. induction l as [|b l IH]; intros acc Hu Hin; [destruct Hin|].
  unfold unique in Hu. cbn in Hu. apply NoDup_cons in Hu as [Hb Hl].
  rewrite list_elem_of_In in Hb. cbn [fold_left]. destruct Hin as [->|Hin].
  - rewrite limits_fold_other by done. rewrite add_limit_entry.
    destruct (limits_entry a); [|done]. cbn. by rewrite lookup_insert_eq.
  - rewrite IH by done. destruct (limits_entry a); [done|].
    rewrite add_limit_entry. destruct (limits_entry b); [|done].
    cbn. rewrite lookup_insert_ne; [done|]. intros E. apply Hb. rewrite E.
    by apply in_map.
Qed.

Lemma limits_fold_flag (l : list Asset) (acc : gmap string Api.Limits * bool) :
  snd (fold_left Api.add_limit l acc) = true <->
  snd acc = true \/ exists a, In a l /\ is_Some (limits_entry a).
Proof.
  revert acc. induction l as [|a l IH]; intros acc; cbn [fold_left].
  - split; [by left|]. intros [H|(a & [] & _)]. done.
  - rewrite IH, add_limit_entry. destruct (limits_entry a) as [e|] eqn:E; cbn.
    + split; [|by left]. intros _. right. exists a. split; [by left|by rewrite E].
    + split.
      * intros [H|(b & Hb & He)]; [by left|]. right. exists b. split; [by right|done].
      * intros [H|(b & [<-|Hb] & He)]; [by left| |right; eauto].
        rewrite E in He. by destruct He.
Qed.

Lemma limits_entry_None (a : Asset) :
  limits_entry a = None <-> minWeight a = None /\ maxWeight a = None.
Proof.
  unfold limits_entry, Api.limit_of.
  destruct (minWeight a), (maxWeight a); cbn; split; (done || by intros []).
Qed.

(** [allocation_limits] of a body is null exactly when no asset has a bound.
    Otherwise, for a list without repeated tickers, it holds under the ticker
    of each asset that has a bound that bound over 100, with 0 for a missing
    minimum and 1 for a missing maximum, and nothing under any other key. *)
Theorem allocation_limits_lookup (stored : option string) (l : list Asset)
    (params : Api.Params) (level : option string) :
  (Api.allocation_limits (Api.buildOptimizationPayload stored l params level) = None <->
     forall a, In a l -> minWeight a = None /\ maxWeight a = None) /\
  (forall m,
     Api.allocation_limits (Api.buildOptimizationPayload stored l params level) = Some m ->
     unique l ->
     (forall a, In a l -> m !! ticker a = limits_entry a) /\
     (forall t, ~ In t (AssetList.tickers l) -> m !! t = None)).
Proof.
  cbn [Api.allocation_limits Api.buildOptimizationPayload]. unfold Api.allocationLimits.
  pose proof (limits_fold_flag l (∅, false)) as Hflag. cbn [snd] in Hflag.
  split.
  - destruct (snd (fold_left Api.add_limit l (∅, false))) eqn:E.
    + split; [done|]. intros Hnone.
      destruct (proj1 Hflag eq_refl) as [H|(a & Ha & He)]; [done|].
      apply Hnone, limits_entry_None in Ha. rewrite Ha in He. by destruct He.
    + split; [|done]. intros _ a Ha. apply limits_entry_None.
      destruct (limits_entry a) eqn:Ea; [|done].
      assert (false = true); [|done]. apply Hflag. right. exists a.
      split; [done|by rewrite Ea].
  - intros m Hm Hu. destruct (snd (fold_left Api.add_limit l (∅, false))); [|done].
    injection Hm as <-. split.
    + intros a Ha. rewrite limits_fold_own by done. by destruct (limits_entry a).
    + intros t Ht. by rewrite limits_fold_other.
Qed.

Lemma allocation_limits_lookup_witness :
  exists m,
    Api.allocation_limits
      (Api.buildOptimizationPayload None Sample.min_above_max
         (V6.build_params Sample.form (Sample.state Sample.min_above_max false)) None)
    = Some m /\
    m !! "AAPL" = Some {| Api.min := Js.Fin (3 # 5); Api.max := Js.Fin (2 # 5) |} /\
    m !! "MSFT" = None.
Proof.
  destruct (allocation_limits_lookup None Sample.min_above_max
              (V6.build_params Sample.form (Sample.state Sample.min_above_max false)) None)
    as [Hnone H].
  destruct (Api.allocation_limits
              (Api.buildOptimizationPayload None Sample.min_above_max
                 (V6.build_params Sample.form (Sample.state Sample.min_above_max false))
                 None)) as [m|] eqn:E.
  - exists m. split; [reflexivity|].
    destruct (H m eq_refl) as [Hown _].
    + unfold unique. cbn. repeat (apply NoDup_cons_2 || apply NoDup_nil_2);
        rewrite ?elem_of_cons, ?elem_of_nil; intuition discriminate.
    + split.
      * apply (Hown (Sample.asset "AAPL" (Sample.pct 1) None (Sample.pct 60) (Sample.pct 40))).
        cbn. tauto.
      * apply (Hown (Sample.asset "MSFT" (Sample.pct 1) None None None)). cbn. tauto.
  - exfalso.
    destruct (proj1 Hnone eq_refl
                (Sample.asset "AAPL" (Sample.pct 1) None (Sample.pct 60) (Sample.pct 40)))
      as [Hmin _]; [cbn; tauto|discriminate].
Defined.

(** ** Writing a field of an asset *)

Lemma find_update_first (t t' : string) (f : Asset -> Asset) (l : list Asset) :
  (forall a, ticker (f a) = ticker a) ->
  find_asset t' (AssetList.update_first t f l)
  = if String.eqb t' t then f <$> find_asset t l else find_asset t' l.
Proof.
  intros Hf. unfold find_asset. induction l as [|a l IH].
  - by destruct (String.eqb t' t).
  - cbn [AssetList.update_first]. destruct (String.eqb (ticker a) t) eqn:E.
    + apply String.eqb_eq in E. cbn [List.find]. rewrite Hf, E.
      destruct (String.eqb t' t) eqn:E'.
      * apply String.eqb_eq in E' as ->. by rewrite String.eqb_refl.
      * rewrite String.eqb_sym, E'. done.
    + cbn [List.find]. destruct (String.eqb (ticker a) t') eqn:E'.
      * apply String.eqb_eq in E'. subst t'. by rewrite E.
      * rewrite IH. destruct (String.eqb t' t) eqn:E''; [|done].
        apply String.eqb_eq in E'' as ->. by rewrite E.
Qed.

Lemma get_set_field (f f' : Field) (v : string) (a : Asset) :
  get_field f' (set_field f v a)
  = if bool_decide (f' = f) then entered v else get_field f' a.
Proof. by destruct f, f'. Qed.

(** What an input of an asset row writes is what is read back: after
    [updateAssetField(t, f, v)], field [f] of the asset with ticker [t] is
    the number parsed from [v], or null for the empty text; every other field
    of that asset, and every field of every other asset, reads as before;
    the tickers and their order do not change; and when no asset has ticker
    [t] the call changes nothing. *)
Theorem updateAssetField_read_back (st : DashboardState) (t : string) (f : Field)
    (v : string) (t' : string) (f' : Field) :
  (get_field f' <$> find_asset t' (assets (updateAssetField st t f v))
   = if bool_decide (t' = t /\ f' = f)
     then (fun _ => entered v) <$> find_asset t (assets st)
     else get_field f' <$> find_asset t' (assets st)) /\
  AssetList.tickers (assets (updateAssetField st t f v)) = AssetList.tickers (assets st) /\
  (~ In t (AssetList.tickers (assets st)) -> updateAssetField st t f v = st).
Proof.
  assert (Hticker : forall a, ticker (set_field f v a) = ticker a) by (by destruct f).
  split; [|split].
  - cbn [updateAssetField set_assets assets]. rewrite find_update_first by done.
    destruct (String.eqb t' t) eqn:E.
    + apply String.eqb_eq in E as ->. destruct (find_asset t (assets st)) as [a|]; cbn.
      * rewrite get_set_field. destruct (bool_decide (f' = f)) eqn:Ef.
        -- apply bool_decide_eq_true in Ef. by rewrite bool_decide_eq_true_2.
        -- apply bool_decide_eq_false in Ef. rewrite bool_decide_eq_false_2; tauto.
      * by destruct (bool_decide _).
    + apply String.eqb_neq in E. rewrite bool_decide_eq_false_2; tauto.
  - cbn. by apply tickers_update_first.
  - intros Hout. destruct st as [l m r]. unfold updateAssetField, set_assets. cbn in *.
    f_equal. induction l as [|a l IH]; [done|]. cbn.
    destruct (String.eqb (ticker a) t) eqn:E.
    + apply String.eqb_eq in E. exfalso. apply Hout. by left.
    + f_equal. apply IH. intros H. apply Hout. by right.
Qed.

Lemma updateAssetField_read_back_witness :
  updateAssetField (Sample.state Sample.plain false) "TSLA" FMinWeight "10"
  = Sample.state Sample.plain false.
Proof.
  apply (updateAssetField_read_back (Sample.state Sample.plain false) "TSLA" FMinWeight
           "10" "TSLA" FMinWeight).
  cbn. intuition discriminate.
Defined.

Example updateAssetField_then_read :
  minWeight <$> find_asset "MSFT"
    (assets (updateAssetField (Sample.state Sample.plain false) "MSFT" FMinWeight "12.5"))
  = Some (Some (Js.Fin (25 # 2))).
Proof. reflexivity. Qed.

(** ** Adding and removing *)

Lemma filter_out_absent (t : string) (l : list Asset) :
  ~ In t (AssetList.tickers l) -> AssetList.filter_out t l = l.
Proof.
  unfold AssetList.filter_out, AssetList.tickers.
  induction l as [|a l IH]; intros Hout; [done|]. cbn.
  destruct (String.eqb (ticker a) t) eqn:E.
  - apply String.eqb_eq in E. exfalso. apply Hout. by left.
  - cbn. f_equal. apply IH. intros H. apply Hout. by right.
Qed.

Lemma filter_out_pushed (t n s : string) (l : list Asset) :
  AssetList.filter_out t (l ++ [mkAsset t n s None None None None])
  = AssetList.filter_out t l.
Proof.
  unfold AssetList.filter_out. rewrite List.filter_app. cbn.
  rewrite String.eqb_refl. cbn. apply app_nil_r.
Qed.

(** Removing undoes adding.  On each page, an asset that was added under a
    ticker the list did not hold is taken out again by [removeAsset] with
    that ticker, and the state is the one before; [removeAsset] with a ticker
    the list does not hold changes nothing; and after [removeAsset] the
    ticker is gone, so that [addAsset] with it goes through without alert. *)
Theorem removeAsset_undoes_addAsset (t n s : string) :
  (forall st : DashboardState,
     (~ In t (AssetList.tickers (assets st)) ->
        fst (removeAsset (fst (addAsset st t n s)) t) = st /\
        fst (removeAsset st t) = st) /\
     ~ In t (AssetList.tickers (assets (fst (removeAsset st t)))) /\
     snd (addAsset (fst (removeAsset st t)) t n s) = [AssetListRendered]) /\
  (forall st : V2.DashboardState,
     (~ In t (AssetList.tickers (V2.assets st)) ->
        fst (V2.removeAsset (fst (V2.addAsset st t n s)) t) = st /\
        fst (V2.removeAsset st t) = st) /\
     ~ In t (AssetList.tickers (V2.assets (fst (V2.removeAsset st t)))) /\
     snd (V2.addAsset (fst (V2.removeAsset st t)) t n s) = [AssetListRendered]) /\
  (forall st : Pro.AppState,
     (~ In t (AssetList.tickers (Pro.assets st)) ->
        fst (Pro.removeAsset (fst (Pro.addAsset st t n s)) t) = st /\
        fst (Pro.removeAsset st t) = st) /\
     ~ In t (AssetList.tickers (Pro.assets (fst (Pro.removeAsset st t)))) /\
     snd (Pro.addAsset (fst (Pro.removeAsset st t)) t n s) = [AssetListRendered]).
Proof.
  split; [|split].
  - intros [l m r]. split; [|split].
    + intros Hout. apply some_ticker_not_In in Hout as Hfresh.
      cbn [assets isManualWeights lastResult] in Hfresh, Hout.
      unfold addAsset, removeAsset, set_assets. cbn [assets isManualWeights lastResult]. rewrite Hfresh.
      cbn [fst snd assets isManualWeights lastResult].
      rewrite filter_out_pushed, filter_out_absent by done. done.
    + cbn [removeAsset fst assets isManualWeights lastResult]; unfold set_assets; cbn [assets]. apply filter_out_gone.
    + unfold addAsset, removeAsset, set_assets. cbn [fst assets isManualWeights lastResult].
      by rewrite (proj2 (some_ticker_not_In t _) (filter_out_gone t l)).
  - intros [l m]. split; [|split].
    + intros Hout. apply some_ticker_not_In in Hout as Hfresh.
      cbn [V2.assets V2.isManualWeights] in Hfresh, Hout.
      unfold V2.addAsset, V2.removeAsset. cbn [V2.assets V2.isManualWeights]. rewrite Hfresh.
      cbn [fst snd V2.assets V2.isManualWeights].
      rewrite filter_out_pushed, filter_out_absent by done. done.
    + cbn [V2.removeAsset fst V2.assets V2.isManualWeights]. apply filter_out_gone.
    + unfold V2.addAsset, V2.removeAsset. cbn [fst V2.assets V2.isManualWeights].
      by rewrite (proj2 (some_ticker_not_In t _) (filter_out_gone t l)).
  - intros [l r]. split; [|split].
    + intros Hout. apply some_ticker_not_In in Hout as Hfresh.
      cbn [Pro.assets Pro.results] in Hfresh, Hout.
      unfold Pro.addAsset, Pro.removeAsset. cbn [Pro.assets Pro.results]. rewrite Hfresh.
      cbn [fst snd Pro.assets Pro.results].
      rewrite filter_out_pushed, filter_out_absent by done. done.
    + cbn [Pro.removeAsset fst Pro.assets Pro.results]. apply filter_out_gone.
    + unfold Pro.addAsset, Pro.removeAsset. cbn [fst Pro.assets Pro.results].
      by rewrite (proj2 (some_ticker_not_In t _) (filter_out_gone t l)).
Qed.

Lemma removeAsset_undoes_addAsset_witness :
  fst (removeAsset (fst (addAsset (Sample.state Sample.plain false) "NVDA" "NVIDIA" "Tech"))
         "NVDA")
  = Sample.state Sample.plain false.
Proof.
  destruct (removeAsset_undoes_addAsset "NVDA" "NVIDIA" "Tech") as (H & _ & _).
  destruct (H (Sample.state Sample.plain false)) as (Hundo & _).
  apply Hundo. cbn. intuition discriminate.
Defined.

(** ** The portfolio shown as best *)

Lemma find_head_filter {A : Type} (f : A -> bool) (l : list A) :
  List.find f l = head (List.filter f l).
Proof. induction l as [|x l IH]; [done|]. cbn. by destruct (f x). Qed.

(** [getBestPortfolio] gives nothing only for an answer without portfolios,
    and otherwise a portfolio of the answer: the first of those the
    professional page labels as best, or the first portfolio of all when that
    page labels none. *)
Theorem getBestPortfolio_total (data : Data) :
  (getBestPortfolio data = None <-> result_set data = []) /\
  (forall p, getBestPortfolio data = Some p -> In p (result_set data)) /\
  getBestPortfolio data
  = match labelled_best data with
    | p :: _ => Some p
    | [] => head (result_set data)
    end.
Proof.
  assert (Heq : getBestPortfolio data
                = match labelled_best data with
                  | p :: _ => Some p
                  | [] => head (result_set data)
                  end).
  { unfold getBestPortfolio, labelled_best.
    destruct (result_set data) as [|first rest] eqn:E; [done|].
    rewrite find_head_filter. by destruct (List.filter _ _). }
  split; [|split; [|done]].
  - rewrite Heq. destruct (labelled_best data) as [|p ps] eqn:E.
    + by destruct (result_set data).
    + split; [done|]. intros Hnil. unfold labelled_best in E. by rewrite Hnil in E.
  - intros p. rewrite Heq. destruct (labelled_best data) as [|q ps] eqn:E.
    + destruct (result_set data); [done|]. intros [= ->]. by left.
    + intros [= ->]. unfold labelled_best in E.
      assert (Hin : In p (List.filter (is_best (best_portfolio data)) (result_set data)))
        by (rewrite E; by left).
      by apply filter_In in Hin as [? _].
Qed.

Lemma getBestPortfolio_total_witness :
  In {| p_name := "min_volatility"; p_tickers := []; p_weights := []; p_sharpe := None |}
     (result_set
        {| input_portfolio := None;
           all_portfolios := Some [ {| p_name := "min_volatility"; p_tickers := [];
                                       p_weights := []; p_sharpe := None |} ];
           best_portfolio := None |}).
Proof.
  eapply getBestPortfolio_total. reflexivity.
Defined.

(** ** The runs of the optimize handlers *)

Lemma submit_disciplined backend stored params (st : DashboardState) :
  disciplined assets backend (fun d => (d, Api.first_level stored None)) st
    (submit backend stored params st) /\
  (lastResult (fst (submit backend stored params st)) = lastResult st \/
   exists d, lastResult (fst (submit backend stored params st)) = Some d /\
             rendered (snd (submit backend stored params st))
             = [(d, Api.first_level stored None)]) /\
  ((forall c, exists msg, backend c = inr msg) ->
   fst (submit backend stored params st) = st /\
   rendered (snd (submit backend stored params st)) = []).
Proof.
  unfold submit, disciplined, loader_released.
  destruct (backend _) as [d|msg] eqn:E; cbn [fst snd assets lastResult].
  - split; [|split].
    + split; [done|]. split; [done|]. split; [cbn; lia|].
      intros v [<-|[]]. eexists _, d. split; [reflexivity|]. by split.
    + right. by exists d.
    + intros Hdown. specialize (Hdown {| Api.call_assets := assets st;
                                         Api.call_params := params;
                                         Api.call_level := Some (Api.first_level stored None) |}).
      destruct Hdown as [msg Hmsg]. congruence.
  - split; [|split].
    + split; [done|]. split; [done|]. split; [cbn; lia|]. intros v [].
    + by left.
    + done.
Qed.

Lemma alert_disciplined {S Req View Res : Type} (list_of : S -> list Asset)
    (answer : Req -> outcome Res) (view_of : Res -> View) (st : S) (m : Message) :
  disciplined list_of answer view_of st (st, [Alert m]).
Proof.
  split; [done|]. split; [|split; [cbn; lia|intros v []]].
  intros [H|[]]. discriminate.
Qed.

(** Whatever the form holds and whatever the server answers, a run of an
    optimize handler leaves the asset list as it was, releases the loader if
    it switched it on, sends at most one request, and renders nothing but
    what the server answered to that request.  In the two later dashboards
    the last result changes only to an answer that is rendered in the same
    run; when the server fails the state stays as it was. *)
Theorem optimize_runs_disciplined :
  (forall backend stored form st,
     disciplined assets backend (fun d => (d, Api.first_level stored None)) st
       (V6.runOptimize backend stored form st) /\
     (lastResult (fst (V6.runOptimize backend stored form st)) = lastResult st \/
      exists d, lastResult (fst (V6.runOptimize backend stored form st)) = Some d /\
                rendered (snd (V6.runOptimize backend stored form st))
                = [(d, Api.first_level stored None)]) /\
     ((forall c, exists msg, backend c = inr msg) ->
      fst (V6.runOptimize backend stored form st) = st /\
      rendered (snd (V6.runOptimize backend stored form st)) = [])) /\
  (forall backend stored form st,
     disciplined assets backend (fun d => (d, Api.first_level stored None)) st
       (Dashboard.runOptimize backend stored form st) /\
     (lastResult (fst (Dashboard.runOptimize backend stored form st)) = lastResult st \/
      exists d, lastResult (fst (Dashboard.runOptimize backend stored form st)) = Some d /\
                rendered (snd (Dashboard.runOptimize backend stored form st))
                = [(d, Api.first_level stored None)]) /\
     ((forall c, exists msg, backend c = inr msg) ->
      fst (Dashboard.runOptimize backend stored form st) = st /\
      rendered (snd (Dashboard.runOptimize backend stored form st)) = [])) /\
  (forall server form st,
     disciplined V2.assets server (fun d => d) st (V2.runOptimize server form st) /\
     fst (V2.runOptimize server form st) = st) /\
  (forall server form st,
     disciplined Pro.assets server (fun d => d) st (Pro.optimize server form st) /\
     ((forall p, exists msg, server p = inr msg) ->
      fst (Pro.optimize server form st) = st)).
Proof.
  split; [|split; [|split]].
  - intros backend stored form st. unfold V6.runOptimize.
    destruct (V6.validateForm stored st); [|apply submit_disciplined].
    split; [apply alert_disciplined|]. split; [by left|done].
  - intros backend stored form st. unfold Dashboard.runOptimize.
    destruct (Dashboard.validateForm stored form st); [|apply submit_disciplined].
    split; [apply alert_disciplined|]. split; [by left|done].
  - intros server form st. unfold V2.runOptimize.
    destruct (_ <? _)%nat; [split; [apply alert_disciplined|done]|].
    destruct (server _) as [d|msg] eqn:E; (split; [|done]).
    + split; [done|]. split; [done|]. split; [cbn; lia|].
      intros v [<-|[]]. eexists _, d. split; [reflexivity|]. by split.
    + split; [done|]. split; [done|]. split; [cbn; lia|]. intros v [].
  - intros server form st. unfold Pro.optimize.
    destruct (_ <? _)%nat; [split; [apply alert_disciplined|done]|].
    destruct (server _) as [d|msg] eqn:E; split.
    + split; [done|]. split; [done|]. split; [cbn; lia|].
      intros v [<-|[]]. eexists _, d. split; [reflexivity|]. by split.
    + intros Hdown. destruct (Hdown (Pro.build_payload form st)) as [msg Hmsg]. congruence.
    + split; [done|]. split; [done|]. split; [cbn; lia|]. intros v [].
    + done.
Qed.

Lemma optimize_runs_disciplined_witness :
  fst (V6.runOptimize Sample.down (Some "professional") Sample.form
         (Sample.state Sample.plain false))
  = Sample.state Sample.plain false /\
  rendered (snd (V6.runOptimize Sample.down (Some "professional") Sample.form
                   (Sample.state Sample.plain false))) = [].
Proof.
  destruct optimize_runs_disciplined as (H6 & _).
  destruct (H6 Sample.down (Some "professional") Sample.form
              (Sample.state Sample.plain false)) as (_ & _ & Hdown).
  apply Hdown. intros c. by exists "HTTP 503".
Defined.

(** ** The weights of the v2 dashboard *)

Lemma V2_set_weight_clean (v : string) (a : Asset) :
  weight (V2.set_weight v a) = None \/ entered_nonzero (V2.set_weight v a).
Proof.
  unfold V2.set_weight. cbn [weight].
  destruct (Js.truthy (Some (Js.parseFloat v))) eqn:T; [right|by left].
  apply truthy_nonzero. cbn [weight]. by rewrite T.
Qed.

Lemma V2_step_clean (st st' : V2.DashboardState) :
  V2.step st st' -> weights_clean (V2.assets st) -> weights_clean (V2.assets st').
Proof.
  unfold weights_clean. intros Hstep Hc.
  destruct Hstep as [st t n s|st t|st t v|active st|server form st|st]; cbn; try done.
  - unfold V2.addAsset. destruct (AssetList.some_ticker t _); [done|]. cbn.
    apply Forall_app. split; [done|]. apply Forall_singleton. by left.
  - unfold AssetList.filter_out. rewrite Forall_forall in Hc. apply Forall_forall.
    intros a Ha%list_elem_of_In%filter_In. apply Hc, list_elem_of_In. tauto.
  - induction (V2.assets st) as [|a l IH]; [done|]. cbn.
    apply Forall_cons in Hc as [Ha Hl]. destruct (String.eqb (ticker a) t).
    + apply Forall_cons. split; [apply V2_set_weight_clean|done].
    + apply Forall_cons. split; [done|by apply IH].
  - unfold V2.runOptimize. destruct (_ <? _)%nat; [done|]. by destruct (server _).
Qed.

Lemma clean_payload_weight (a : Asset) :
  weight a = None \/ entered_nonzero a ->
  V2.payload_weight true a = Js.div100 <$> weight a.
Proof.
  unfold V2.payload_weight. intros [->|Hnz]; [done|].
  pose proof (proj2 (truthy_nonzero a) Hnz) as T.
  destruct (weight a) as [w|]; [|done]. by rewrite T.
Qed.

(** In the v2 dashboard no stored weight is ever 0 or NaN:
    [updateAssetWeight] stores null instead.  So in every state the page can
    reach, each weight is null or a number other than 0, and in manual mode
    the request carries every stored weight, divided by 100. *)
Theorem V2_weights_stay_clean (st : V2.DashboardState) :
  rtc V2.step V2.init st ->
  weights_clean (V2.assets st) /\
  (V2.isManualWeights st = true ->
   forall form,
     map V2.pa_weight (V2.p_assets (V2.build_payload form st))
     = map (fun a => Js.div100 <$> weight a) (V2.assets st)).
Proof.
  intros Hr.
  assert (Hclean : weights_clean (V2.assets st)).
  { pattern st. revert st Hr. apply rtc_ind_r; [apply Forall_nil_2|].
    intros y z _ Hstep IH. by eapply V2_step_clean. }
  split; [done|]. intros Hmanual form.
  unfold V2.build_payload. cbn [V2.p_assets]. rewrite Hmanual.
  unfold weights_clean in Hclean. induction Hclean as [|a l Ha _ IH]; [done|].
  cbn [map V2.pa_weight]. f_equal; [by apply clean_payload_weight|apply IH].
Qed.

Lemma V2_weights_stay_clean_witness :
  weights_clean
    (V2.assets (V2.updateAssetWeight
                  (fst (V2.addAsset V2.init "AAPL" "Apple" "Tech")) "AAPL" "0")).
Proof.
  apply V2_weights_stay_clean.
  eapply rtc_l; [apply (V2.step_addAsset _ "AAPL" "Apple" "Tech")|].
  eapply rtc_l; [apply (V2.step_updateAssetWeight _ "AAPL" "0")|].
  apply rtc_refl.
Defined.

Example V2_zero_weight_is_stored_as_null :
  map weight
    (V2.assets (V2.updateAssetWeight
                  (fst (V2.addAsset V2.init "AAPL" "Apple" "Tech")) "AAPL" "0"))
  = [None].
Proof. reflexivity. Qed.

(** ** The settings page *)

Lemma shown_read_back (ls : gmap string string) (k s : string) :
  Settings.shown (AppState.get (<[k := s]> ls) k) = s.
Proof.
  unfold AppState.get. rewrite lookup_insert_eq.
  destruct (String.eqb_spec s "true") as [->|_]; [done|].
  by destruct (String.eqb_spec s "false") as [->|_].
Qed.

Lemma get_insert_ne (ls : gmap string string) (k k' s : string) :
  k <> k' -> AppState.get (<[k := s]> ls) k' = AppState.get ls k'.
Proof. intros H. unfold AppState.get. by rewrite lookup_insert_ne. Qed.

(** What is saved on the settings page is what the page shows when it loads
    again, whatever texts the selects hold, and the compact mode applied is
    the one of the switch.  Saving leaves every other key of the store alone,
    the knowledge level among them.  A confirmed reset shows the defaults and
    also drops the knowledge level and the theme; a reset that is not
    confirmed changes nothing. *)
Theorem settings_saved_are_loaded (c : Settings.Controls) (ls : gmap string string) :
  Settings.loadSettings (Settings.save c ls) = c /\
  Settings.applyCompactMode (Settings.save c ls) = Settings.compactToggle c /\
  (forall k, ~ In k Settings.saved_keys -> Settings.save c ls !! k = ls !! k) /\
  fst (Settings.reset true c ls)
  = {| Settings.currency := "usd"; Settings.language := "ru";
       Settings.timezone := "utc"; Settings.dateFormat := "ymd";
       Settings.compactToggle := false |} /\
  AppState.get (snd (Settings.reset true c ls)) "knowledgeLevel"
  = Some (AppState.SStr "beginner") /\
  AppState.get (snd (Settings.reset true c ls)) "theme" = Some (AppState.SStr "dark") /\
  Settings.reset false c ls = (c, ls).
Proof.
  destruct c as [cu la tz df ct].
  assert (Hcompact : Settings.compact
            (Settings.save (Settings.Build_Controls cu la tz df ct) ls) = ct).
  { unfold Settings.compact, Settings.save, AppState.set, AppState.get.
    cbn [Settings.compactToggle AppState.to_string]. rewrite lookup_insert_eq.
    by destruct ct. }
  split; [|split; [done|split; [|split; [|split; [|split]]]]].
  - unfold Settings.loadSettings. rewrite Hcompact.
    unfold Settings.save, AppState.set.
    cbn [Settings.currency Settings.language Settings.timezone Settings.dateFormat
         Settings.compactToggle AppState.to_string].
    f_equal.
    + rewrite !get_insert_ne by discriminate. apply shown_read_back.
    + rewrite !get_insert_ne by discriminate. apply shown_read_back.
    + rewrite !get_insert_ne by discriminate. apply shown_read_back.
    + rewrite !get_insert_ne by discriminate. apply shown_read_back.
  - intros k Hk. unfold Settings.save, AppState.set.
    rewrite !lookup_insert_ne; [done|..]; intros <-; apply Hk; cbn; tauto.
  - cbn [Settings.reset fst]. unfold Settings.loadSettings, Settings.compact, AppState.get.
    by rewrite !reset_lookup.
  - cbn [Settings.reset snd]. unfold AppState.get. by rewrite reset_lookup.
  - cbn [Settings.reset snd]. unfold AppState.get. by rewrite reset_lookup.
  - done.
Qed.

Example settings_true_is_shown_as_text :
  Settings.currency
    (Settings.loadSettings
       (Settings.save (Settings.Build_Controls "true" "ru" "utc" "ymd" true)
          SampleJson.store))
  = "true".
Proof. reflexivity. Qed.

(** ** The asset table of the v6 dashboard *)







Lemma rows_In (showAllRows : bool) (l : list Asset) (r : AssetTable.Row) :
  In r (AssetTable.rows showAllRows l) <->
  exists i a,
    AssetTable.displayed showAllRows l !! i = Some a /\
    r = {| AssetTable.rowNum := i + 1;
           AssetTable.more_link :=
             (i + 1 =? length (AssetTable.displayed showAllRows l))%nat
             && AssetTable.hasMore showAllRows l;
           AssetTable.row_asset := a |}.
Proof.
  rewrite <- list_elem_of_In. unfold AssetTable.rows. rewrite elem_of_lookup_imap.
  split; intros (i & a & H1 & H2); exists i, a; by split.
Qed.

Lemma displayed_length (showAllRows : bool) (l : list Asset) :
  length (AssetTable.displayed showAllRows l)
  = if showAllRows then length l else Nat.min (length l) AssetTable.TABLE_ROWS.
Proof.
  unfold AssetTable.displayed. destruct showAllRows; [done|]. cbn [orb].
  destruct (Nat.leb_spec (length l) AssetTable.TABLE_ROWS).
  - lia.
  - rewrite length_take. lia.
Qed.

(** The asset table has one row per asset, in the order of the list and
    numbered from 1, but stops after ten rows until the link is clicked.  The
    link sits on the tenth row and nowhere else, and it is there exactly when
    some asset has no row; after the click every asset has a row and no row
    has the link. *)
Theorem asset_table_rows (showAllRows : bool) (l : list Asset) :
  map AssetTable.row_asset (AssetTable.rows showAllRows l)
  = AssetTable.displayed showAllRows l /\
  AssetTable.displayed showAllRows l `prefix_of` l /\
  map AssetTable.rowNum (AssetTable.rows showAllRows l)
  = seq 1 (length (AssetTable.rows showAllRows l)) /\
  length (AssetTable.rows showAllRows l)
  = (if showAllRows then length l else Nat.min (length l) 10) /\
  (forall r, In r (AssetTable.rows showAllRows l) ->
     AssetTable.more_link r = true ->
     AssetTable.rowNum r = 10%nat /\ showAllRows = false /\ (10 < length l)%nat) /\
  ((exists r, In r (AssetTable.rows showAllRows l) /\ AssetTable.more_link r = true) <->
     (length (AssetTable.rows showAllRows l) < length l)%nat) /\
  map AssetTable.row_asset (AssetTable.rows true l) = l.
Proof.
  assert (Hassets : forall b, map AssetTable.row_asset (AssetTable.rows b l)
                              = AssetTable.displayed b l).
  { intros b. unfold AssetTable.rows.
    change (map AssetTable.row_asset) with (fmap (M:=list) AssetTable.row_asset).
    rewrite fmap_imap. apply list_eq. intros i. rewrite list_lookup_imap.
    by destruct (_ !! i). }
  assert (Hlen : length (AssetTable.rows showAllRows l)
                 = if showAllRows then length l else Nat.min (length l) 10).
  { unfold AssetTable.rows. rewrite length_imap. apply displayed_length. }
  split; [apply Hassets|]. split; [|split; [|split; [exact Hlen|split; [|split]]]].
  - unfold AssetTable.displayed. destruct (_ || _); [done|]. apply prefix_take.
  - unfold AssetTable.rows.
    change (map AssetTable.rowNum) with (fmap (M:=list) AssetTable.rowNum).
    rewrite fmap_imap, length_imap. apply list_eq. intros i. rewrite list_lookup_imap.
    destruct (AssetTable.displayed showAllRows l !! i) as [a|] eqn:E.
    + apply lookup_lt_Some in E. cbn. rewrite lookup_seq_lt by done. f_equal. lia.
    + apply lookup_ge_None in E. cbn. by rewrite lookup_seq_ge.
  - intros r (i & a & Hi & ->)%rows_In. cbn [AssetTable.more_link AssetTable.rowNum].
    intros [Hlast Hmore]%andb_true_iff. unfold AssetTable.hasMore in Hmore.
    apply andb_true_iff in Hmore as [Hn Hshow]. apply Nat.ltb_lt in Hn.
    apply Nat.eqb_eq in Hlast. destruct showAllRows; [done|].
    rewrite displayed_length in Hlast. unfold AssetTable.TABLE_ROWS in *. lia.
  - rewrite Hlen. split.
    + intros (r & (i & a & Hi & ->)%rows_In & Hr). cbn [AssetTable.more_link] in Hr.
      apply andb_true_iff in Hr as [_ Hmore]. unfold AssetTable.hasMore in Hmore.
      apply andb_true_iff in Hmore as [Hn Hshow]. apply Nat.ltb_lt in Hn.
      destruct showAllRows; [done|]. unfold AssetTable.TABLE_ROWS in *. lia.
    + intros Hlt. destruct showAllRows; [lia|].
      assert (Hn : (10 < length l)%nat) by lia.
      assert (Hd : length (AssetTable.displayed false l) = 10%nat).
      { rewrite displayed_length. unfold AssetTable.TABLE_ROWS. lia. }
      destruct (lookup_lt_is_Some_2 (AssetTable.displayed false l) 9) as [a Ha]; [lia|].
      eexists. split; [apply rows_In; by exists 9%nat, a|].
      cbn [AssetTable.more_link]. rewrite Hd. unfold AssetTable.hasMore.
      apply andb_true_iff. split; [done|]. apply andb_true_iff. split; [|done].
      apply Nat.ltb_lt. unfold AssetTable.TABLE_ROWS. lia.
  - by rewrite Hassets.
Qed.

Example asset_table_rows_of_twelve :
  map (fun r => (AssetTable.rowNum r, AssetTable.more_link r, ticker (AssetTable.row_asset r)))
      (AssetTable.rows false SampleTable.twelve)
  = [(1, false, "A"); (2, false, "B"); (3, false, "C"); (4, false, "D"); (5, false, "E");
     (6, false, "F"); (7, false, "G"); (8, false, "H"); (9, false, "I"); (10, true, "J")]%nat.
Proof. reflexivity. Qed.

Lemma settings_saved_are_loaded_witness :
  Settings.save (Settings.Build_Controls "eur" "en" "utc" "dmy" true) SampleJson.store
    !! "favorites"
  = SampleJson.store !! "favorites".
Proof.
  apply (settings_saved_are_loaded (Settings.Build_Controls "eur" "en" "utc" "dmy" true)
           SampleJson.store).
  cbn. intuition discriminate.
Defined.


Lemma asset_table_rows_witness :
  exists r, In r (AssetTable.rows false SampleTable.twelve) /\ AssetTable.more_link r = true.
Proof.
  apply (asset_table_rows false SampleTable.twelve). vm_compute. lia.
Defined.

(** ** What validation lets through to the server *)

Lemma reachable_unique (st : DashboardState) : rtc step init st -> unique (assets st).
Proof.
  intros Hr. pattern st. revert st Hr. apply rtc_ind_r; [apply NoDup_nil_2|].
  intros y z _ Hstep IH. by eapply step_unique.
Qed.

Lemma div100_keeps_order (mn mx : Js.num) :
  Js.gt mn mx = false -> Js.gt (Js.div100 mn) (Js.div100 mx) = false.
Proof.
  destruct mn as [x|], mx as [y|]; try done.
  cbn [Js.div100]. rewrite !gt_Fin_false, !Qred_correct. intros H.
  apply Qmult_le_compat_r; [done|]. by vm_compute.
Qed.

Lemma V6_validateForm_None_pro stored st :
  V6.validateForm stored st = None -> check_pro stored (assets st) = None.
Proof.
  unfold V6.validateForm. destruct (_ <? _)%nat; [done|].
  by destruct (V6.check_quantities _).
Qed.

Lemma Dashboard_validateForm_None_pro stored form st :
  Dashboard.validateForm stored form st = None -> check_pro stored (assets st) = None.
Proof.
  unfold Dashboard.validateForm. destruct (_ <? _)%nat; [done|].
  destruct (Dashboard.check_quantities _); [done|]. by destruct (_ || _).
Qed.

Lemma sent_passed_pro backend stored form st c :
  In c (requests (snd (V6.runOptimize backend stored form st))) \/
  In c (requests (snd (Dashboard.runOptimize backend stored form st))) ->
  check_pro stored (assets st) = None /\
  Api.call_assets c = assets st /\
  Api.call_level c = Some (Api.first_level stored None).
Proof.
  intros [Hc|Hc].
  - pose proof (V6_requests _ _ _ _ _ Hc) as ->. split; [|done].
    destruct (V6.validateForm stored st) as [e|] eqn:E.
    + rewrite (V6_runOptimize_refuses _ _ _ _ _ E) in Hc. destruct Hc.
    + by apply V6_validateForm_None_pro.
  - pose proof (Dashboard_requests _ _ _ _ _ Hc) as ->. split; [|done].
    destruct (Dashboard.validateForm stored form st) as [e|] eqn:E.
    + rewrite (Dashboard_runOptimize_refuses _ _ _ _ _ E) in Hc. destruct Hc.
    + by eapply Dashboard_validateForm_None_pro.
Qed.

(** At the professional level, in every state the page can reach, a request
    that one of the two later dashboards sends carries the level
    [professional] and, for each asset with both bounds entered, an entry of
    [allocation_limits] under its ticker that holds the two bounds over 100,
    the minimum not above the maximum. *)
Theorem sent_bounds_are_ordered backend (stored : option string) (form : Form)
    (st : DashboardState) (c : Api.Call) (a : Asset) (mn mx : Js.num) :
  rtc step init st ->
  isPro stored = true ->
  In c (requests (snd (V6.runOptimize backend stored form st))) \/
  In c (requests (snd (Dashboard.runOptimize backend stored form st))) ->
  In a (assets st) -> minWeight a = Some mn -> maxWeight a = Some mx ->
  Api.knowledge_level (Api.payload_of stored c) = "professional" /\
  exists m,
    Api.allocation_limits (Api.payload_of stored c) = Some m /\
    m !! ticker a = Some {| Api.min := Js.div100 mn; Api.max := Js.div100 mx |} /\
    Js.gt (Js.div100 mn) (Js.div100 mx) = false.
Proof.
  intros Hr Hpro Hc Ha Hmn Hmx.
  destruct (sent_passed_pro _ _ _ _ _ Hc) as (Hcheck & Hassets & Hlevel).
  destruct (proj1 (check_pro_None _ _) Hcheck Hpro) as [Hord _].
  rewrite Forall_forall in Hord. pose proof (Hord a (proj2 (list_elem_of_In _ _) Ha)) as Hgt.
  specialize (Hgt mn mx Hmn Hmx).
  assert (He : limits_entry a
               = Some {| Api.min := Js.div100 mn; Api.max := Js.div100 mx |}).
  { unfold limits_entry, Api.limit_of. by rewrite Hmn, Hmx. }
  unfold Api.payload_of. rewrite Hassets, Hlevel.
  cbn [Api.knowledge_level Api.allocation_limits Api.buildOptimizationPayload].
  split.
  - unfold isPro in Hpro. destruct stored as [l|]; [|done].
    apply String.eqb_eq in Hpro as ->. reflexivity.
  - unfold Api.allocationLimits.
    rewrite (proj2 (limits_fold_flag (assets st) (∅, false)))
      by (right; exists a; split; [done|by rewrite He]).
    eexists. split; [reflexivity|]. split; [|by apply div100_keeps_order].
    rewrite limits_fold_own by (done || by apply reachable_unique). by rewrite He.
Qed.

Lemma bounded_reachable : rtc step init (Sample.state SampleTable.bounded false).
Proof.
  eapply rtc_l; [apply (step_addAsset _ "AAPL" "AAPL" "")|].
  eapply rtc_l; [apply (step_addAsset _ "MSFT" "MSFT" "")|].
  eapply rtc_l; [apply (step_updateAssetField _ "AAPL" FQuantity "1")|].
  eapply rtc_l; [apply (step_updateAssetField _ "MSFT" FQuantity "1")|].
  eapply rtc_l; [apply (step_updateAssetField _ "AAPL" FMinWeight "20")|].
  eapply rtc_l; [apply (step_updateAssetField _ "AAPL" FMaxWeight "40")|].
  apply rtc_refl.
Defined.

Lemma sent_bounds_are_ordered_witness :
  exists m,
    Api.allocation_limits
      (Api.payload_of (Some "professional")
         {| Api.call_assets := SampleTable.bounded;
            Api.call_params :=
              V6.build_params Sample.form (Sample.state SampleTable.bounded false);
            Api.call_level := Some "professional" |}) = Some m /\
    m !! "AAPL" = Some {| Api.min := Js.div100 (Js.of_Z 20);
                          Api.max := Js.div100 (Js.of_Z 40) |} /\
    Js.gt (Js.div100 (Js.of_Z 20)) (Js.div100 (Js.of_Z 40)) = false.
Proof.
  apply (sent_bounds_are_ordered Sample.down (Some "professional") Sample.form
           (Sample.state SampleTable.bounded false) _
           (Sample.asset "AAPL" (Sample.pct 1) None (Sample.pct 20) (Sample.pct 40))).
  - apply bounded_reachable.
  - reflexivity.
  - left. vm_compute. left. reflexivity.
  - cbn. tauto.
  - reflexivity.
  - reflexivity.
Defined.

Example sent_bounds_sample :
  Js.div100 (Js.of_Z 20) = Js.Fin (1 # 5) /\ Js.div100 (Js.of_Z 40) = Js.Fin (2 # 5).
Proof. split; reflexivity. Qed.

(** ** The heat map *)

Lemma fold_min_le (r : list Q) (x y : Q) :
  In y (x :: r) -> (fold_left Qmin r x <= y)%Q.
Proof.
  revert x y. induction r as [|z r IH]; intros x y.
  - intros [->|[]]. apply Qle_refl.
  - cbn [fold_left]. intros [->|[->|H]].
    + apply (Qle_trans _ (Qmin y z)); [apply IH; by left|apply Q.le_min_l].
    + apply (Qle_trans _ (Qmin x y)); [apply IH; by left|apply Q.le_min_r].
    + apply IH. by right.
Qed.

Lemma fold_max_ge (r : list Q) (x y : Q) :
  In y (x :: r) -> (y <= fold_left Qmax r x)%Q.
Proof.
  revert x y. induction r as [|z r IH]; intros x y.
  - intros [->|[]]. apply Qle_refl.
  - cbn [fold_left]. intros [->|[->|H]].
    + apply (Qle_trans _ (Qmax y z)); [apply Q.le_max_l|apply IH; by left].
    + apply (Qle_trans _ (Qmax x y)); [apply Q.le_max_r|apply IH; by left].
    + apply IH. by right.
Qed.

Lemma fold_min_bound (r : list Q) (x b : Q) :
  (forall y, In y (x :: r) -> (b <= y)%Q) -> (b <= fold_left Qmin r x)%Q.
Proof.
  revert x. induction r as [|z r IH]; intros x Hall; cbn [fold_left].
  - apply Hall. by left.
  - apply IH. intros y [<-|Hy].
    + apply Q.min_glb; apply Hall; cbn; tauto.
    + apply Hall. cbn. tauto.
Qed.

Lemma fold_max_bound (r : list Q) (x b : Q) :
  (forall y, In y (x :: r) -> (y <= b)%Q) -> (fold_left Qmax r x <= b)%Q.
Proof.
  revert x. induction r as [|z r IH]; intros x Hall; cbn [fold_left].
  - apply Hall. by left.
  - apply IH. intros y [<-|Hy].
    + apply Q.max_lub; apply Hall; cbn; tauto.
    + apply Hall. cbn. tauto.
Qed.

Lemma min_max_of (l : list Q) (v : Q) :
  In v l ->
  exists mn mx, Heat.Math_min l = Some mn /\ Heat.Math_max l = Some mx /\
                (mn <= v)%Q /\ (v <= mx)%Q.
Proof.
  destruct l as [|x r]; [intros []|]. intros Hin.
  eexists _, _. split; [reflexivity|]. split; [reflexivity|].
  split; [by apply fold_min_le|by apply fold_max_ge].
Qed.

Lemma allVals_In (m : list (list Q)) (i j : nat) (row : list Q) (v : Q) :
  m !! i = Some row -> row !! j = Some v -> i <> j -> In v (Heat.allVals m).
Proof.
  intros Hi Hj Hne. unfold Heat.allVals. apply in_concat.
  eexists. split.
  - apply list_elem_of_In, elem_of_lookup_imap. by exists i, row.
  - apply in_concat. exists [v]. split; [|by left].
    apply list_elem_of_In, elem_of_lookup_imap. exists j, v. split; [|done].
    by rewrite (proj2 (Nat.eqb_neq i j)).
Qed.

Lemma round_between (a b x : Q) :
  (a <= x)%Q -> (x <= b)%Q -> (Heat.round a <= Heat.round x <= Heat.round b)%Z.
Proof. intros Ha Hb. split; apply Qfloor_resp_le; lra. Qed.

Lemma heat_fraction (mn mx v : Q) :
  (mn <= v)%Q -> (v <= mx)%Q -> Qeq_bool mx mn = false ->
  (0 <= (v - mn) / (mx - mn))%Q /\ ((v - mn) / (mx - mn) <= 1)%Q.
Proof.
  intros Hlo Hhi Hne.
  assert (Hlt : (0 < mx - mn)%Q).
  { apply Qeq_bool_neq in Hne. destruct (Qlt_le_dec mn mx) as [H|H]; [lra|].
    exfalso. apply Hne. apply Qle_antisym; lra. }
  split.
  - apply Qle_shift_div_l; [done|]. lra.
  - apply Qle_shift_div_r; [done|]. lra.
Qed.

Lemma heatColor_channels (mn mx v : Q) :
  (mn <= v)%Q -> (v <= mx)%Q ->
  exists r g b,
    Heat.heatColor (Some mn) (Some mx) v false = Heat.Background r g b /\
    (0 <= r <= 161)%Z /\ (100 <= g <= 158)%Z /\ (0 <= b <= 100)%Z /\
    (Qeq_bool mx mn = true -> r = 81%Z /\ g = 129%Z /\ b = 50%Z).
Proof.
  intros Hlo Hhi. unfold Heat.heatColor.
  destruct (Qeq_bool mx mn) eqn:E.
  - eexists _, _, _. split; [reflexivity|]. by vm_compute.
  - destruct (heat_fraction mn mx v Hlo Hhi E) as [H0 H1].
    set (t := ((v - mn) / (mx - mn))%Q) in *.
    eexists _, _, _. split; [reflexivity|].
    split; [|split; [|split; [|done]]].
    + apply (round_between 0 161); lra.
    + apply (round_between 100 158); lra.
    + apply (round_between 0 100); lra.
Qed.

(** In a matrix table no cell of the diagonal is tinted, and every other
    cell gets a background whose red, green and blue channels lie in 0..161,
    100..158 and 0..100, so the style is always a colour; when all values off
    the diagonal are equal the colour is the middle one.  The table has one
    row of cells per ticker. *)
Theorem heat_map_colours (d : Heat.MatrixData) (rows : list (list Heat.Style))
    (i j : nat) (row : list Heat.Style) (s : Heat.Style) :
  Heat.matrixTable (Some d) = Some (Heat.Cells rows) ->
  rows !! i = Some row -> row !! j = Some s ->
  (exists ts, Heat.tickers d = Some ts /\ length rows = length ts) /\
  (i = j -> s = Heat.NoStyle) /\
  (i <> j ->
   exists r g b,
     s = Heat.Background r g b /\
     (0 <= r <= 161)%Z /\ (100 <= g <= 158)%Z /\ (0 <= b <= 100)%Z /\
     ((forall v w, In v (Heat.allVals (Heat.matrix d)) ->
                   In w (Heat.allVals (Heat.matrix d)) -> (v == w)%Q) ->
      r = 81%Z /\ g = 129%Z /\ b = 50%Z)).
Proof.
  unfold Heat.matrixTable. destruct (Heat.tickers d) as [ts|]; [|done].
  intros Hm Hi Hj. apply fmap_Some in Hm as (rows' & Hm & [= <-]).
  apply mapM_Some in Hm. pose proof (Forall2_length _ _ _ Hm) as Hlen.
  rewrite length_seq in Hlen.
  split; [by exists ts|].
  destruct (Forall2_lookup_r _ _ _ _ _ Hm Hi) as (i' & Hseq & Hrow).
  apply lookup_seq in Hseq as [-> _]. cbn [Nat.add] in Hrow.
  apply fmap_Some in Hrow as (vals & Hvals & ->).
  rewrite list_lookup_imap in Hj. apply fmap_Some in Hj as (v & Hv & ->).
  split.
  - intros <-. by rewrite Nat.eqb_refl.
  - intros Hne. rewrite (proj2 (Nat.eqb_neq i j) Hne).
    pose proof (allVals_In _ _ _ _ _ Hvals Hv Hne) as Hin.
    destruct (min_max_of _ _ Hin) as (mn & mx & Hmin & Hmax & Hlo & Hhi).
    rewrite Hmin, Hmax.
    destruct (heatColor_channels mn mx v Hlo Hhi) as (r & g & b & Hs & Hr & Hg & Hb & Hc).
    exists r, g, b. split; [done|]. split; [done|]. split; [done|]. split; [done|].
    intros Hsame. apply Hc. apply Qeq_bool_iff.
    destruct (Heat.allVals (Heat.matrix d)) as [|x rest] eqn:Ea; [done|].
    injection Hmin as <-. injection Hmax as <-.
    apply Qle_antisym; [|lra].
    apply (Qle_trans _ x).
    + apply fold_max_bound. intros y Hy. rewrite (Hsame y x Hy); [apply Qle_refl|by left].
    + apply fold_min_bound. intros y Hy. rewrite (Hsame y x Hy); [apply Qle_refl|by left].
Qed.

Lemma heat_map_colours_witness :
  exists r g b,
    Heat.Background 0 100 100 = Heat.Background r g b /\
    (0 <= r <= 161)%Z /\ (100 <= g <= 158)%Z /\ (0 <= b <= 100)%Z /\
    ((forall v w, In v (Heat.allVals (Heat.matrix SampleHeat.correlation)) ->
                  In w (Heat.allVals (Heat.matrix SampleHeat.correlation)) -> (v == w)%Q) ->
     r = 81%Z /\ g = 129%Z /\ b = 50%Z).
Proof.
  apply (heat_map_colours SampleHeat.correlation
           [[Heat.NoStyle; Heat.Background 81 129 50; Heat.Background 0 100 100];
            [Heat.Background 81 129 50; Heat.NoStyle; Heat.Background 161 158 0];
            [Heat.Background 0 100 100; Heat.Background 161 158 0; Heat.NoStyle]]
           0 2
           [Heat.NoStyle; Heat.Background 81 129 50; Heat.Background 0 100 100]
           (Heat.Background 0 100 100)).
  - vm_compute. reflexivity.
  - reflexivity.
  - reflexivity.
  - lia.
Defined.

Example heat_map_of_correlation :
  Heat.matrixTable (Some SampleHeat.correlation)
  = Some (Heat.Cells
            [[Heat.NoStyle; Heat.Background 81 129 50; Heat.Background 0 100 100];
             [Heat.Background 81 129 50; Heat.NoStyle; Heat.Background 161 158 0];
             [Heat.Background 0 100 100; Heat.Background 161 158 0; Heat.NoStyle]]).
Proof. vm_compute. reflexivity. Qed.
